(** * docker_image_pusher: the Cloudflare worker of [src/index.js]

    A shallow embedding of the worker (the [/update] read-modify-write flow
    against the GitHub contents API and the [/webhook] signature check) and
    the properties of its specification.

    JavaScript strings are sequences of UTF-16 code units, JSON values are
    an inductive type, and the runtime (the global [fetch], [JSON.parse],
    [crypto.subtle], number printing) is an interface, [Platform], that
    the handlers are parametrised by.  Handlers run in a small state and
    exception monad whose state is the remote service together with the
    chronological trace of the runtime calls made so far. *)

From Stdlib Require Import String Ascii DecimalString Strings.Byte.
From Stdlib Require Import ZArith List Bool Lia.
From Stdlib Require Import Floats.PrimFloat.
Import ListNotations.
Local Open Scope Z_scope.
Local Open Scope list_scope.

(* ================================================================== *)
(** * Part I: definitions *)
(* ================================================================== *)

(** ** JavaScript strings *)

(** A string is the list of its UTF-16 code units, each in [0, 65536). *)
Definition jsstring := list Z.

Definition is_code_unit (u : Z) : Prop := 0 <= u < 65536.

(** A literal of the source, written with the ASCII characters it has. *)
Definition js (s : string) : jsstring :=
  map (fun a => Z.of_N (N_of_ascii a)) (list_ascii_of_string s).

Definition jsstring_dec : forall a b : jsstring, {a = b} + {a <> b} :=
  list_eq_dec Z.eq_dec.

(** [a === b] on two strings. *)
Definition str_eqb (a b : jsstring) : bool :=
  if jsstring_dec a b then true else false.

(** [Array.prototype.join] on strings. *)
Fixpoint join (sep : jsstring) (parts : list jsstring) : jsstring :=
  match parts with
  | [] => []
  | [p] => p
  | p :: rest => p ++ sep ++ join sep rest
  end.

(** [String.prototype.padStart(n, "0")]. *)
Definition padStart0 (n : nat) (s : jsstring) : jsstring :=
  List.repeat 48 (n - List.length s) ++ s.

(** A text of the documentation that holds double quotes, written with [']
    in their place: [quoted "{'a':1}"] is the JSON text of an object. *)
Definition quoted (s : string) : jsstring :=
  map (fun c => if c =? 39 then 34 else c) (js s).

(** The decimal rendering of a non-negative integer, [`${n}`]. *)
Definition decimal (n : Z) : jsstring :=
  js (NilZero.string_of_uint (N.to_uint (Z.to_N n))).

(** ** Exceptions *)

Record js_error := mk_error { err_name : jsstring; err_message : jsstring }.

Definition new_Error (msg : jsstring) : js_error := mk_error (js "Error") msg.
Definition new_TypeError (msg : jsstring) : js_error := mk_error (js "TypeError") msg.
Definition new_URIError (msg : jsstring) : js_error := mk_error (js "URIError") msg.
Definition new_InvalidCharacterError (msg : jsstring) : js_error :=
  mk_error (js "InvalidCharacterError") msg.

Inductive result (A : Type) : Type :=
| OK (a : A)
| Throw (e : js_error).
Arguments OK {A} a.
Arguments Throw {A} e.

Definition result_bind {A B} (r : result A) (k : A -> result B) : result B :=
  match r with
  | OK a => k a
  | Throw e => Throw e
  end.

Definition result_map {A B} (f : A -> B) (r : result A) : result B :=
  result_bind r (fun a => OK (f a)).

(** ** Unicode transformation formats *)

Module Unicode.

Definition is_lead (u : Z) : bool := (0xD800 <=? u) && (u <=? 0xDBFF).
Definition is_trail (u : Z) : bool := (0xDC00 <=? u) && (u <=? 0xDFFF).

(** The code point of a surrogate pair. *)
Definition pair_code_point (lead trail : Z) : Z :=
  (lead - 0xD800) * 0x400 + (trail - 0xDC00) + 0x10000.

(** The UTF-8 octets of one code point. *)
Definition utf8_octets (cp : Z) : list Z :=
  if cp <? 0x80 then [cp]
  else if cp <? 0x800 then [0xC0 + cp / 64; 0x80 + cp mod 64]
  else if cp <? 0x10000 then
    [0xE0 + cp / 4096; 0x80 + (cp / 64) mod 64; 0x80 + cp mod 64]
  else
    [0xF0 + cp / 262144; 0x80 + (cp / 4096) mod 64;
     0x80 + (cp / 64) mod 64; 0x80 + cp mod 64].

(** [String.prototype.isWellFormed]: no unpaired surrogate. *)
Fixpoint isWellFormed (s : jsstring) : bool :=
  match s with
  | [] => true
  | c :: t =>
      if is_lead c then
        match t with
        | d :: t' => is_trail d && isWellFormed t'
        | [] => false
        end
      else if is_trail c then false
      else isWellFormed t
  end.

(** The code points of a string; an unpaired surrogate stands for itself
    (the specification's StringToCodePoints). *)
Fixpoint code_points (s : jsstring) : list Z :=
  match s with
  | [] => []
  | c :: t =>
      if is_lead c then
        match t with
        | d :: t' =>
            if is_trail d then pair_code_point c d :: code_points t'
            else c :: code_points t
        | [] => [c]
        end
      else c :: code_points t
  end.

(** UTF-16 code units of one code point. *)
Definition utf16_units (cp : Z) : list Z :=
  if cp <? 0x10000 then [cp]
  else [0xD800 + (cp - 0x10000) / 0x400; 0xDC00 + (cp - 0x10000) mod 0x400].

Definition utf16_encode (cps : list Z) : jsstring := flat_map utf16_units cps.

(** The UTF-8 encoding of a well-formed string. *)
Definition utf8_encode (s : jsstring) : list Z :=
  flat_map utf8_octets (code_points s).

(** [TextEncoder.prototype.encode]: UTF-8, an unpaired surrogate becomes
    U+FFFD. *)
Definition scalar_or_replacement (cp : Z) : Z :=
  if is_lead cp || is_trail cp then 0xFFFD else cp.

Definition octet_to_byte (z : Z) : byte :=
  match Byte.of_N (Z.to_N z) with
  | Some b => b
  | None => x00
  end.

Definition TextEncoder_encode (s : jsstring) : list byte :=
  map octet_to_byte
    (flat_map (fun cp => utf8_octets (scalar_or_replacement cp)) (code_points s)).

Definition is_continuation (b : Z) : bool := (0x80 <=? b) && (b <? 0xC0).

(** A strict UTF-8 decoder (shortest form only, no surrogates, at most
    U+10FFFF), as a fatal [TextDecoder] does it. *)
Fixpoint utf8_decode (l : list Z) : option (list Z) :=
  match l with
  | [] => Some []
  | b0 :: t =>
      if (0 <=? b0) && (b0 <? 0x80) then option_map (cons b0) (utf8_decode t)
      else if (0xC0 <=? b0) && (b0 <? 0xE0) then
        match t with
        | b1 :: r =>
            let cp := (b0 - 0xC0) * 64 + (b1 - 0x80) in
            if is_continuation b1 && (0x80 <=? cp)
            then option_map (cons cp) (utf8_decode r) else None
        | _ => None
        end
      else if (0xE0 <=? b0) && (b0 <? 0xF0) then
        match t with
        | b1 :: b2 :: r =>
            let cp := (b0 - 0xE0) * 4096 + (b1 - 0x80) * 64 + (b2 - 0x80) in
            if is_continuation b1 && is_continuation b2 && (0x800 <=? cp)
               && negb (is_lead cp || is_trail cp)
            then option_map (cons cp) (utf8_decode r) else None
        | _ => None
        end
      else if (0xF0 <=? b0) && (b0 <? 0xF8) then
        match t with
        | b1 :: b2 :: b3 :: r =>
            let cp := (b0 - 0xF0) * 262144 + (b1 - 0x80) * 4096
                      + (b2 - 0x80) * 64 + (b3 - 0x80) in
            if is_continuation b1 && is_continuation b2 && is_continuation b3
               && (0x10000 <=? cp) && (cp <=? 0x10FFFF)
            then option_map (cons cp) (utf8_decode r) else None
        | _ => None
        end
      else None
  end.

(** Decoding octets as UTF-8 into a JavaScript string. *)
Definition TextDecoder_decode (l : list Z) : option jsstring :=
  option_map utf16_encode (utf8_decode l).

End Unicode.

(** ** Hexadecimal digits *)

Module Hex.

Definition digit_lower (d : Z) : Z := if d <? 10 then 48 + d else 87 + d.
Definition digit_upper (d : Z) : Z := if d <? 10 then 48 + d else 55 + d.

(** The value of a hexadecimal digit, in either case. *)
Definition digit_value (c : Z) : option Z :=
  if (48 <=? c) && (c <=? 57) then Some (c - 48)
  else if (65 <=? c) && (c <=? 70) then Some (c - 55)
  else if (97 <=? c) && (c <=? 102) then Some (c - 87)
  else None.

(** [Number.prototype.toString(16)] on a non-negative integer: no leading
    zeros, lowercase digits. *)
Fixpoint pos_digits (p : positive) (fuel : nat) : jsstring :=
  match fuel with
  | O => []
  | S f =>
      (if Z.pos p / 16 =? 0 then []
       else pos_digits (Z.to_pos (Z.pos p / 16)) f)
      ++ [digit_lower (Z.pos p mod 16)]
  end.

Definition toString16 (n : Z) : jsstring :=
  match n with
  | Z.pos p => pos_digits p (Pos.size_nat p)
  | _ => [48]
  end.

(** Two uppercase digits, as in a percent escape. *)
Definition upper2 (b : Z) : jsstring := [digit_upper (b / 16); digit_upper (b mod 16)].

(** Two lowercase digits per byte: the lowercase hexadecimal rendering
    of a byte string. *)
Definition lower2 (b : byte) : jsstring :=
  let n := Z.of_N (Byte.to_N b) in [digit_lower (n / 16); digit_lower (n mod 16)].

Definition hex_lower (bs : list byte) : jsstring := flat_map lower2 bs.

(** Four lowercase digits, as in a [\uXXXX] escape. *)
Definition lower4 (u : Z) : jsstring :=
  [digit_lower (u / 4096); digit_lower ((u / 256) mod 16);
   digit_lower ((u / 16) mod 16); digit_lower (u mod 16)].

End Hex.

(** ** URI escaping: [encodeURIComponent] and [unescape] *)

Module URI.

(** uriUnreserved: letters, digits and [- _ . ! ~ * ' ( )]. *)
Definition uriUnreserved (c : Z) : bool :=
  ((65 <=? c) && (c <=? 90)) || ((97 <=? c) && (c <=? 122))
  || ((48 <=? c) && (c <=? 57))
  || (c =? 45) || (c =? 95) || (c =? 46) || (c =? 33) || (c =? 126)
  || (c =? 42) || (c =? 39) || (c =? 40) || (c =? 41).

(** ["%XX"] for every octet. *)
Definition percent_octets (octets : list Z) : jsstring :=
  flat_map (fun b => 37 :: Hex.upper2 b) octets.

Definition URI_malformed : js_error := new_URIError (js "URI malformed").

(** The abstract operation Encode with the unreserved set of
    [encodeURIComponent]: it throws a URIError at an unpaired surrogate. *)
Fixpoint Encode (s : jsstring) : result jsstring :=
  match s with
  | [] => OK []
  | c :: t =>
      if uriUnreserved c then result_map (cons c) (Encode t)
      else if Unicode.is_lead c then
        match t with
        | d :: t' =>
            if Unicode.is_trail d
            then result_map
                   (app (percent_octets
                           (Unicode.utf8_octets (Unicode.pair_code_point c d))))
                   (Encode t')
            else Throw URI_malformed
        | [] => Throw URI_malformed
        end
      else if Unicode.is_trail c then Throw URI_malformed
      else result_map (app (percent_octets (Unicode.utf8_octets c))) (Encode t)
  end.

Definition hex2 (a b : Z) : option Z :=
  match Hex.digit_value a, Hex.digit_value b with
  | Some x, Some y => Some (x * 16 + y)
  | _, _ => None
  end.

Definition hex4 (a b c d : Z) : option Z :=
  match hex2 a b, hex2 c d with
  | Some x, Some y => Some (x * 256 + y)
  | _, _ => None
  end.

(** [unescape]: [%uXXXX] and [%XX] become the code unit they name; a
    [%] that starts neither form stays. *)
Fixpoint unescape (s : jsstring) : jsstring :=
  match s with
  | [] => []
  | c :: t =>
      if c =? 37 then
        match t with
        | a :: b :: r2 =>
            if a =? 117 then
              match r2 with
              | h2 :: h3 :: h4 :: r5 =>
                  match hex4 b h2 h3 h4 with
                  | Some n => n :: unescape r5
                  | None => 37 :: unescape t
                  end
              | _ => 37 :: unescape t
              end
            else
              match hex2 a b with
              | Some n => n :: unescape r2
              | None => 37 :: unescape t
              end
        | _ => 37 :: unescape t
        end
      else c :: unescape t
  end.

End URI.

(** ** Base64 *)

Module Base64.

(** The character of a 6-bit value in the standard alphabet. *)
Definition char (i : Z) : Z :=
  if i <? 26 then 65 + i
  else if i <? 52 then 71 + i
  else if i <? 62 then i - 4
  else if i =? 62 then 43
  else 47.

Definition pad : Z := 61.

(** The encoding of a sequence of octets, padded with [=]. *)
Fixpoint encode (l : list Z) : jsstring :=
  match l with
  | [] => []
  | [a] => [char (a / 4); char ((a mod 4) * 16); pad; pad]
  | [a; b] =>
      [char (a / 4); char ((a mod 4) * 16 + b / 16); char ((b mod 16) * 4); pad]
  | a :: b :: c :: r =>
      [char (a / 4); char ((a mod 4) * 16 + b / 16);
       char ((b mod 16) * 4 + c / 64); char (c mod 64)] ++ encode r
  end.

(** [btoa]: every code unit of the argument has to be at most 255. *)
Definition btoa (s : jsstring) : result jsstring :=
  if forallb (fun u => u <=? 255) s then OK (encode s)
  else Throw (new_InvalidCharacterError (js "Invalid character")).

(** The 6-bit value of a character of the alphabet. *)
Definition value_of (c : Z) : option Z :=
  if (65 <=? c) && (c <=? 90) then Some (c - 65)
  else if (97 <=? c) && (c <=? 122) then Some (c - 71)
  else if (48 <=? c) && (c <=? 57) then Some (c + 4)
  else if c =? 43 then Some 62
  else if c =? 47 then Some 63
  else None.

(** The decoder: groups of four characters, padding only in the last
    group. *)
Fixpoint decode (s : jsstring) : option (list Z) :=
  match s with
  | [] => Some []
  | c1 :: c2 :: c3 :: c4 :: r =>
      match value_of c1, value_of c2 with
      | Some v1, Some v2 =>
          if c4 =? pad then
            match r with
            | [] =>
                if c3 =? pad then Some [v1 * 4 + v2 / 16]
                else
                  match value_of c3 with
                  | Some v3 => Some [v1 * 4 + v2 / 16; (v2 mod 16) * 16 + v3 / 4]
                  | None => None
                  end
            | _ => None
            end
          else
            match value_of c3, value_of c4 with
            | Some v3, Some v4 =>
                option_map
                  (app [v1 * 4 + v2 / 16; (v2 mod 16) * 16 + v3 / 4;
                        (v3 mod 4) * 64 + v4])
                  (decode r)
            | _, _ => None
            end
      | _, _ => None
      end
  | _ => None
  end.

End Base64.

(** Reading a Base64 text back as UTF-8 text: the inverse that the
    specification asks [base64Encode] to have. *)
Definition decode_base64_utf8 (encoded : jsstring) : option jsstring :=
  match Base64.decode encoded with
  | Some octets => Unicode.TextDecoder_decode octets
  | None => None
  end.

(** A Unicode scalar value: a code point that is not a surrogate. *)
Definition is_scalar (cp : Z) : Prop :=
  0 <= cp < 0x110000 /\ ~ (0xD800 <= cp <= 0xDFFF).

Definition is_octet (b : Z) : Prop := 0 <= b < 256.

(** ** JavaScript values *)

(** The values the worker handles: what [JSON.parse] returns, and
    [undefined] for a property that is not there.  The fields of an object
    are in property order. *)
#[warnings="-register-all"]
Inductive value : Type :=
| VUndefined
| VNull
| VBool (b : bool)
| VNum (n : float)
| VStr (s : jsstring)
| VArr (elems : list value)
| VObj (fields : list (jsstring * value)).

(** ToBoolean: [undefined], [null], [false], [0], [-0], [NaN] and the
    empty string are falsy. *)
Definition ToBoolean (v : value) : bool :=
  match v with
  | VUndefined | VNull => false
  | VBool b => b
  | VNum n => negb (PrimFloat.eqb n 0%float || PrimFloat.is_nan n)
  | VStr s => match s with [] => false | _ => true end
  | VArr _ | VObj _ => true
  end.

(** Whether an object has a property of its own with the name [k]. *)
Definition has_key (k : jsstring) (fields : list (jsstring * value)) : bool :=
  existsb (fun kv => str_eqb k (fst kv)) fields.

Fixpoint lookup (k : jsstring) (fields : list (jsstring * value)) : value :=
  match fields with
  | [] => VUndefined
  | (k', v) :: rest => if str_eqb k k' then v else lookup k rest
  end.

(** The message V8 gives a property read on [null] or [undefined]. *)
Definition cannot_read (what k : jsstring) : js_error :=
  new_TypeError (js "Cannot read properties of " ++ what ++ js " (reading '"
                 ++ k ++ js "')").

Definition nullish (v : value) : bool :=
  match v with
  | VUndefined | VNull => true
  | _ => false
  end.

(** [v.k] for the property names the worker reads ([content], [sha],
    [commit], [action], [workflow_run], [name], [status], [conclusion],
    [head_sha]): an own property of an object, [undefined] on any other
    value, a TypeError on [null] and [undefined]. *)
Definition prop (v : value) (k : jsstring) : value :=
  match v with
  | VObj fields => lookup k fields
  | _ => VUndefined
  end.

Definition Get (v : value) (k : jsstring) : result value :=
  match v with
  | VUndefined => Throw (cannot_read (js "undefined") k)
  | VNull => Throw (cannot_read (js "null") k)
  | _ => OK (prop v k)
  end.

(** [v?.k]. *)
Definition GetOptional (v : value) (k : jsstring) : result value :=
  match v with
  | VUndefined | VNull => OK VUndefined
  | _ => Get v k
  end.

(** [v === "literal"]. *)
Definition strict_eq_string (v : value) (lit : jsstring) : bool :=
  match v with
  | VStr s => str_eqb s lit
  | _ => false
  end.

(** ** The runtime *)

(** What the global [fetch] is called with: the URL and the members of the
    init object ([method] and [body] may be missing). *)
Record fetch_request := mk_fetch_request {
  fr_url : jsstring;
  fr_method : option jsstring;
  fr_headers : list (jsstring * jsstring);
  fr_body : option jsstring
}.

(** What the remote service answers: [response.status] and the text that
    [response.text()] resolves to. *)
Record http_response := mk_http_response {
  hr_status : Z;
  hr_text : jsstring
}.

(** [response.ok]. *)
Definition hr_ok (r : http_response) : bool :=
  (200 <=? hr_status r) && (hr_status r <=? 299).

(** The functions of the Workers runtime that the worker calls.  The remote
    service has a state of its own, which a request may change; [JSON.parse]
    throws a SyntaxError on a text that is not JSON; both calls of
    [crypto.subtle] may reject. *)
Class Platform : Type := {
  remote_state : Type;
  CryptoKey : Type;
  platform_fetch :
    remote_state -> fetch_request -> result http_response * remote_state;
  JSON_parse : jsstring -> result value;
  subtle_importKey : list byte -> result CryptoKey;
  subtle_sign : CryptoKey -> list byte -> result (list byte);
  Number_toString : float -> jsstring
}.

(** The calls into the runtime, as they are recorded in the trace. *)
Inductive event : Type :=
| EvRequestText
| EvJsonParse (text : jsstring)
| EvImportKey (key : list byte)
| EvSign (data : list byte)
| EvFetch (req : fetch_request).

Definition is_fetch (e : event) : bool :=
  match e with EvFetch _ => true | _ => false end.

Definition is_json_parse (e : event) : bool :=
  match e with EvJsonParse _ => true | _ => false end.

(** The two calls of [crypto.subtle], which compute locally. *)
Definition is_crypto (e : event) : bool :=
  match e with EvImportKey _ | EvSign _ => true | _ => false end.

(** A fetch whose method is [PUT]: a write to the remote service. *)
Definition is_write (e : event) : bool :=
  match e with
  | EvFetch req =>
      match fr_method req with
      | Some m => str_eqb m (js "PUT")
      | None => false
      end
  | _ => false
  end.

Section Runtime.

Context {P : Platform}.

(** *** Conversions and [JSON.stringify] *)

(** The TypeError of an object that has no primitive value. *)
Definition cannot_convert : js_error :=
  new_TypeError (js "Cannot convert object to primitive value").

(** ToString.  An array joins its elements with a comma, [null] and
    [undefined] elements being empty.  An object gives ["[object Object]"]
    through [Object.prototype.toString], unless it has a [toString]
    property of its own: a value out of [JSON.parse] is never callable, the
    inherited [valueOf] returns the object itself, and the conversion
    throws a TypeError. *)
Fixpoint ToString (v : value) : result jsstring :=
  match v with
  | VUndefined => OK (js "undefined")
  | VNull => OK (js "null")
  | VBool true => OK (js "true")
  | VBool false => OK (js "false")
  | VNum n => OK (Number_toString n)
  | VStr s => OK s
  | VArr elems =>
      result_map (join [44])
        ((fix each (l : list value) : result (list jsstring) :=
            match l with
            | [] => OK []
            | e :: rest =>
                result_bind
                  (match e with
                   | VUndefined | VNull => OK []
                   | _ => ToString e
                   end)
                  (fun text => result_map (cons text) (each rest))
            end) elems)
  | VObj fields =>
      if has_key (js "toString") fields then Throw cannot_convert
      else OK (js "[object Object]")
  end.

Definition unicode_escape (u : Z) : jsstring := 92 :: 117 :: Hex.lower4 u.

(** One code unit that is not part of a surrogate pair, inside a JSON
    string. *)
Definition quote_unit (c : Z) : jsstring :=
  if c =? 8 then [92; 98]
  else if c =? 9 then [92; 116]
  else if c =? 10 then [92; 110]
  else if c =? 12 then [92; 102]
  else if c =? 13 then [92; 114]
  else if c =? 34 then [92; 34]
  else if c =? 92 then [92; 92]
  else if (c <? 32) || Unicode.is_lead c || Unicode.is_trail c
  then unicode_escape c
  else [c].

Fixpoint quote_units (s : jsstring) : jsstring :=
  match s with
  | [] => []
  | c :: t =>
      if Unicode.is_lead c then
        match t with
        | d :: t' =>
            if Unicode.is_trail d then c :: d :: quote_units t'
            else quote_unit c ++ quote_units t
        | [] => quote_unit c
        end
      else quote_unit c ++ quote_units t
  end.

(** QuoteJSONString. *)
Definition QuoteJSONString (s : jsstring) : jsstring :=
  [34] ++ quote_units s ++ [34].

Definition is_finite (n : float) : bool :=
  negb (PrimFloat.is_nan n || PrimFloat.is_infinity n).

(** The text between the brackets of an object or array. *)
Definition wrap (opening closing : Z) (gap indent : jsstring)
    (partial : list jsstring) : jsstring :=
  match partial with
  | [] => [opening; closing]
  | _ =>
      match gap with
      | [] => [opening] ++ join [44] partial ++ [closing]
      | _ =>
          let inner := indent ++ gap in
          [opening; 10] ++ inner ++ join ([44; 10] ++ inner) partial
          ++ [10] ++ indent ++ [closing]
      end
  end.

(** SerializeJSONProperty: [None] is [undefined].  A member whose value
    is [undefined] is left out of an object and is [null] in an array. *)
Fixpoint SerializeJSONProperty (gap indent : jsstring) (v : value)
  : option jsstring :=
  match v with
  | VUndefined => None
  | VNull => Some (js "null")
  | VBool true => Some (js "true")
  | VBool false => Some (js "false")
  | VNum n => Some (if is_finite n then Number_toString n else js "null")
  | VStr s => Some (QuoteJSONString s)
  | VArr elems =>
      Some (wrap 91 93 gap indent
              (map (fun e =>
                      match SerializeJSONProperty gap (indent ++ gap) e with
                      | Some s => s
                      | None => js "null"
                      end) elems))
  | VObj fields =>
      Some (wrap 123 125 gap indent
              ((fix members (fs : list (jsstring * value)) : list jsstring :=
                  match fs with
                  | [] => []
                  | (k, e) :: rest =>
                      match SerializeJSONProperty gap (indent ++ gap) e with
                      | Some s =>
                          (QuoteJSONString k ++ [58]
                           ++ (match gap with [] => [] | _ => [32] end) ++ s)
                          :: members rest
                      | None => members rest
                      end
                  end) fields))
  end.

(** [JSON.stringify(v)] and [JSON.stringify(v, null, 2)]. *)
Definition JSON_stringify (v : value) : option jsstring :=
  SerializeJSONProperty [] [] v.

Definition JSON_stringify_indent2 (v : value) : option jsstring :=
  SerializeJSONProperty [32; 32] [] v.

(** A value inside a template literal. *)
Definition template_text (o : option jsstring) : jsstring :=
  match o with
  | Some s => s
  | None => js "undefined"
  end.

(** *** [base64Encode] *)

Definition encodeURIComponent (v : value) : result jsstring :=
  result_bind (ToString v) URI.Encode.

Definition base64Encode (str : value) : result jsstring :=
  result_bind (encodeURIComponent str) (fun escaped =>
    Base64.btoa (URI.unescape escaped)).

(** *** The monad of the handlers *)

Record world := mk_world {
  remote : remote_state;
  trace : list event
}.

Definition M (A : Type) : Type := world -> result A * world.

Definition ret {A} (a : A) : M A := fun w => (OK a, w).
Definition throw {A} (e : js_error) : M A := fun w => (Throw e, w).

Definition bind {A B} (m : M A) (k : A -> M B) : M B :=
  fun w =>
    match m w with
    | (OK a, w') => k a w'
    | (Throw e, w') => (Throw e, w')
    end.

(** [try { m } catch (err) { h err }]. *)
Definition try_catch {A} (m : M A) (h : js_error -> M A) : M A :=
  fun w =>
    match m w with
    | (OK a, w') => (OK a, w')
    | (Throw e, w') => h e w'
    end.

Definition lift {A} (r : result A) : M A := fun w => (r, w).

Definition record (e : event) (w : world) : world :=
  mk_world (remote w) (trace w ++ [e]).

End Runtime.

Declare Scope js_scope.
Delimit Scope js_scope with js_m.
Notation "x <- m ;; k" := (bind m (fun x => k))
  (at level 61, m at next level, right associativity) : js_scope.
Local Open Scope js_scope.

(** ** The worker *)

(** The incoming request: [request.method], the [pathname] of
    [new URL(request.url)], the headers (names in lower case, as a
    [Headers] object keeps them) and the text of the body. *)
Record Request := mk_Request {
  req_method : jsstring;
  req_pathname : jsstring;
  req_headers : list (jsstring * jsstring);
  req_body : jsstring
}.

Record Response := mk_Response {
  resp_status : Z;
  resp_headers : list (jsstring * jsstring);
  resp_body : jsstring
}.

(** The bindings of the deployment. *)
Record Env := mk_Env {
  GITHUB_OWNER : jsstring;
  GITHUB_REPO : jsstring;
  FILE_PATH : jsstring;
  BRANCH : jsstring;
  GH_TOKEN : jsstring;
  WEBHOOK_SECRET : jsstring
}.

(** The members of the [options] argument of [safeGitHubRequest]. *)
Record Options := mk_Options {
  opt_method : option jsstring;
  opt_body : option jsstring;
  opt_headers : option (list (jsstring * jsstring))
}.

Definition no_options : Options := mk_Options None None None.

Definition ascii_lowercase (s : jsstring) : jsstring :=
  map (fun c => if (65 <=? c) && (c <=? 90) then c + 32 else c) s.

(** [headers.get(name)]: the values of the header, joined with a comma
    and a space when it is repeated; [None] is [null]. *)
Definition Headers_get (hs : list (jsstring * jsstring)) (name : jsstring)
  : option jsstring :=
  match map snd
          (filter (fun kv => str_eqb (ascii_lowercase (fst kv)) (ascii_lowercase name))
                  hs) with
  | [] => None
  | values => Some (join (js ", ") values)
  end.

(** [request.headers.get("x-hub-signature-256")]. *)
Definition signature_header (request : Request) : option jsstring :=
  Headers_get (req_headers request) (js "x-hub-signature-256").

(** [{...a, ...b}] on string-valued objects: a key of [b] that [a] has
    takes the place it has in [a]. *)
Fixpoint set_prop (k v : jsstring) (o : list (jsstring * jsstring))
  : list (jsstring * jsstring) :=
  match o with
  | [] => [(k, v)]
  | (k', v') :: rest =>
      if str_eqb k k' then (k, v) :: rest else (k', v') :: set_prop k v rest
  end.

Definition spread (a b : list (jsstring * jsstring)) : list (jsstring * jsstring) :=
  fold_left (fun o kv => set_prop (fst kv) (snd kv) o) b a.

(** [new Response(body, {status, headers})]: a text body without a content
    type is [text/plain]. *)
Definition new_Response (body : option jsstring) (status : Z)
    (headers : list (jsstring * jsstring)) : Response :=
  let hs := map (fun kv => (ascii_lowercase (fst kv), snd kv)) headers in
  mk_Response status
    (match body, Headers_get hs (js "content-type") with
     | Some _, None => hs ++ [(js "content-type", js "text/plain;charset=UTF-8")]
     | _, _ => hs
     end)
    (match body with Some s => s | None => [] end).

(** The two messages of [safeGitHubRequest]. *)
Definition non_json_message (text : jsstring) : jsstring :=
  js "GitHub " ++ [0x8FD4; 0x56DE; 0x975E] ++ js " JSON " ++ [0x54CD; 0x5E94]
  ++ js ":" ++ [10] ++ text.

Definition api_error_message (status : Z) (pretty : jsstring) : jsstring :=
  js "GitHub API " ++ [0x9519; 0x8BEF] ++ js " " ++ decimal status
  ++ js ":" ++ [10] ++ pretty.

Section Worker.

Context {P : Platform}.

(** *** Calls into the runtime *)

Definition request_text (request : Request) : M jsstring :=
  fun w => (OK (req_body request), record EvRequestText w).

Definition call_JSON_parse (text : jsstring) : M value :=
  fun w => (JSON_parse text, record (EvJsonParse text) w).

Definition call_importKey (raw : list byte) : M CryptoKey :=
  fun w => (subtle_importKey raw, record (EvImportKey raw) w).

Definition call_sign (key : CryptoKey) (data : list byte) : M (list byte) :=
  fun w => (subtle_sign key data, record (EvSign data) w).

Definition call_fetch (req : fetch_request) : M http_response :=
  fun w =>
    let (r, st) := platform_fetch (remote w) req in
    (r, mk_world st (trace w ++ [EvFetch req])).

(** *** [jsonResponse] *)

Definition jsonResponse (obj : list (jsstring * value)) (status : Z) : Response :=
  new_Response (JSON_stringify (VObj obj)) status
    [(js "Content-Type", js "application/json")].

(** *** [base64Encode] is in the section [Runtime] above. *)

(** *** [verifySignature] *)

Definition verifySignature (body : jsstring) (signature : option jsstring)
    (secret : jsstring) : M bool :=
  match signature with
  | None | Some [] => ret false
  | Some sig =>
      key <- call_importKey (Unicode.TextEncoder_encode secret) ;;
      digest <- call_sign key (Unicode.TextEncoder_encode body) ;;
      let hash :=
        join [] (map (fun b => padStart0 2 (Hex.toString16 (Z.of_N (Byte.to_N b))))
                     digest) in
      let expected := js "sha256=" ++ hash in
      ret (str_eqb expected sig)
  end.

(** *** [safeParseRequestJSON] *)

Definition safeParseRequestJSON (request : Request) : M value :=
  text <- request_text request ;;
  try_catch (call_JSON_parse text)
    (fun _ => throw (new_Error (js "Invalid JSON body"))).

(** The world after the request body has been read and parsed. *)
Definition parsed (request : Request) (w : world) : world :=
  mk_world (remote w) (trace w ++ [EvRequestText; EvJsonParse (req_body request)]).

(** *** [safeGitHubRequest] *)

Definition github_headers (env : Env) (options : Options)
  : list (jsstring * jsstring) :=
  spread
    [(js "Authorization", js "Bearer " ++ GH_TOKEN env);
     (js "Accept", js "application/vnd.github+json");
     (js "Content-Type", js "application/json");
     (js "User-Agent", js "cloudflare-worker")]
    (match opt_headers options with Some h => h | None => [] end).

(** What [safeGitHubRequest] passes to [fetch]: the URL, and the options
    with the headers put in. *)
Definition github_request (url : jsstring) (env : Env) (options : Options)
  : fetch_request :=
  mk_fetch_request url (opt_method options) (github_headers env options)
    (opt_body options).

Definition safeGitHubRequest (url : jsstring) (env : Env) (options : Options)
  : M value :=
  response <- call_fetch (github_request url env options) ;;
  let text := hr_text response in
  data <- try_catch (call_JSON_parse text)
            (fun _ => throw (new_Error (non_json_message text))) ;;
  if negb (hr_ok response)
  then throw (new_Error (api_error_message (hr_status response)
                           (template_text (JSON_stringify_indent2 data))))
  else ret data.

(** *** [handleUpdate] *)

Definition contents_url (env : Env) : jsstring :=
  js "https://api.github.com/repos/" ++ GITHUB_OWNER env ++ js "/"
  ++ GITHUB_REPO env ++ js "/contents/" ++ FILE_PATH env.

Definition read_url (env : Env) : jsstring :=
  contents_url env ++ js "?ref=" ++ BRANCH env.

Definition update_body (env : Env) (encoded : jsstring) (sha : value)
  : list (jsstring * value) :=
  [(js "message", VStr (js "auto update images.txt"));
   (js "content", VStr encoded);
   (js "sha", sha);
   (js "branch", VStr (BRANCH env))].

(** The options of the write: [{method: "PUT", body: JSON.stringify(...)}]. *)
Definition write_options (env : Env) (encoded : jsstring) (sha : value) : Options :=
  mk_Options (Some (js "PUT"))
    (JSON_stringify (VObj (update_body env encoded sha))) None.

Definition handleUpdate (request : Request) (env : Env) : M Response :=
  if negb (str_eqb (req_method request) (js "POST"))
  then ret (jsonResponse [(js "error", VStr (js "Method not allowed"))] 405)
  else
    body <- safeParseRequestJSON request ;;
    content <- lift (Get body (js "content")) ;;
    if negb (ToBoolean content)
    then ret (jsonResponse [(js "error", VStr (js "Missing content"))] 400)
    else
      fileData <- safeGitHubRequest (read_url env) env no_options ;;
      sha <- lift (Get fileData (js "sha")) ;;
      if negb (ToBoolean sha)
      then throw (new_Error (js "File not found or no permission"))
      else
        encoded <- lift (base64Encode content) ;;
        updateResult <-
          safeGitHubRequest (contents_url env) env
            (write_options env encoded sha) ;;
        commit <- lift (Get updateResult (js "commit")) ;;
        commit_sha <- lift (GetOptional commit (js "sha")) ;;
        ret (jsonResponse
               [(js "message", VStr (js "Update triggered"));
                (js "commit", commit_sha)] 200).

(** *** [handleWebhook] *)

Definition ignored_event : Response :=
  jsonResponse [(js "message", VStr (js "Ignored event"))] 200.

Definition handleWebhook (request : Request) (env : Env) : M Response :=
  if negb (str_eqb (req_method request) (js "POST"))
  then ret (new_Response (Some (js "OK")) 200 [])
  else
    let signature := signature_header request in
    rawBody <- request_text request ;;
    valid <- verifySignature rawBody signature (WEBHOOK_SECRET env) ;;
    if negb valid
    then ret (jsonResponse [(js "error", VStr (js "Invalid signature"))] 401)
    else
      payload <- call_JSON_parse rawBody ;;
      action <- lift (Get payload (js "action")) ;;
      if strict_eq_string action (js "completed") then
        run <- lift (Get payload (js "workflow_run")) ;;
        if ToBoolean run then
          name <- lift (Get run (js "name")) ;;
          status <- lift (Get run (js "status")) ;;
          conclusion <- lift (Get run (js "conclusion")) ;;
          head_sha <- lift (Get run (js "head_sha")) ;;
          ret (jsonResponse
                 [(js "workflow", name);
                  (js "status", status);
                  (js "conclusion", conclusion);
                  (js "commit", head_sha)] 200)
        else ret ignored_event
      else ret ignored_event.

(** *** The exported [fetch] *)

Definition fetch (request : Request) (env : Env) : M Response :=
  try_catch
    (if str_eqb (req_pathname request) (js "/update")
     then handleUpdate request env
     else if str_eqb (req_pathname request) (js "/webhook")
     then handleWebhook request env
     else ret (jsonResponse [(js "error", VStr (js "Not Found"))] 404))
    (fun err =>
       ret (jsonResponse
              [(js "error",
                VStr (match err_message err with
                      | [] => js "Internal Error"
                      | m => m
                      end))] 500)).

End Worker.

(** ** A mock runtime

    A runtime to run the handlers on concrete requests: the remote service
    answers from a script (its state is what is left of the script),
    [JSON.parse] knows the texts of a table, and the signing function is a
    two-byte checksum standing in for HMAC-SHA-256. *)

Module Mock.

Definition json := quoted.

Definition str (s : string) : value := VStr (js s).

Definition table : list (jsstring * value) :=
  [ (json "{}", VObj []);
    (json "null", VNull);
    (json "{'content':'hello'}", VObj [(js "content", str "hello")]);
    (json "{'content':''}", VObj [(js "content", str "")]);
    (json "{'content':0}", VObj [(js "content", VNum 0%float)]);
    (json "{'content':false}", VObj [(js "content", VBool false)]);
    (json "{'content':null}", VObj [(js "content", VNull)]);
    (json "{'sha':'abc'}", VObj [(js "sha", str "abc")]);
    (json "{'message':'Not Found'}", VObj [(js "message", str "Not Found")]);
    (json "{'message':'sha does not match'}",
     VObj [(js "message", str "sha does not match")]);
    (json "{'commit':{'sha':'def'}}",
     VObj [(js "commit", VObj [(js "sha", str "def")])]);
    (json "{'content':{}}", VObj [(js "content", VObj [])]);
    (json "{'action':'completed','workflow_run':{'name':'CI','status':'completed','conclusion':'success','head_sha':'xyz'}}",
     VObj [(js "action", str "completed");
           (js "workflow_run",
            VObj [(js "name", str "CI"); (js "status", str "completed");
                  (js "conclusion", str "success"); (js "head_sha", str "xyz")])]);
    (json "{'action':'completed','workflow_run':true}",
     VObj [(js "action", str "completed"); (js "workflow_run", VBool true)]);
    (json "{'action':'requested','workflow_run':{'name':'CI'}}",
     VObj [(js "action", str "requested");
           (js "workflow_run", VObj [(js "name", str "CI")])]) ].

Fixpoint parse_in (t : list (jsstring * value)) (text : jsstring) : result value :=
  match t with
  | [] => Throw (mk_error (js "SyntaxError") (js "Unexpected token"))
  | (k, v) :: rest => if str_eqb text k then OK v else parse_in rest text
  end.

Definition checksum (bs : list byte) : Z :=
  fold_left (fun acc b => (acc + Z.of_N (Byte.to_N b)) mod 256) bs 0.

Definition sign (key data : list byte) : result (list byte) :=
  OK [Unicode.octet_to_byte (checksum key); Unicode.octet_to_byte (checksum data)].

Definition script := list (result http_response).

Definition answer (st : script) (req : fetch_request)
  : result http_response * script :=
  match st with
  | r :: rest => (r, rest)
  | [] => (Throw (new_TypeError (js "Network connection lost.")), [])
  end.

Definition number_text (n : float) : jsstring :=
  if PrimFloat.eqb n 0%float then js "0" else js "NaN".

#[export] Instance platform : Platform := {|
  remote_state := script;
  CryptoKey := list byte;
  platform_fetch := answer;
  JSON_parse := parse_in table;
  subtle_importKey := fun raw => OK raw;
  subtle_sign := sign;
  Number_toString := number_text
|}.

Definition env : Env :=
  mk_Env (js "tlju") (js "docker_image_pusher") (js "images.txt") (js "main")
    (js "token") (js "s3cret").

Definition start (st : script) : world := mk_world st [].

(** The token the mock signing function gives a body under the secret of
    [env]. *)
Definition token (body : jsstring) : jsstring :=
  js "sha256="
  ++ Hex.hex_lower
       [Unicode.octet_to_byte
          (checksum (Unicode.TextEncoder_encode (WEBHOOK_SECRET env)));
        Unicode.octet_to_byte (checksum (Unicode.TextEncoder_encode body))].

Definition post (path : string) (headers : list (jsstring * jsstring))
    (body : jsstring) : Request :=
  mk_Request (js "POST") (js path) headers body.

(** A webhook delivery of [body], signed with the secret of [env]. *)
Definition signed (body : jsstring) : Request :=
  post "/webhook" [(js "x-hub-signature-256", token body)] body.

(** The same delivery with a token that is not the body's. *)
Definition forged (body : jsstring) : Request :=
  post "/webhook" [(js "x-hub-signature-256", js "sha256=0000")] body.

Definition update_hello : Request := post "/update" [] (json "{'content':'hello'}").

Definition answers (status : Z) (text : string) : result http_response :=
  OK (mk_http_response status (json text)).

Definition completed_run : jsstring :=
  json "{'action':'completed','workflow_run':{'name':'CI','status':'completed','conclusion':'success','head_sha':'xyz'}}".

End Mock.

(** ** Vocabulary of the further properties *)

(** [o[k]] on a string-valued object: [None] is [undefined]. *)
Fixpoint own_property (k : jsstring) (o : list (jsstring * jsstring))
  : option jsstring :=
  match o with
  | [] => None
  | (k', v) :: rest => if str_eqb k k' then Some v else own_property k rest
  end.

Definition is_lower_hex_digit (c : Z) : bool :=
  ((48 <=? c) && (c <=? 57)) || ((97 <=? c) && (c <=? 102)).

(** A character of a Base64 text: the alphabet and the padding. *)
Definition is_base64_char (c : Z) : bool :=
  ((65 <=? c) && (c <=? 90)) || ((97 <=? c) && (c <=? 122))
  || ((48 <=? c) && (c <=? 57)) || (c =? 43) || (c =? 47) || (c =? 61).

Definition is_ascii (c : Z) : bool := (0 <=? c) && (c <? 128).

(** The events of a trace that are calls of [fetch]. *)
Definition fetches (evs : list event) : list event := filter is_fetch evs.

(** A second mock runtime: the one above, whose [JSON.parse] also knows a
    text with an unpaired surrogate and whose [importKey] rejects an empty
    key, as WebCrypto does for HMAC. *)
Module Mock2.

Definition table : list (jsstring * value) :=
  Mock.table
  ++ [ (quoted "{'content':'\ud800'}", VObj [(js "content", VStr [0xD800])]);
       (quoted "{'content':true}", VObj [(js "content", VBool true)]);
       (quoted "{'content':{'toString':null}}",
        VObj [(js "content", VObj [(js "toString", VNull)])]) ].

Definition importKey (raw : list byte) : result (list byte) :=
  match raw with
  | [] => Throw (mk_error (js "DataError") (js "Zero-length key is not supported"))
  | _ => OK raw
  end.

Definition platform : Platform := {|
  remote_state := Mock.script;
  CryptoKey := list byte;
  platform_fetch := Mock.answer;
  JSON_parse := Mock.parse_in table;
  subtle_importKey := importKey;
  subtle_sign := Mock.sign;
  Number_toString := Mock.number_text
|}.

Definition start (st : Mock.script) : @world platform := @mk_world platform st [].

(** The deployment of [Mock.env] with the webhook secret left empty. *)
Definition env_without_secret : Env :=
  mk_Env (js "tlju") (js "docker_image_pusher") (js "images.txt") (js "main")
    (js "token") [].

End Mock2.

(** ** Proof automation *)

(** Linear arithmetic with division and remainder by constants. *)
Ltac zsolve := Z.div_mod_to_equations; lia.

(** Settle the comparisons of the goal, closing the cases that the
    hypotheses exclude. *)
Ltac ztest :=
  repeat match goal with
         | |- context [?a <? ?b] => destruct (Z.ltb_spec a b); try zsolve
         | |- context [?a <=? ?b] => destruct (Z.leb_spec a b); try zsolve
         | |- context [?a =? ?b] => destruct (Z.eqb_spec a b); try zsolve
         end.

(** Take apart the [match] that a hypothesis is about. *)
Ltac break_in H :=
  repeat (unfold result_bind in H; cbn [fst snd] in H;
          match type of H with
          | context [match ?x with _ => _ end] => destruct x eqn:?
          end);
  cbn [fst snd] in H.

(* ================================================================== *)
(** * Part II: properties *)
(* ================================================================== *)

(** ** Strings *)

Lemma str_eqb_refl (a : jsstring) : str_eqb a a = true.
Proof. unfold str_eqb. destruct (jsstring_dec a a); congruence. Qed.

Lemma str_eqb_eq (a b : jsstring) : str_eqb a b = true <-> a = b.
Proof. unfold str_eqb. destruct (jsstring_dec a b); split; congruence. Qed.

Lemma str_eqb_neq (a b : jsstring) : str_eqb a b = false <-> a <> b.
Proof. unfold str_eqb. destruct (jsstring_dec a b); split; congruence. Qed.

Lemma join_empty_separator (parts : list jsstring) : join [] parts = concat parts.
Proof.
  induction parts as [|p rest IH]; [reflexivity|].
  destruct rest as [|p' rest'].
  - simpl. now rewrite app_nil_r.
  - change (join [] (p :: p' :: rest')) with (p ++ [] ++ join [] (p' :: rest')).
    rewrite IH. reflexivity.
Qed.

(** ** The signature token *)

(** [b.toString(16).padStart(2, "0")] is the two-digit lowercase rendering
    of the byte [b]. *)
Lemma byte_hex_two_digits (b : byte) :
  padStart0 2 (Hex.toString16 (Z.of_N (Byte.to_N b))) = Hex.lower2 b.
Proof. destruct b; reflexivity. Qed.

Lemma hash_is_hex_lower (digest : list byte) :
  join [] (map (fun b => padStart0 2 (Hex.toString16 (Z.of_N (Byte.to_N b)))) digest)
  = Hex.hex_lower digest.
Proof.
  rewrite join_empty_separator. unfold Hex.hex_lower.
  induction digest as [|b rest IH]; [reflexivity|].
  simpl. now rewrite byte_hex_two_digits, IH.
Qed.

Section SignatureFacts.

Context {P : Platform}.

(** The value [verifySignature] resolves to, when both calls of
    [crypto.subtle] resolve. *)
Lemma verifySignature_digest (b k sig : jsstring) (key : CryptoKey)
    (digest : list byte) (w : world) :
  sig <> [] ->
  subtle_importKey (Unicode.TextEncoder_encode k) = OK key ->
  subtle_sign key (Unicode.TextEncoder_encode b) = OK digest ->
  verifySignature b (Some sig) k w
  = (OK (str_eqb (js "sha256=" ++ Hex.hex_lower digest) sig),
     record (EvSign (Unicode.TextEncoder_encode b))
       (record (EvImportKey (Unicode.TextEncoder_encode k)) w)).
Proof.
  intros Hsig Hkey Hsign.
  destruct sig as [|c sig]; [congruence|].
  unfold verifySignature, bind, call_importKey, call_sign, ret.
  rewrite Hkey. cbn [remote trace record].
  rewrite Hsign, hash_is_hex_lower. reflexivity.
Qed.

(** A missing or empty token is refused before any call of the runtime. *)
Lemma verifySignature_falsy (b k : jsstring) (t : option jsstring) (w : world) :
  t = None \/ t = Some [] -> verifySignature b t k w = (OK false, w).
Proof. intros [-> | ->]; reflexivity. Qed.

(** What a run of [verifySignature] adds to the trace: calls of
    [crypto.subtle] only; the remote service is not touched. *)
Lemma verifySignature_effects (b k : jsstring) (t : option jsstring) (w : world) :
  exists evs,
    trace (snd (verifySignature b t k w)) = trace w ++ evs
    /\ forallb is_crypto evs = true
    /\ remote (snd (verifySignature b t k w)) = remote w.
Proof.
  destruct t as [[|c sig]|].
  - exists []. cbn. now rewrite app_nil_r.
  - unfold verifySignature, bind, call_importKey, call_sign, ret.
    destruct (subtle_importKey (Unicode.TextEncoder_encode k)) as [key|e].
    + cbn [fst snd]. destruct (subtle_sign key (Unicode.TextEncoder_encode b)).
      * eexists [_; _]. cbn. rewrite <- app_assoc. repeat split.
      * eexists [_; _]. cbn. rewrite <- app_assoc. repeat split.
    + eexists [_]. cbn. repeat split.
  - exists []. cbn. now rewrite app_nil_r.
Qed.

(** C1. For every body [b], secret [k] and presented token [t],
    [verifySignature(b, t, k)] resolves to [true] exactly when [t] is
    present and is the string ["sha256="] followed by the lowercase
    hexadecimal rendering of the HMAC-SHA-256 digest that the runtime
    computes for [b] under the key [k]; an absent token gives [false]
    without any exception and without any call of the runtime. *)
Theorem verifySignature_true_iff (b k : jsstring) (t : option jsstring) (w : world) :
  (fst (verifySignature b t k w) = OK true
   <-> exists key digest,
         subtle_importKey (Unicode.TextEncoder_encode k) = OK key
         /\ subtle_sign key (Unicode.TextEncoder_encode b) = OK digest
         /\ t = Some (js "sha256=" ++ Hex.hex_lower digest))
  /\ verifySignature b None k w = (OK false, w).
Proof.
  split; [|reflexivity].
  destruct t as [[|c sig]|].
  - cbn. split; [discriminate|]. intros (key & digest & _ & _ & H). discriminate.
  - unfold verifySignature, bind, call_importKey, call_sign, ret.
    destruct (subtle_importKey (Unicode.TextEncoder_encode k)) as [key|e] eqn:Hkey.
    + cbn [fst snd remote trace record].
      destruct (subtle_sign key (Unicode.TextEncoder_encode b)) as [digest|e] eqn:Hsign.
      * cbn [fst]. rewrite hash_is_hex_lower. split.
        -- intros H. injection H as H. apply str_eqb_eq in H.
           exists key, digest. split; [auto|]. split; [auto|].
           f_equal. symmetry. exact H.
        -- intros (key' & digest' & Hk & Hs & Ht).
           assert (key' = key) by congruence. subst key'.
           assert (digest' = digest) by congruence. subst digest'.
           assert (Hsig : c :: sig = js "sha256=" ++ Hex.hex_lower digest)
             by congruence.
           rewrite Hsig. f_equal. apply str_eqb_refl.
      * cbn [fst]. split; [discriminate|].
        intros (key' & digest' & Hk & Hs & _).
        assert (key' = key) by congruence. subst key'. congruence.
    + cbn [fst]. split; [discriminate|].
      intros (key' & digest' & Hk & _). congruence.
  - cbn. split; [discriminate|]. intros (key & digest & _ & _ & H). discriminate.
Qed.

End SignatureFacts.

Lemma Throw_new_Error_inj (A : Type) (a b : jsstring) :
  @Throw A (new_Error a) = Throw (new_Error b) -> a = b.
Proof. unfold new_Error. intros H. inversion H. reflexivity. Qed.

(** ** Property reads *)

Lemma Get_prop (v : value) (k : jsstring) :
  nullish v = false -> Get v k = OK (prop v k).
Proof. destruct v; cbn; congruence. Qed.

Lemma Get_nullish (v : value) (k : jsstring) :
  nullish v = true -> exists e, Get v k = Throw e.
Proof. destruct v; cbn; try discriminate; eauto. Qed.

Lemma truthy_not_nullish (v : value) : ToBoolean v = true -> nullish v = false.
Proof. destruct v; cbn; congruence. Qed.

Lemma Get_OK_inv (v r : value) (k : jsstring) :
  Get v k = OK r -> nullish v = false /\ r = prop v k.
Proof. destruct v; cbn; intros H; inversion H; auto. Qed.

(** ** The Webhook Flow *)

Section WebhookFacts.

Context {P : Platform}.

(** A request that is not a POST is acknowledged without any effect. *)
Lemma handleWebhook_not_POST (request : Request) (env : Env) (w : world) :
  req_method request <> js "POST" ->
  handleWebhook request env w = (OK (new_Response (Some (js "OK")) 200 []), w).
Proof.
  intros H. unfold handleWebhook.
  apply str_eqb_neq in H. rewrite H. reflexivity.
Qed.

(** The shape of a POST run, by the outcome of the verification. *)
Lemma handleWebhook_POST (request : Request) (env : Env) (w : world) :
  req_method request = js "POST" ->
  handleWebhook request env w =
  match verifySignature (req_body request) (signature_header request)
          (WEBHOOK_SECRET env) (record EvRequestText w) with
  | (Throw e, w1) => (Throw e, w1)
  | (OK false, w1) =>
      (OK (jsonResponse [(js "error", VStr (js "Invalid signature"))] 401), w1)
  | (OK true, w1) =>
      let w2 := record (EvJsonParse (req_body request)) w1 in
      match JSON_parse (req_body request) with
      | Throw e => (Throw e, w2)
      | OK payload =>
          if nullish payload
          then (result_bind (Get payload (js "action")) (fun _ => OK ignored_event), w2)
          else
            (OK (if strict_eq_string (prop payload (js "action")) (js "completed")
                    && ToBoolean (prop payload (js "workflow_run"))
                 then
                   let run := prop payload (js "workflow_run") in
                   jsonResponse
                     [(js "workflow", prop run (js "name"));
                      (js "status", prop run (js "status"));
                      (js "conclusion", prop run (js "conclusion"));
                      (js "commit", prop run (js "head_sha"))] 200
                 else ignored_event), w2)
      end
  end.
Proof.
  intros H. unfold handleWebhook.
  rewrite H, str_eqb_refl. cbn [negb].
  unfold bind at 1. unfold request_text at 1.
  unfold bind at 1.
  destruct (verifySignature _ _ _ _) as [[[|]|e] w1]; cbn [negb]; try reflexivity.
  unfold bind at 1. unfold call_JSON_parse at 1.
  destruct (JSON_parse (req_body request)) as [payload|e]; [|reflexivity].
  destruct (nullish payload) eqn:Hn.
  - destruct payload; try discriminate; reflexivity.
  - unfold bind at 1, lift at 1. rewrite (Get_prop _ _ Hn).
    destruct (strict_eq_string _ _); [|reflexivity].
    unfold bind at 1, lift at 1. rewrite (Get_prop _ _ Hn).
    cbn [andb].
    destruct (ToBoolean (prop payload (js "workflow_run"))) eqn:Ht; [|reflexivity].
    apply truthy_not_nullish in Ht.
    unfold bind, lift. rewrite !(Get_prop _ _ Ht). reflexivity.
Qed.

End WebhookFacts.

Section WebhookClaims.

Context {P : Platform}.

Lemma record_trace (e : event) (w : world) : trace (record e w) = trace w ++ [e].
Proof. reflexivity. Qed.

Lemma record_remote (e : event) (w : world) : remote (record e w) = remote w.
Proof. reflexivity. Qed.

(** What any run of [handleWebhook] adds to the trace: nothing, or the
    read of the body followed by calls of [crypto.subtle], followed by at
    most one [JSON.parse] of the body, which is there only if the
    verification gave [true]. *)
Lemma handleWebhook_trace (request : Request) (env : Env) (w : world) :
  exists crypto parses,
    trace (snd (handleWebhook request env w))
    = trace w ++ (if str_eqb (req_method request) (js "POST")
                  then [EvRequestText] else []) ++ crypto ++ parses
    /\ forallb is_crypto crypto = true
    /\ (parses = []
        \/ parses = [EvJsonParse (req_body request)]
           /\ fst (verifySignature (req_body request) (signature_header request)
                     (WEBHOOK_SECRET env) (record EvRequestText w)) = OK true)
    /\ remote (snd (handleWebhook request env w)) = remote w.
Proof.
  destruct (str_eqb (req_method request) (js "POST")) eqn:Hm.
  - apply str_eqb_eq in Hm. rewrite (handleWebhook_POST _ _ _ Hm).
    destruct (verifySignature_effects (req_body request) (WEBHOOK_SECRET env)
                (signature_header request) (record EvRequestText w))
      as (evs & Htr & Hcr & Hre).
    destruct (verifySignature _ _ _ _) as [[[|]|e] w1]; cbn [fst snd] in *.
    + exists evs, [EvJsonParse (req_body request)].
      assert (Hw2 : trace (record (EvJsonParse (req_body request)) w1)
                    = trace w ++ [EvRequestText] ++ evs ++ [EvJsonParse (req_body request)]).
      { rewrite record_trace, Htr, record_trace, <- !app_assoc. reflexivity. }
      destruct (JSON_parse (req_body request)) as [payload|e];
        [destruct (nullish payload)|]; cbn [fst snd];
        (split; [exact Hw2|]); (split; [exact Hcr|]);
        (split; [right; split; reflexivity|]);
        rewrite record_remote, Hre; reflexivity.
    + exists evs, []. rewrite app_nil_r. split.
      * rewrite Htr, record_trace, <- app_assoc. reflexivity.
      * repeat split; auto.
    + exists evs, []. rewrite app_nil_r. split.
      * rewrite Htr, record_trace, <- app_assoc. reflexivity.
      * repeat split; auto.
  - apply str_eqb_neq in Hm. rewrite (handleWebhook_not_POST _ _ _ Hm).
    exists [], []. cbn. rewrite app_nil_r. auto.
Qed.

(** C2. For every POST request to the Webhook Flow whose signature
    fails verification, the handler returns 401 with the body
    [{"error":"Invalid signature"}] and the run contains no call of
    [JSON.parse]; and in every run, a call of [JSON.parse] is there only
    after the verification has given [true]. *)
Theorem webhook_invalid_signature_401 (request : Request) (env : Env) (w w1 : world) :
  req_method request = js "POST" ->
  verifySignature (req_body request) (signature_header request)
    (WEBHOOK_SECRET env) (record EvRequestText w) = (OK false, w1) ->
  (exists resp,
      handleWebhook request env w = (OK resp, w1)
      /\ resp_status resp = 401
      /\ resp_body resp = quoted "{'error':'Invalid signature'}")
  /\ (exists evs, trace w1 = trace w ++ evs
                  /\ existsb is_json_parse evs = false)
  /\ (forall (request' : Request) (env' : Env) (w0 : world) (before after : list event)
             (text : jsstring),
         trace (snd (handleWebhook request' env' w0))
         = trace w0 ++ before ++ EvJsonParse text :: after ->
         fst (verifySignature (req_body request') (signature_header request')
                (WEBHOOK_SECRET env') (record EvRequestText w0)) = OK true).
Proof.
  intros Hm Hv. split; [|split].
  - eexists. rewrite (handleWebhook_POST _ _ _ Hm), Hv.
    split; [reflexivity|]. split; reflexivity.
  - destruct (verifySignature_effects (req_body request) (WEBHOOK_SECRET env)
                (signature_header request) (record EvRequestText w))
      as (evs & Htr & Hcr & _).
    rewrite Hv in Htr. cbn [snd] in Htr.
    exists (EvRequestText :: evs). split.
    + rewrite Htr, record_trace, <- app_assoc. reflexivity.
    + cbn. clear - Hcr. induction evs as [|e evs IH]; [reflexivity|].
      cbn in *. apply andb_prop in Hcr as [He Hr].
      rewrite (IH Hr). destruct e; try discriminate; reflexivity.
  - intros request' env' w0 before after text Htr.
    destruct (handleWebhook_trace request' env' w0)
      as (crypto & parses & Htr' & Hcr & [Hp | [Hp Hok]] & _); [|exact Hok].
    exfalso. subst parses. rewrite Htr in Htr'. apply app_inv_head in Htr'.
    rewrite app_nil_r in Htr'.
    assert (Hin : In (EvJsonParse text)
                    ((if str_eqb (req_method request') (js "POST")
                      then [EvRequestText] else []) ++ crypto)).
    { rewrite <- Htr'. apply in_or_app. right. left. reflexivity. }
    apply in_app_or in Hin as [Hin | Hin].
    + destruct (str_eqb _ _); cbn in Hin; intuition discriminate.
    + rewrite forallb_forall in Hcr. apply Hcr in Hin. discriminate.
Qed.

(** C10. For every request, the Webhook Flow performs no outbound
    network call and leaves the state of the remote service as it was:
    what it adds to the trace is the read of the request body, calls of
    [crypto.subtle] and at most the parse of the body, never a call of
    [fetch]. *)
Theorem webhook_no_network_call (request : Request) (env : Env) (w : world) :
  remote (snd (handleWebhook request env w)) = remote w
  /\ exists evs,
       trace (snd (handleWebhook request env w)) = trace w ++ evs
       /\ existsb is_fetch evs = false
       /\ forallb (fun e => match e with
                            | EvRequestText | EvImportKey _ | EvSign _
                            | EvJsonParse _ => true
                            | EvFetch _ => false
                            end) evs = true.
Proof.
  destruct (handleWebhook_trace request env w)
    as (crypto & parses & Htr & Hcr & Hp & Hre).
  split; [exact Hre|].
  eexists. split; [exact Htr|].
  assert (Hall : forallb (fun e => match e with
                                   | EvFetch _ => false
                                   | _ => true
                                   end)
                   ((if str_eqb (req_method request) (js "POST")
                     then [EvRequestText] else []) ++ crypto ++ parses) = true).
  { rewrite !forallb_app. apply andb_true_intro. split; [|apply andb_true_intro; split].
    - destruct (str_eqb _ _); reflexivity.
    - rewrite forallb_forall in *. intros e He. apply Hcr in He.
      destruct e; try discriminate; reflexivity.
    - destruct Hp as [-> | [-> _]]; reflexivity. }
  split.
  - destruct (existsb is_fetch _) eqn:Hex; [|reflexivity].
    apply existsb_exists in Hex as (e & He & Hf).
    rewrite forallb_forall in Hall. apply Hall in He.
    destruct e; discriminate.
  - rewrite forallb_forall in *. intros e He. apply Hall in He.
    destruct e; try discriminate; reflexivity.
Qed.

End WebhookClaims.

Section WebhookClassification.

Context {P : Platform}.

(** A summary never reads as the "ignored" outcome, whatever the four
    values are. *)
Lemma summary_not_ignored (name status conclusion head_sha : value) :
  jsonResponse
    [(js "workflow", name); (js "status", status);
     (js "conclusion", conclusion); (js "commit", head_sha)] 200
  <> ignored_event.
Proof.
  intros H. apply (f_equal resp_body) in H. revert H.
  unfold ignored_event, jsonResponse, new_Response, JSON_stringify.
  cbn [resp_body SerializeJSONProperty].
  destruct (SerializeJSONProperty [] ([] ++ []) name);
    destruct (SerializeJSONProperty [] ([] ++ []) status);
    destruct (SerializeJSONProperty [] ([] ++ []) conclusion);
    destruct (SerializeJSONProperty [] ([] ++ []) head_sha);
    cbn; discriminate.
Qed.

(** C7, as the code has it.  For every verified webhook payload other
    than [null], the flow returns the summary [{workflow, status,
    conclusion, commit}], copied from [workflow_run]'s [name], [status],
    [conclusion] and [head_sha], exactly when the payload's [action] is
    the string ["completed"] and its [workflow_run] is truthy; every
    other such payload gives [{"message":"Ignored event"}]; and a request
    that is not a POST gives a 200 plain-text ["OK"]. *)
Theorem webhook_classification (request : Request) (env : Env) (w w1 : world)
    (payload : value) :
  (req_method request = js "POST" ->
   verifySignature (req_body request) (signature_header request)
     (WEBHOOK_SECRET env) (record EvRequestText w) = (OK true, w1) ->
   JSON_parse (req_body request) = OK payload ->
   nullish payload = false ->
   let run := prop payload (js "workflow_run") in
   let summary :=
     jsonResponse
       [(js "workflow", prop run (js "name"));
        (js "status", prop run (js "status"));
        (js "conclusion", prop run (js "conclusion"));
        (js "commit", prop run (js "head_sha"))] 200 in
   let completed :=
     strict_eq_string (prop payload (js "action")) (js "completed")
     && ToBoolean run in
   exists resp,
     handleWebhook request env w
     = (OK resp, record (EvJsonParse (req_body request)) w1)
     /\ (resp = summary <-> completed = true)
     /\ (resp = ignored_event <-> completed = false)
     /\ resp_status resp = 200)
  /\ resp_body ignored_event = quoted "{'message':'Ignored event'}"
  /\ (req_method request <> js "POST" ->
      handleWebhook request env w
      = (OK (mk_Response 200
               [(js "content-type", js "text/plain;charset=UTF-8")] (js "OK")), w)).
Proof.
  split; [|split].
  - intros Hm Hv Hp Hn run summary completed.
    rewrite (handleWebhook_POST _ _ _ Hm), Hv, Hp, Hn.
    fold run. fold summary. fold completed.
    eexists. split; [reflexivity|].
    pose proof (summary_not_ignored (prop run (js "name")) (prop run (js "status"))
                  (prop run (js "conclusion")) (prop run (js "head_sha"))) as Hne.
    fold summary in Hne.
    destruct completed; repeat split; try congruence; try reflexivity.
    intro H. exfalso. apply Hne. now symmetry.
  - reflexivity.
  - intros Hm. rewrite (handleWebhook_not_POST _ _ _ Hm). reflexivity.
Qed.

End WebhookClassification.

(** ** The Remote Content Client *)

Section ClientFacts.

Context {P : Platform}.

(** One run of [safeGitHubRequest], by what the remote service answers. *)
Lemma safeGitHubRequest_run (url : jsstring) (env : Env) (options : Options)
    (w : world) :
  let req := github_request url env options in
  safeGitHubRequest url env options w =
  match platform_fetch (remote w) req with
  | (Throw e, st) => (Throw e, mk_world st (trace w ++ [EvFetch req]))
  | (OK resp, st) =>
      let w2 := mk_world st (trace w ++ [EvFetch req; EvJsonParse (hr_text resp)]) in
      match JSON_parse (hr_text resp) with
      | Throw _ => (Throw (new_Error (non_json_message (hr_text resp))), w2)
      | OK data =>
          if hr_ok resp then (OK data, w2)
          else (Throw (new_Error
                         (api_error_message (hr_status resp)
                            (template_text (JSON_stringify_indent2 data)))), w2)
      end
  end.
Proof.
  intros req. unfold safeGitHubRequest, bind, call_fetch, try_catch,
    call_JSON_parse, throw, ret, record. fold req.
  destruct (platform_fetch (remote w) req) as [[resp|e] st]; [|reflexivity].
  cbn [remote trace]. rewrite <- app_assoc. cbn [app].
  destruct (JSON_parse (hr_text resp)); [|reflexivity].
  destruct (hr_ok resp); reflexivity.
Qed.

(** The two messages cannot be confused: after ["GitHub "] one goes on
    with a letter of the alphabet, the other does not. *)
Lemma messages_apart (text pretty : jsstring) (status : Z) :
  non_json_message text <> api_error_message status pretty.
Proof. unfold non_json_message, api_error_message. cbn. discriminate. Qed.

(** C8. In the Remote Content Client the body is parsed before the
    status is looked at: for every remote response with a non-success
    status whose body does not parse as JSON, the failure is the
    non-JSON one, carrying the raw text, and not the API one carrying the
    status; the API failure is raised only when the body parsed as JSON
    (and the status is a non-success one). *)
Theorem client_parses_before_status (url : jsstring) (env : Env) (options : Options)
    (w : world) (resp : http_response) (st : remote_state) :
  platform_fetch (remote w) (github_request url env options) = (OK resp, st) ->
  (forall e,
      hr_ok resp = false ->
      JSON_parse (hr_text resp) = Throw e ->
      fst (safeGitHubRequest url env options w)
      = Throw (new_Error (non_json_message (hr_text resp)))
      /\ forall status pretty,
           fst (safeGitHubRequest url env options w)
           <> Throw (new_Error (api_error_message status pretty)))
  /\ (forall status pretty,
         fst (safeGitHubRequest url env options w)
         = Throw (new_Error (api_error_message status pretty)) ->
         exists data,
           JSON_parse (hr_text resp) = OK data
           /\ hr_ok resp = false
           /\ api_error_message status pretty
              = api_error_message (hr_status resp)
                  (template_text (JSON_stringify_indent2 data))).
Proof.
  intros Hf. pose proof (safeGitHubRequest_run url env options w) as Hrun.
  cbv zeta in Hrun. rewrite Hf in Hrun. split.
  - intros e Hok Hp. rewrite Hp in Hrun. rewrite Hrun. cbn [fst].
    split; [reflexivity|]. intros status pretty H.
    apply Throw_new_Error_inj in H. exact (messages_apart _ _ _ H).
  - intros status pretty H. rewrite Hrun in H.
    destruct (JSON_parse (hr_text resp)) as [data|e].
    + destruct (hr_ok resp); cbn [fst] in H; [discriminate|].
      exists data. repeat split. apply Throw_new_Error_inj in H. now symmetry.
    + cbn [fst] in H. apply Throw_new_Error_inj in H.
      exfalso. exact (messages_apart _ _ _ H).
Qed.

End ClientFacts.

(** ** The Update Flow *)

Section UpdateFacts.

Context {P : Platform}.

Lemma safeParseRequestJSON_run (request : Request) (w : world) :
  safeParseRequestJSON request w =
  (match JSON_parse (req_body request) with
   | OK v => OK v
   | Throw _ => Throw (new_Error (js "Invalid JSON body"))
   end,
   mk_world (remote w) (trace w ++ [EvRequestText; EvJsonParse (req_body request)])).
Proof.
  unfold safeParseRequestJSON, bind, request_text, try_catch, call_JSON_parse,
    throw, record.
  cbn [remote trace]. rewrite <- app_assoc. cbn [app].
  destruct (JSON_parse (req_body request)); reflexivity.
Qed.

(** A POST whose body does not parse: the helper's error, no network
    call. *)
Lemma handleUpdate_invalid_json (request : Request) (env : Env) (w : world)
    (e : js_error) :
  req_method request = js "POST" ->
  JSON_parse (req_body request) = Throw e ->
  handleUpdate request env w
  = (Throw (new_Error (js "Invalid JSON body")), parsed request w).
Proof.
  intros Hm Hp. unfold handleUpdate. rewrite Hm, str_eqb_refl. cbn [negb].
  unfold bind at 1. rewrite safeParseRequestJSON_run, Hp. reflexivity.
Qed.

(** A POST whose parsed body has a falsy [content]: 400, no network
    call. *)
Lemma handleUpdate_missing_content (request : Request) (env : Env) (w : world)
    (body content : value) :
  req_method request = js "POST" ->
  JSON_parse (req_body request) = OK body ->
  Get body (js "content") = OK content ->
  ToBoolean content = false ->
  handleUpdate request env w
  = (OK (jsonResponse [(js "error", VStr (js "Missing content"))] 400),
     parsed request w).
Proof.
  intros Hm Hp Hg Ht. unfold handleUpdate. rewrite Hm, str_eqb_refl. cbn [negb].
  unfold bind at 1. rewrite safeParseRequestJSON_run, Hp.
  unfold bind at 1, lift at 1. rewrite Hg, Ht. reflexivity.
Qed.

(** A POST with a truthy [content] goes on to the read. *)
Lemma handleUpdate_read (request : Request) (env : Env) (w : world)
    (body content : value) :
  req_method request = js "POST" ->
  JSON_parse (req_body request) = OK body ->
  Get body (js "content") = OK content ->
  ToBoolean content = true ->
  handleUpdate request env w =
  match safeGitHubRequest (read_url env) env no_options (parsed request w) with
  | (Throw e, w2) => (Throw e, w2)
  | (OK fileData, w2) =>
      match Get fileData (js "sha") with
      | Throw e => (Throw e, w2)
      | OK sha =>
          if ToBoolean sha then
            match base64Encode content with
            | Throw e => (Throw e, w2)
            | OK encoded =>
                match safeGitHubRequest (contents_url env) env
                        (write_options env encoded sha) w2 with
                | (Throw e, w3) => (Throw e, w3)
                | (OK updateResult, w3) =>
                    (result_bind (Get updateResult (js "commit")) (fun commit =>
                     result_bind (GetOptional commit (js "sha")) (fun commit_sha =>
                     OK (jsonResponse
                           [(js "message", VStr (js "Update triggered"));
                            (js "commit", commit_sha)] 200))), w3)
                end
            end
          else (Throw (new_Error (js "File not found or no permission")), w2)
      end
  end.
Proof.
  intros Hm Hp Hg Ht. unfold handleUpdate. rewrite Hm, str_eqb_refl. cbn [negb].
  unfold bind at 1. rewrite safeParseRequestJSON_run, Hp.
  unfold bind at 1, lift at 1. rewrite Hg, Ht. cbn [negb].
  fold (parsed request w).
  unfold bind at 1.
  destruct (safeGitHubRequest (read_url env) env no_options (parsed request w))
    as [[fileData|e] w2]; [|reflexivity].
  unfold bind at 1, lift at 1.
  destruct (Get fileData (js "sha")) as [sha|e]; [|reflexivity].
  destruct (ToBoolean sha); [|reflexivity]. cbn [negb].
  unfold bind at 1, lift at 1.
  destruct (base64Encode content) as [encoded|e]; [|reflexivity].
  unfold bind at 1.
  destruct (safeGitHubRequest (contents_url env) env _ w2)
    as [[updateResult|e] w3]; [|reflexivity].
  unfold bind, lift, ret, result_bind.
  destruct (Get updateResult (js "commit")) as [commit|e]; [|reflexivity].
  destruct (GetOptional commit (js "sha")); reflexivity.
Qed.

(** What the exported [fetch] makes of an outcome of [handleUpdate]. *)
Lemma fetch_update (request : Request) (env : Env) (w : world) :
  req_pathname request = js "/update" ->
  fetch request env w =
  match handleUpdate request env w with
  | (OK resp, w') => (OK resp, w')
  | (Throw err, w') =>
      (OK (jsonResponse
             [(js "error",
               VStr (match err_message err with
                     | [] => js "Internal Error"
                     | m => m
                     end))] 500), w')
  end.
Proof.
  intros Hp. unfold fetch, try_catch. rewrite Hp, str_eqb_refl.
  destruct (handleUpdate request env w) as [[resp|err] w']; reflexivity.
Qed.

End UpdateFacts.

(** ** The encoder of the Update Flow *)

Section Codecs.

Import Unicode.

(** Well-formed strings, by their code points. *)
Lemma well_formed_ind (Q : jsstring -> Prop) :
  Q [] ->
  (forall c t, is_code_unit c -> is_lead c = false -> is_trail c = false ->
               Q t -> Q (c :: t)) ->
  (forall c d t, is_code_unit c -> is_code_unit d ->
                 is_lead c = true -> is_trail d = true -> Q t -> Q (c :: d :: t)) ->
  forall s, Forall is_code_unit s -> isWellFormed s = true -> Q s.
Proof.
  intros Hnil Hone Hpair s.
  remember (List.length s) as n eqn:Hn.
  revert s Hn. induction n as [n IH] using lt_wf_ind.
  intros s Hn Hr Hw. destruct s as [|c t]; [exact Hnil|].
  inversion Hr as [|? ? Hc Ht]; subst.
  cbn [isWellFormed] in Hw. destruct (is_lead c) eqn:Hl.
  - destruct t as [|d t']; [discriminate|].
    apply andb_prop in Hw as [Hd Hw].
    inversion Ht as [|? ? Hdu Ht']; subst.
    apply Hpair; auto.
    apply (IH (List.length t')); auto. cbn. lia.
  - destruct (is_trail c) eqn:Htr; [discriminate|].
    apply Hone; auto. apply (IH (List.length t)); auto.
Qed.

Lemma pair_code_point_range (c d : Z) :
  is_lead c = true -> is_trail d = true ->
  0x10000 <= pair_code_point c d < 0x110000.
Proof. unfold is_lead, is_trail, pair_code_point. lia. Qed.

Lemma utf8_octets_are_octets (cp : Z) :
  0 <= cp < 0x110000 -> Forall is_octet (utf8_octets cp).
Proof.
  intros H. unfold utf8_octets, is_octet.
  ztest; repeat constructor; zsolve.
Qed.

(** *** [unescape] undoes the percent escapes *)

Lemma digit_value_upper (q : Z) :
  0 <= q < 16 -> Hex.digit_value (Hex.digit_upper q) = Some q.
Proof.
  intros H. unfold Hex.digit_value, Hex.digit_upper.
  destruct (Z.ltb_spec q 10).
  - replace ((48 <=? 48 + q) && (48 + q <=? 57)) with true by lia.
    f_equal. lia.
  - replace ((48 <=? 55 + q) && (55 + q <=? 57)) with false by lia.
    replace ((65 <=? 55 + q) && (55 + q <=? 70)) with true by lia.
    f_equal. lia.
Qed.

Lemma hex2_upper2 (b : Z) :
  is_octet b -> URI.hex2 (Hex.digit_upper (b / 16)) (Hex.digit_upper (b mod 16)) = Some b.
Proof.
  intros H. unfold is_octet in H. unfold URI.hex2.
  rewrite !digit_value_upper by zsolve. f_equal. zsolve.
Qed.

Lemma digit_upper_not_u (q : Z) : 0 <= q < 16 -> (Hex.digit_upper q =? 117) = false.
Proof. intros H. unfold Hex.digit_upper. destruct (Z.ltb_spec q 10); lia. Qed.

Lemma unescape_percent (b : Z) (t : jsstring) :
  is_octet b -> URI.unescape (37 :: Hex.upper2 b ++ t) = b :: URI.unescape t.
Proof.
  intros H. unfold Hex.upper2. cbn [app URI.unescape].
  replace (37 =? 37) with true by reflexivity.
  rewrite digit_upper_not_u by (unfold is_octet in H; zsolve).
  now rewrite hex2_upper2.
Qed.

Lemma unescape_percent_octets (l : list Z) (t : jsstring) :
  Forall is_octet l -> URI.unescape (URI.percent_octets l ++ t) = l ++ URI.unescape t.
Proof.
  induction 1 as [|b l Hb Hl IH]; [reflexivity|].
  unfold URI.percent_octets in *. cbn [flat_map].
  change ((37 :: Hex.upper2 b) ++ flat_map (fun b0 => 37 :: Hex.upper2 b0) l)
    with (37 :: Hex.upper2 b ++ flat_map (fun b0 => 37 :: Hex.upper2 b0) l).
  rewrite <- app_comm_cons, <- app_assoc, unescape_percent by exact Hb.
  rewrite IH. reflexivity.
Qed.

Lemma unreserved_is_ascii (c : Z) :
  URI.uriUnreserved c = true -> 0 <= c < 128 /\ c <> 37.
Proof. unfold URI.uriUnreserved. lia. Qed.

Lemma unescape_unreserved (c : Z) (t : jsstring) :
  URI.uriUnreserved c = true -> URI.unescape (c :: t) = c :: URI.unescape t.
Proof.
  intros H. apply unreserved_is_ascii in H as [_ H].
  cbn [URI.unescape]. destruct (Z.eqb_spec c 37); [contradiction|reflexivity].
Qed.

(** [unescape(encodeURIComponent(s))] is the string whose code units are
    the UTF-8 octets of [s]. *)
Lemma Encode_unescape (s : jsstring) :
  Forall is_code_unit s -> isWellFormed s = true ->
  exists escaped,
    URI.Encode s = OK escaped /\ URI.unescape escaped = utf8_encode s.
Proof.
  revert s. refine (well_formed_ind _ _ _ _).
  - exists []. split; reflexivity.
  - intros c t Hc Hl Ht (e & He & Hu).
    unfold utf8_encode. cbn [URI.Encode code_points]. rewrite Hl, Ht, He.
    cbn [flat_map]. fold (utf8_encode t).
    destruct (URI.uriUnreserved c) eqn:Hun.
    + eexists. split; [reflexivity|].
      rewrite unescape_unreserved by exact Hun. rewrite Hu.
      apply unreserved_is_ascii in Hun as [Hun _].
      unfold utf8_octets. replace (c <? 128) with true by lia. reflexivity.
    + eexists. split; [reflexivity|].
      rewrite unescape_percent_octets, Hu; [reflexivity|].
      apply utf8_octets_are_octets. unfold is_code_unit in Hc. lia.
  - intros c d t Hc Hd Hl Ht (e & He & Hu).
    unfold utf8_encode. cbn [URI.Encode code_points]. rewrite Hl, Ht, He.
    cbn [flat_map]. fold (utf8_encode t).
    destruct (URI.uriUnreserved c) eqn:Hun.
    { apply unreserved_is_ascii in Hun. unfold is_lead in Hl. lia. }
    eexists. split; [reflexivity|].
    rewrite unescape_percent_octets, Hu; [reflexivity|].
    apply utf8_octets_are_octets.
    pose proof (pair_code_point_range c d Hl Ht). lia.
Qed.

Lemma utf8_encode_octets (s : jsstring) :
  Forall is_code_unit s -> isWellFormed s = true -> Forall is_octet (utf8_encode s).
Proof.
  revert s. refine (well_formed_ind _ _ _ _).
  - constructor.
  - intros c t Hc Hl Ht IH. unfold utf8_encode in *. cbn [code_points].
    rewrite Hl. cbn [flat_map]. apply Forall_app. split; [|exact IH].
    apply utf8_octets_are_octets. unfold is_code_unit in Hc. lia.
  - intros c d t Hc Hd Hl Ht IH. unfold utf8_encode in *. cbn [code_points].
    rewrite Hl, Ht. cbn [flat_map]. apply Forall_app. split; [|exact IH].
    apply utf8_octets_are_octets.
    pose proof (pair_code_point_range c d Hl Ht). lia.
Qed.

(** [encodeURIComponent] returns only on well-formed strings. *)
Lemma Encode_OK_well_formed (s : jsstring) (escaped : jsstring) :
  URI.Encode s = OK escaped -> isWellFormed s = true.
Proof.
  remember (List.length s) as n eqn:Hn. revert s escaped Hn.
  induction n as [n IH] using lt_wf_ind. intros s escaped Hn He.
  destruct s as [|c t]; [reflexivity|].
  cbn [URI.Encode isWellFormed] in *.
  destruct (URI.uriUnreserved c) eqn:Hun.
  - apply unreserved_is_ascii in Hun as [Hun _].
    replace (is_lead c) with false by (unfold is_lead; lia).
    replace (is_trail c) with false by (unfold is_trail; lia).
    destruct (URI.Encode t) as [e'|] eqn:Ht; [|discriminate].
    apply (IH (List.length t)) with (escaped := e'); [subst; cbn; lia|reflexivity|exact Ht].
  - destruct (is_lead c).
    + destruct t as [|d t']; [discriminate|].
      destruct (is_trail d); [|discriminate]. cbn [andb].
      destruct (URI.Encode t') as [e'|] eqn:Ht; [|discriminate].
      apply (IH (List.length t')) with (escaped := e');
        [subst; cbn; lia|reflexivity|exact Ht].
    + destruct (is_trail c); [discriminate|].
      destruct (URI.Encode t) as [e'|] eqn:Ht; [|discriminate].
      apply (IH (List.length t)) with (escaped := e');
        [subst; cbn; lia|reflexivity|exact Ht].
Qed.

(** *** [btoa] *)

Lemma btoa_octets (l : list Z) :
  Forall is_octet l -> Base64.btoa l = OK (Base64.encode l).
Proof.
  intros H. unfold Base64.btoa.
  replace (forallb (fun u => u <=? 255) l) with true; [reflexivity|].
  symmetry. apply forallb_forall. intros u Hu.
  rewrite Forall_forall in H. apply H in Hu. unfold is_octet in Hu. lia.
Qed.

End Codecs.

Section RoundTrip.

Import Unicode.

(** *** Base64 *)

Lemma value_of_char (i : Z) : 0 <= i < 64 -> Base64.value_of (Base64.char i) = Some i.
Proof.
  intros H. unfold Base64.char.
  destruct (Z.ltb_spec i 26); [|destruct (Z.ltb_spec i 52);
    [|destruct (Z.ltb_spec i 62); [|destruct (Z.eqb_spec i 62)]]];
    unfold Base64.value_of.
  - replace ((65 <=? 65 + i) && (65 + i <=? 90)) with true by lia. f_equal. lia.
  - replace ((65 <=? 71 + i) && (71 + i <=? 90)) with false by lia.
    replace ((97 <=? 71 + i) && (71 + i <=? 122)) with true by lia. f_equal. lia.
  - replace ((65 <=? i - 4) && (i - 4 <=? 90)) with false by lia.
    replace ((97 <=? i - 4) && (i - 4 <=? 122)) with false by lia.
    replace ((48 <=? i - 4) && (i - 4 <=? 57)) with true by lia. f_equal. lia.
  - cbn. f_equal. lia.
  - cbn. f_equal. lia.
Qed.

Lemma char_not_pad (i : Z) : 0 <= i < 64 -> (Base64.char i =? Base64.pad) = false.
Proof.
  intros H. unfold Base64.char, Base64.pad.
  destruct (Z.ltb_spec i 26); [lia|]. destruct (Z.ltb_spec i 52); [lia|].
  destruct (Z.ltb_spec i 62); [lia|]. destruct (Z.eqb_spec i 62); reflexivity.
Qed.

Lemma decode_encode (l : list Z) :
  Forall is_octet l -> Base64.decode (Base64.encode l) = Some l.
Proof.
  remember (List.length l) as n eqn:Hn. revert l Hn.
  induction n as [n IH] using lt_wf_ind. intros l Hn Hl.
  destruct l as [|a [|b [|c r]]].
  - reflexivity.
  - inversion Hl as [|? ? Ha _]; subst. unfold is_octet in Ha.
    cbn [Base64.encode Base64.decode].
    rewrite !value_of_char by zsolve.
    replace (Base64.pad =? Base64.pad) with true by reflexivity.
    do 2 f_equal. zsolve.
  - inversion Hl as [|? ? Ha Hl']; subst. inversion Hl' as [|? ? Hb _]; subst.
    unfold is_octet in Ha, Hb.
    cbn [Base64.encode Base64.decode].
    rewrite !value_of_char by zsolve.
    replace (Base64.pad =? Base64.pad) with true by reflexivity.
    rewrite char_not_pad by zsolve.
    f_equal. f_equal; [zsolve|]. f_equal. zsolve.
  - inversion Hl as [|? ? Ha Hl']; subst. inversion Hl' as [|? ? Hb Hl'']; subst.
    inversion Hl'' as [|? ? Hc Hr]; subst.
    unfold is_octet in Ha, Hb, Hc.
    cbn [Base64.encode Base64.decode app].
    rewrite !value_of_char by zsolve.
    rewrite char_not_pad by zsolve.
    rewrite (IH (List.length r)); [|cbn; lia|reflexivity|exact Hr].
    cbn [option_map app]. f_equal. f_equal; [zsolve|]. f_equal; [zsolve|].
    f_equal. zsolve.
Qed.

(** *** UTF-8 *)

Lemma utf8_decode_octets (cp : Z) (rest : list Z) :
  is_scalar cp ->
  utf8_decode (utf8_octets cp ++ rest) = option_map (cons cp) (utf8_decode rest).
Proof.
  intros [Hr Hs]. unfold utf8_octets.
  destruct (Z.ltb_spec cp 0x80); [|destruct (Z.ltb_spec cp 0x800);
    [|destruct (Z.ltb_spec cp 0x10000)]]; cbn [app utf8_decode].
  - replace ((0 <=? cp) && (cp <? 128)) with true by lia. reflexivity.
  - replace ((0 <=? 192 + cp / 64) && (192 + cp / 64 <? 128)) with false by zsolve.
    replace ((192 <=? 192 + cp / 64) && (192 + cp / 64 <? 224)) with true by zsolve.
    unfold is_continuation.
    replace ((128 <=? 128 + cp mod 64) && (128 + cp mod 64 <? 192)) with true by zsolve.
    replace ((192 + cp / 64 - 192) * 64 + (128 + cp mod 64 - 128)) with cp by zsolve.
    replace (128 <=? cp) with true by lia. reflexivity.
  - replace ((0 <=? 224 + cp / 4096) && (224 + cp / 4096 <? 128)) with false by zsolve.
    replace ((192 <=? 224 + cp / 4096) && (224 + cp / 4096 <? 224)) with false by zsolve.
    replace ((224 <=? 224 + cp / 4096) && (224 + cp / 4096 <? 240)) with true by zsolve.
    unfold is_continuation.
    replace ((128 <=? 128 + (cp / 64) mod 64) && (128 + (cp / 64) mod 64 <? 192))
      with true by zsolve.
    replace ((128 <=? 128 + cp mod 64) && (128 + cp mod 64 <? 192)) with true by zsolve.
    replace ((224 + cp / 4096 - 224) * 4096 + (128 + (cp / 64) mod 64 - 128) * 64
             + (128 + cp mod 64 - 128)) with cp by zsolve.
    replace (2048 <=? cp) with true by lia.
    replace (is_lead cp || is_trail cp) with false
      by (unfold is_lead, is_trail; lia).
    reflexivity.
  - replace ((0 <=? 240 + cp / 262144) && (240 + cp / 262144 <? 128)) with false by zsolve.
    replace ((192 <=? 240 + cp / 262144) && (240 + cp / 262144 <? 224))
      with false by zsolve.
    replace ((224 <=? 240 + cp / 262144) && (240 + cp / 262144 <? 240))
      with false by zsolve.
    replace ((240 <=? 240 + cp / 262144) && (240 + cp / 262144 <? 248))
      with true by zsolve.
    unfold is_continuation.
    replace ((128 <=? 128 + (cp / 4096) mod 64) && (128 + (cp / 4096) mod 64 <? 192))
      with true by zsolve.
    replace ((128 <=? 128 + (cp / 64) mod 64) && (128 + (cp / 64) mod 64 <? 192))
      with true by zsolve.
    replace ((128 <=? 128 + cp mod 64) && (128 + cp mod 64 <? 192)) with true by zsolve.
    replace ((240 + cp / 262144 - 240) * 262144 + (128 + (cp / 4096) mod 64 - 128) * 4096
             + (128 + (cp / 64) mod 64 - 128) * 64 + (128 + cp mod 64 - 128))
      with cp by zsolve.
    replace (65536 <=? cp) with true by lia.
    replace (cp <=? 1114111) with true by lia.
    reflexivity.
Qed.

Lemma utf8_decode_flat_map (cps : list Z) :
  Forall is_scalar cps -> utf8_decode (flat_map utf8_octets cps) = Some cps.
Proof.
  induction 1 as [|cp cps Hcp _ IH]; [reflexivity|].
  cbn [flat_map]. rewrite utf8_decode_octets, IH by exact Hcp. reflexivity.
Qed.

(** *** UTF-16 *)

Lemma code_points_scalar (s : jsstring) :
  Forall is_code_unit s -> isWellFormed s = true ->
  Forall is_scalar (code_points s) /\ utf16_encode (code_points s) = s.
Proof.
  revert s. refine (well_formed_ind _ _ _ _).
  - split; [constructor|reflexivity].
  - intros c t Hc Hl Ht [IH1 IH2]. cbn [code_points]. rewrite Hl. split.
    + constructor; [|exact IH1].
      unfold is_scalar, is_code_unit, is_lead, is_trail in *. lia.
    + unfold utf16_encode in *. cbn [flat_map]. rewrite IH2.
      unfold utf16_units. unfold is_code_unit in Hc.
      replace (c <? 65536) with true by lia. reflexivity.
  - intros c d t Hc Hd Hl Ht [IH1 IH2]. cbn [code_points]. rewrite Hl, Ht.
    pose proof (pair_code_point_range c d Hl Ht) as Hp. split.
    + constructor; [|exact IH1]. unfold is_scalar. lia.
    + unfold utf16_encode in *. cbn [flat_map]. rewrite IH2.
      unfold utf16_units.
      replace (pair_code_point c d <? 65536) with false by lia.
      unfold pair_code_point, is_lead, is_trail in *. cbn [app].
      f_equal; [zsolve|]. f_equal. zsolve.
Qed.

End RoundTrip.

Section EncoderClaims.

Context {P : Platform}.

(** On well-formed text, [base64Encode] is the Base64 text of the UTF-8
    octets. *)
Lemma base64Encode_utf8 (s : jsstring) :
  Forall is_code_unit s -> Unicode.isWellFormed s = true ->
  base64Encode (VStr s) = OK (Base64.encode (Unicode.utf8_encode s)).
Proof.
  intros Hr Hw. unfold base64Encode, encodeURIComponent. cbn [ToString result_bind].
  destruct (Encode_unescape s Hr Hw) as (escaped & He & Hu).
  rewrite He. cbn [result_bind]. rewrite Hu.
  apply btoa_octets, utf8_encode_octets; assumption.
Qed.

(** At an unpaired surrogate [encodeURIComponent] throws, and so does
    [base64Encode]. *)
Lemma base64Encode_lone_surrogate :
  base64Encode (VStr [0xD800]) = Throw URI.URI_malformed.
Proof. reflexivity. Qed.

(** Reading the Base64 text of the UTF-8 octets back gives the text. *)
Lemma base64_utf8_round_trip (s : jsstring) :
  Forall is_code_unit s -> Unicode.isWellFormed s = true ->
  decode_base64_utf8 (Base64.encode (Unicode.utf8_encode s)) = Some s.
Proof.
  intros Hr Hw. unfold decode_base64_utf8, Unicode.TextDecoder_decode.
  rewrite decode_encode by (apply utf8_encode_octets; assumption).
  destruct (code_points_scalar s Hr Hw) as [Hsc H16].
  unfold Unicode.utf8_encode. rewrite utf8_decode_flat_map by exact Hsc.
  cbn [option_map]. now rewrite H16.
Qed.

(** C6. For every Unicode string [s] (characters of several octets
    included), decoding the Base64 text that [base64Encode(s)] produces, as
    UTF-8, gives exactly [s]; and [base64Encode] does produce a text for
    every string without unpaired surrogates. *)
Theorem base64Encode_round_trip (s : jsstring) :
  Forall is_code_unit s ->
  (forall encoded,
      base64Encode (VStr s) = OK encoded -> decode_base64_utf8 encoded = Some s)
  /\ (Unicode.isWellFormed s = true ->
      exists encoded, base64Encode (VStr s) = OK encoded).
Proof.
  intros Hr. split.
  - intros encoded He.
    assert (Hw : Unicode.isWellFormed s = true).
    { unfold base64Encode, encodeURIComponent in He. cbn [ToString result_bind] in He.
      destruct (URI.Encode s) as [escaped|] eqn:Hesc; [|discriminate].
      exact (Encode_OK_well_formed s escaped Hesc). }
    rewrite (base64Encode_utf8 s Hr Hw) in He. injection He as <-.
    apply base64_utf8_round_trip; assumption.
  - intros Hw. eexists. apply base64Encode_utf8; assumption.
Qed.

End EncoderClaims.

Section UpdateClaims.

Context {P : Platform}.

Lemma parsed_no_fetch (request : Request) (w : world) :
  remote (parsed request w) = remote w
  /\ trace (parsed request w)
     = trace w ++ [EvRequestText; EvJsonParse (req_body request)]
  /\ existsb is_fetch [EvRequestText; EvJsonParse (req_body request)] = false.
Proof. repeat split. Qed.

(** C9. The Update Flow answers 400, ["Missing content"], to every
    parsed request body whose [content] is falsy: not only when the field
    is absent or the empty string, but also for the JSON values [0],
    [false] and [null], so that some bodies that do have a [content] field
    are rejected as missing it. *)
Theorem update_rejects_falsy_content (request : Request) (env : Env) (w : world)
    (body content : value) :
  (req_method request = js "POST" ->
   req_pathname request = js "/update" ->
   JSON_parse (req_body request) = OK body ->
   Get body (js "content") = OK content ->
   ToBoolean content = false ->
   exists resp,
     fetch request env w = (OK resp, parsed request w)
     /\ resp_status resp = 400
     /\ resp_body resp = quoted "{'error':'Missing content'}")
  /\ (forall v,
         In v [VNum 0%float; VBool false; VNull; VStr []] ->
         Get (VObj [(js "content", v)]) (js "content") = OK v
         /\ ToBoolean v = false)
  /\ (Get (VObj []) (js "content") = OK VUndefined /\ ToBoolean VUndefined = false).
Proof.
  split; [|split].
  - intros Hm Hpath Hp Hg Ht. eexists.
    rewrite (fetch_update _ _ _ Hpath).
    rewrite (handleUpdate_missing_content _ _ _ _ _ Hm Hp Hg Ht).
    repeat split.
  - intros v [<- | [<- | [<- | [<- | []]]]]; split; reflexivity.
  - split; reflexivity.
Qed.

(** C5, as the code has it.  For every POST request to [/update], before
    any network call: a body that fails to parse as JSON is answered with
    status 500 and the message ["Invalid JSON body"]; a body that parses
    to a value other than [null] whose [content] is missing or falsy is
    answered with status 400 and the message ["Missing content"]. *)
Theorem update_invalid_input (request : Request) (env : Env) (w : world) :
  req_method request = js "POST" ->
  req_pathname request = js "/update" ->
  (forall e,
      JSON_parse (req_body request) = Throw e ->
      exists resp,
        fetch request env w = (OK resp, parsed request w)
        /\ resp_status resp = 500
        /\ resp_body resp = quoted "{'error':'Invalid JSON body'}")
  /\ (forall body,
         JSON_parse (req_body request) = OK body ->
         nullish body = false ->
         ToBoolean (prop body (js "content")) = false ->
         exists resp,
           fetch request env w = (OK resp, parsed request w)
           /\ resp_status resp = 400
           /\ resp_body resp = quoted "{'error':'Missing content'}")
  /\ remote (parsed request w) = remote w
  /\ trace (parsed request w)
     = trace w ++ [EvRequestText; EvJsonParse (req_body request)]
  /\ existsb is_fetch [EvRequestText; EvJsonParse (req_body request)] = false.
Proof.
  intros Hm Hpath. split; [|split; [|apply parsed_no_fetch]].
  - intros e Hp. eexists. rewrite (fetch_update _ _ _ Hpath).
    rewrite (handleUpdate_invalid_json _ _ _ _ Hm Hp). repeat split.
  - intros body Hp Hn Ht. eexists. rewrite (fetch_update _ _ _ Hpath).
    rewrite (handleUpdate_missing_content _ _ _ _ _ Hm Hp (Get_prop _ _ Hn) Ht).
    repeat split.
Qed.

End UpdateClaims.

Section ReadWriteClaims.

Context {P : Platform}.

Lemma GetOptional_prop (v : value) (k : jsstring) : GetOptional v k = OK (prop v k).
Proof. destruct v; reflexivity. Qed.

Lemma read_is_not_a_write (env : Env) :
  is_write (EvFetch (github_request (read_url env) env no_options)) = false.
Proof. reflexivity. Qed.

(** C4, as the code has it.  For every Update Flow run whose remote
    read is answered without a truthy version token ([sha]), the flow
    fails after the read and performs no write call; when the answer is a
    success whose body is a JSON value other than [null], the failure is
    the error ["File not found or no permission"], surfaced as status
    500.  A read answered with a non-success status fails with the error
    of the client instead: the API error with the status and the body when
    the body parses as JSON, the non-JSON error with the raw text when it
    does not (as for any answer that does not parse). *)
Theorem update_read_without_sha (request : Request) (env : Env) (w : world)
    (body content : value) (resp : http_response) (st : remote_state) :
  req_method request = js "POST" ->
  req_pathname request = js "/update" ->
  JSON_parse (req_body request) = OK body ->
  Get body (js "content") = OK content ->
  ToBoolean content = true ->
  platform_fetch (remote w) (github_request (read_url env) env no_options)
  = (OK resp, st) ->
  (forall data, JSON_parse (hr_text resp) = OK data ->
                ToBoolean (prop data (js "sha")) = false) ->
  let events :=
    [EvRequestText; EvJsonParse (req_body request);
     EvFetch (github_request (read_url env) env no_options);
     EvJsonParse (hr_text resp)] in
  let w' := mk_world st (trace w ++ events) in
  exists err r,
    handleUpdate request env w = (Throw err, w')
    /\ fetch request env w = (OK r, w')
    /\ resp_status r = 500
    /\ existsb is_write events = false
    /\ (forall data,
           hr_ok resp = true ->
           JSON_parse (hr_text resp) = OK data ->
           nullish data = false ->
           err = new_Error (js "File not found or no permission")
           /\ resp_body r = quoted "{'error':'File not found or no permission'}")
    /\ (forall data,
           hr_ok resp = false ->
           JSON_parse (hr_text resp) = OK data ->
           err = new_Error
                   (api_error_message (hr_status resp)
                      (template_text (JSON_stringify_indent2 data)))
           /\ r = jsonResponse [(js "error", VStr (err_message err))] 500)
    /\ (forall e,
           JSON_parse (hr_text resp) = Throw e ->
           err = new_Error (non_json_message (hr_text resp))
           /\ r = jsonResponse [(js "error", VStr (err_message err))] 500).
Proof.
  intros Hm Hpath Hp Hg Ht Hf Hsha events w'.
  rewrite (fetch_update _ _ _ Hpath).
  rewrite (handleUpdate_read _ _ _ _ _ Hm Hp Hg Ht).
  rewrite safeGitHubRequest_run. cbv zeta.
  change (remote (parsed request w)) with (remote w). rewrite Hf.
  change (trace (parsed request w)
          ++ [EvFetch (github_request (read_url env) env no_options);
              EvJsonParse (hr_text resp)])
    with ((trace w ++ [EvRequestText; EvJsonParse (req_body request)])
          ++ [EvFetch (github_request (read_url env) env no_options);
              EvJsonParse (hr_text resp)]).
  rewrite <- app_assoc. cbn [app]. fold events. fold w'.
  destruct (JSON_parse (hr_text resp)) as [data|e] eqn:Hd.
  - specialize (Hsha data eq_refl).
    destruct (hr_ok resp) eqn:Hok.
    + destruct (nullish data) eqn:Hn.
      * destruct (Get_nullish data (js "sha") Hn) as [e He]. rewrite He.
        do 2 eexists. do 4 (split; [reflexivity|]).
        split; [|split]; intros; congruence.
      * rewrite (Get_prop _ _ Hn), Hsha.
        do 2 eexists. do 4 (split; [reflexivity|]).
        split; [|split]; intros; first [congruence | split; reflexivity].
    + do 2 eexists. do 4 (split; [reflexivity|]).
      split; [|split]; intros; try congruence.
      assert (data0 = data) by congruence. subst data0. split; reflexivity.
  - do 2 eexists. do 4 (split; [reflexivity|]).
    split; [|split]; intros; try congruence. split; reflexivity.
Qed.

(** What one call of the client adds to the trace: its [fetch], and the
    parse of the answer if there is one. *)
Lemma safeGitHubRequest_trace (url : jsstring) (env : Env) (options : Options)
    (w : world) :
  exists tail,
    trace (snd (safeGitHubRequest url env options w))
    = trace w ++ EvFetch (github_request url env options) :: tail
    /\ filter is_write tail = [].
Proof.
  rewrite safeGitHubRequest_run. cbv zeta.
  destruct (platform_fetch (remote w) (github_request url env options))
    as [[resp|e] st].
  - exists [EvJsonParse (hr_text resp)].
    destruct (JSON_parse (hr_text resp)); [destruct (hr_ok resp)|]; split; reflexivity.
  - exists []. split; reflexivity.
Qed.

(** C3, as the code has it.  For every Update Flow run where the input
    has a non-empty text [c] as content and the remote read returns the
    version token [s], the flow issues exactly one PUT, whose JSON body
    has [sha] equal to [s], [content] equal to the Base64 encoding of
    [c], the fixed commit message and the configured branch; and when
    that write is answered by a success whose body is a JSON value other
    than [null], the flow returns [{message: "Update triggered", commit}]
    with the [sha] of the [commit] object of the write response, the
    [commit] field being absent when the response has none. *)
Theorem update_success (request : Request) (env : Env) (w : world)
    (body data : value) (c : jsstring) (r1 : http_response) (st1 : remote_state) :
  req_method request = js "POST" ->
  JSON_parse (req_body request) = OK body ->
  Get body (js "content") = OK (VStr c) ->
  c <> [] ->
  Forall is_code_unit c ->
  Unicode.isWellFormed c = true ->
  let read := github_request (read_url env) env no_options in
  platform_fetch (remote w) read = (OK r1, st1) ->
  hr_ok r1 = true ->
  JSON_parse (hr_text r1) = OK data ->
  let s := prop data (js "sha") in
  ToBoolean s = true ->
  let encoded := Base64.encode (Unicode.utf8_encode c) in
  let write := github_request (contents_url env) env (write_options env encoded s) in
  (exists evs,
      trace (snd (handleUpdate request env w)) = trace w ++ evs
      /\ filter is_write evs = [EvFetch write])
  /\ fr_url write = contents_url env
  /\ fr_body write
     = JSON_stringify
         (VObj [(js "message", VStr (js "auto update images.txt"));
                (js "content", VStr encoded);
                (js "sha", s);
                (js "branch", VStr (BRANCH env))])
  /\ decode_base64_utf8 encoded = Some c
  /\ (forall (r2 : http_response) (st2 : remote_state) (upd : value),
         platform_fetch st1 write = (OK r2, st2) ->
         hr_ok r2 = true ->
         JSON_parse (hr_text r2) = OK upd ->
         nullish upd = false ->
         let commit := prop (prop upd (js "commit")) (js "sha") in
         let resp :=
           jsonResponse [(js "message", VStr (js "Update triggered"));
                         (js "commit", commit)] 200 in
         handleUpdate request env w
         = (OK resp,
            mk_world st2
              (trace w ++ [EvRequestText; EvJsonParse (req_body request);
                           EvFetch read; EvJsonParse (hr_text r1);
                           EvFetch write; EvJsonParse (hr_text r2)]))
         /\ resp_status resp = 200
         /\ (commit = VUndefined ->
             resp_body resp = quoted "{'message':'Update triggered'}"))
  /\ (forall (r2 : http_response) (st2 : remote_state),
         platform_fetch st1 write = (OK r2, st2) ->
         hr_ok r2 = false \/ (exists e, JSON_parse (hr_text r2) = Throw e) ->
         let w' :=
           mk_world st2
             (trace w ++ [EvRequestText; EvJsonParse (req_body request);
                          EvFetch read; EvJsonParse (hr_text r1);
                          EvFetch write; EvJsonParse (hr_text r2)]) in
         exists err,
           handleUpdate request env w = (Throw err, w')
           /\ (forall e, JSON_parse (hr_text r2) = Throw e ->
                         err = new_Error (non_json_message (hr_text r2)))
           /\ (forall d, JSON_parse (hr_text r2) = OK d ->
                         err = new_Error
                                 (api_error_message (hr_status r2)
                                    (template_text (JSON_stringify_indent2 d))))
           /\ (req_pathname request = js "/update" ->
               fetch request env w
               = (OK (jsonResponse [(js "error", VStr (err_message err))] 500), w')
               /\ resp_status
                    (jsonResponse [(js "error", VStr (err_message err))] 500)
                  = 500)).
Proof.
  intros Hm Hp Hg Hne Hr Hw read Hf1 Hok1 Hd1 s Hs encoded write.
  assert (Ht : ToBoolean (VStr c) = true) by (destruct c; [congruence|reflexivity]).
  assert (Hnd : nullish data = false).
  { destruct data; try reflexivity; discriminate Hs. }
  assert (Hrun : handleUpdate request env w =
                 match safeGitHubRequest (contents_url env) env
                         (write_options env encoded s)
                         (mk_world st1
                            (trace w ++ [EvRequestText; EvJsonParse (req_body request);
                                         EvFetch read; EvJsonParse (hr_text r1)])) with
                 | (Throw e, w3) => (Throw e, w3)
                 | (OK updateResult, w3) =>
                     (result_bind (Get updateResult (js "commit")) (fun commit =>
                      result_bind (GetOptional commit (js "sha")) (fun commit_sha =>
                      OK (jsonResponse
                            [(js "message", VStr (js "Update triggered"));
                             (js "commit", commit_sha)] 200))), w3)
                 end).
  { rewrite (handleUpdate_read _ _ _ _ _ Hm Hp Hg Ht).
    rewrite safeGitHubRequest_run. cbv zeta.
    change (remote (parsed request w)) with (remote w). fold read.
    rewrite Hf1, Hd1, Hok1, (Get_prop _ _ Hnd). fold s. rewrite Hs.
    rewrite (base64Encode_utf8 c Hr Hw). fold encoded.
    unfold parsed. cbn [trace]. rewrite <- !app_assoc. reflexivity. }
  split; [|split; [|split; [|split; [|split]]]].
  - destruct (safeGitHubRequest_trace (contents_url env) env
                (write_options env encoded s)
                (mk_world st1
                   (trace w ++ [EvRequestText; EvJsonParse (req_body request);
                                EvFetch read; EvJsonParse (hr_text r1)])))
      as (tail & Htr & Htail).
    fold write in Htr. cbn [trace] in Htr.
    exists ([EvRequestText; EvJsonParse (req_body request);
             EvFetch read; EvJsonParse (hr_text r1)] ++ EvFetch write :: tail).
    split.
    + rewrite Hrun.
      destruct (safeGitHubRequest _ _ _ _) as [[upd|e] w3]; cbn [snd] in *;
        rewrite Htr, <- app_assoc; reflexivity.
    + rewrite filter_app. cbn [filter].
      change (is_write (EvFetch read)) with false.
      change (is_write (EvFetch write)) with true.
      cbn [is_write app]. now rewrite Htail.
  - reflexivity.
  - reflexivity.
  - apply base64_utf8_round_trip; assumption.
  - intros r2 st2 upd Hf2 Hok2 Hd2 Hn commit resp.
    split; [|split].
    + rewrite Hrun, safeGitHubRequest_run. cbv zeta. cbn [remote trace]. fold write.
      rewrite Hf2, Hd2, Hok2, (Get_prop _ _ Hn). cbn [result_bind].
      rewrite GetOptional_prop. cbn [result_bind]. fold commit. fold resp.
      rewrite <- !app_assoc. reflexivity.
    + reflexivity.
    + intros Hc. unfold resp. rewrite Hc. reflexivity.
  - intros r2 st2 Hf2 Hfail w'.
    assert (Hthrow : forall msg,
               safeGitHubRequest (contents_url env) env (write_options env encoded s)
                 (mk_world st1
                    (trace w ++ [EvRequestText; EvJsonParse (req_body request);
                                 EvFetch read; EvJsonParse (hr_text r1)]))
               = (Throw (new_Error msg), w') ->
               msg <> [] ->
               handleUpdate request env w = (Throw (new_Error msg), w')
               /\ (req_pathname request = js "/update" ->
                   fetch request env w
                   = (OK (jsonResponse
                            [(js "error", VStr (err_message (new_Error msg)))] 500), w')
                   /\ resp_status
                        (jsonResponse
                           [(js "error", VStr (err_message (new_Error msg)))] 500)
                      = 500)).
    { intros msg Hc Hmsg. rewrite Hc in Hrun. split; [exact Hrun|].
      intros Hu. split; [|reflexivity].
      rewrite (fetch_update _ _ _ Hu), Hrun. cbn [err_message new_Error].
      destruct msg; [congruence|reflexivity]. }
    pose proof (safeGitHubRequest_run (contents_url env) env
                  (write_options env encoded s)
                  (mk_world st1
                     (trace w ++ [EvRequestText; EvJsonParse (req_body request);
                                  EvFetch read; EvJsonParse (hr_text r1)]))) as Hw2.
    cbv zeta in Hw2. cbn [remote trace] in Hw2. fold write in Hw2.
    rewrite Hf2, <- app_assoc in Hw2. cbn [app] in Hw2. fold w' in Hw2.
    destruct (JSON_parse (hr_text r2)) as [d|e0] eqn:Hd2.
    + destruct (hr_ok r2) eqn:Hok2.
      * exfalso. destruct Hfail as [H | [e H]]; discriminate H.
      * destruct (Hthrow _ Hw2) as [Hh Hfetch];
          [unfold api_error_message; cbn; discriminate|].
        eexists. split; [exact Hh|]. split; [intros e H; discriminate H|].
        split; [|exact Hfetch]. intros d' H. congruence.
    + destruct (Hthrow _ Hw2) as [Hh Hfetch];
        [unfold non_json_message; cbn; discriminate|].
      eexists. split; [exact Hh|]. split; [reflexivity|].
      split; [|exact Hfetch]. intros d' H. discriminate H.
Qed.

End ReadWriteClaims.

(* ================================================================== *)
(** * Part III: the properties at work on the mock runtime *)
(* ================================================================== *)

Section MockRuns.

Import Mock.

(** *** Known values of the runtime functions *)

Example base64Encode_hello : base64Encode (str "hello") = OK (js "aGVsbG8=").
Proof. reflexivity. Qed.

Example encodeURIComponent_escapes :
  URI.Encode [0xD83D; 0xDE00; 0x20AC; 65; 32; 37]
  = OK (js "%F0%9F%98%80%E2%82%ACA%20%25").
Proof. reflexivity. Qed.

Example unescape_forms :
  URI.unescape (js "%u20AC%41%zz%") = [0x20AC; 65] ++ js "%zz%".
Proof. reflexivity. Qed.

Example btoa_rejects_wide_characters :
  Base64.btoa [0x20AC] = Throw (new_InvalidCharacterError (js "Invalid character")).
Proof. reflexivity. Qed.

Example hex_lower_bytes : Hex.hex_lower [x00; x0f; xab; xff] = js "000fabff".
Proof. reflexivity. Qed.

Example TextEncoder_replaces_lone_surrogates :
  Unicode.TextEncoder_encode [0xD800; 0xE9] = [xef; xbf; xbd; xc3; xa9].
Proof. reflexivity. Qed.

Example stringify_drops_undefined :
  JSON_stringify (VObj [(js "message", str "Update triggered"); (js "commit", VUndefined)])
  = Some (quoted "{'message':'Update triggered'}").
Proof. reflexivity. Qed.

Example stringify_escapes :
  JSON_stringify (VArr [VStr [10; 34; 92; 1; 0xD800]; VUndefined; VBool true])
  = Some ([91; 34] ++ js "\n\" ++ [34] ++ js "\\\u0001\ud800" ++ [34]
          ++ js ",null,true]").
Proof. reflexivity. Qed.

Example stringify_indent2 :
  JSON_stringify_indent2 (VObj [(js "message", str "Not Found"); (js "errors", VArr [])])
  = Some ([123; 10] ++ quoted "  'message': 'Not Found'," ++ [10]
          ++ quoted "  'errors': []" ++ [10; 125]).
Proof. reflexivity. Qed.

(** A delivery with the token of its body is accepted; one without a
    token is refused. *)
Lemma verifySignature_true_iff_witness :
  fst (verifySignature (json "null") (Some (token (json "null")))
         (WEBHOOK_SECRET env) (start [])) = OK true
  /\ verifySignature (json "null") None (WEBHOOK_SECRET env) (start [])
     = (OK false, start []).
Proof.
  destruct (verifySignature_true_iff (json "null") (WEBHOOK_SECRET env)
              (Some (token (json "null"))) (start [])) as (Hiff & Habsent).
  split; [|exact Habsent].
  apply Hiff. do 2 eexists. split; [reflexivity|]. split; reflexivity.
Defined.

(** A forged delivery is answered 401 and its body is not parsed. *)
Lemma webhook_invalid_signature_401_witness :
  exists resp w1,
    handleWebhook (forged completed_run) env (start []) = (OK resp, w1)
    /\ resp_status resp = 401
    /\ resp_body resp = quoted "{'error':'Invalid signature'}"
    /\ existsb is_json_parse (trace w1) = false.
Proof.
  pose (w1 := snd (verifySignature (req_body (forged completed_run))
                     (signature_header (forged completed_run))
                     (WEBHOOK_SECRET env) (record EvRequestText (start [])))).
  destruct (webhook_invalid_signature_401 (forged completed_run) env (start []) w1
              eq_refl eq_refl)
    as ((resp & Hrun & Hst & Hbody) & _ & _).
  exists resp, w1. repeat split; try assumption.
Defined.

(** The delivery of test 6 of the specification, and a delivery that is
    not a completed run. *)
Lemma webhook_classification_witness :
  (exists w',
      handleWebhook (signed completed_run) env (start [])
      = (OK (mk_Response 200 [(js "content-type", js "application/json")]
               (quoted "{'workflow':'CI','status':'completed','conclusion':'success','commit':'xyz'}")),
         w'))
  /\ handleWebhook (mk_Request (js "GET") (js "/webhook") [] []) env (start [])
     = (OK (mk_Response 200 [(js "content-type", js "text/plain;charset=UTF-8")]
              (js "OK")), start []).
Proof.
  pose (w1 := snd (verifySignature (req_body (signed completed_run))
                     (signature_header (signed completed_run))
                     (WEBHOOK_SECRET env) (record EvRequestText (start [])))).
  pose (payload := VObj [(js "action", str "completed");
                         (js "workflow_run",
                          VObj [(js "name", str "CI"); (js "status", str "completed");
                                (js "conclusion", str "success");
                                (js "head_sha", str "xyz")])]).
  destruct (webhook_classification (signed completed_run) env (start []) w1 payload)
    as (Hpost & _ & _).
  destruct (Hpost eq_refl eq_refl eq_refl eq_refl) as (resp & Hrun & Hsum & _ & _).
  destruct (webhook_classification (mk_Request (js "GET") (js "/webhook") [] [])
              env (start []) w1 payload)
    as (_ & _ & Hget).
  split.
  - eexists. rewrite Hrun. f_equal. f_equal. apply Hsum. reflexivity.
  - apply Hget. discriminate.
Defined.

(** A well-formed text with characters of one, three and four octets. *)
Lemma base64Encode_round_trip_witness :
  base64Encode (VStr [104; 0x20AC; 0xD83D; 0xDE00]) = OK (js "aOKCrPCfmIA=")
  /\ decode_base64_utf8 (js "aOKCrPCfmIA=") = Some [104; 0x20AC; 0xD83D; 0xDE00].
Proof.
  assert (Hr : Forall is_code_unit [104; 0x20AC; 0xD83D; 0xDE00])
    by (repeat constructor; unfold is_code_unit; lia).
  destruct (base64Encode_round_trip [104; 0x20AC; 0xD83D; 0xDE00] Hr) as (Hdec & Hex).
  destruct (Hex eq_refl) as (encoded & He).
  split; [reflexivity|]. apply Hdec. reflexivity.
Defined.

(** A remote answer 502 with an HTML body. *)
Lemma client_parses_before_status_witness :
  fst (safeGitHubRequest (read_url env) env no_options
         (start [OK (mk_http_response 502 (js "<html>Bad Gateway</html>"))]))
  = Throw (new_Error (non_json_message (js "<html>Bad Gateway</html>"))).
Proof.
  destruct (client_parses_before_status (read_url env) env no_options
              (start [OK (mk_http_response 502 (js "<html>Bad Gateway</html>"))])
              (mk_http_response 502 (js "<html>Bad Gateway</html>")) [] eq_refl)
    as (Hnon & _).
  destruct (Hnon (mk_error (js "SyntaxError") (js "Unexpected token"))
              eq_refl eq_refl) as (H & _).
  exact H.
Defined.

(** The body [{"content":0}] is refused as missing content. *)
Lemma update_rejects_falsy_content_witness :
  exists resp w',
    fetch (post "/update" [] (json "{'content':0}")) env (start []) = (OK resp, w')
    /\ resp_status resp = 400
    /\ resp_body resp = quoted "{'error':'Missing content'}"
    /\ trace w' = [EvRequestText; EvJsonParse (json "{'content':0}")].
Proof.
  destruct (update_rejects_falsy_content (post "/update" [] (json "{'content':0}"))
              env (start []) (VObj [(js "content", VNum 0%float)]) (VNum 0%float))
    as (Hrun & _ & _).
  destruct (Hrun eq_refl eq_refl eq_refl eq_refl eq_refl) as (resp & H & Hst & Hb).
  exists resp, (parsed (post "/update" [] (json "{'content':0}")) (start [])).
  repeat split; assumption.
Defined.

(** The body [{}] of test 7 of the specification, and a body that is not
    JSON. *)
Lemma update_invalid_input_witness :
  (exists resp w',
      fetch (post "/update" [] (json "{}")) env (start []) = (OK resp, w')
      /\ resp_status resp = 400 /\ existsb is_fetch (trace w') = false)
  /\ (exists resp w',
         fetch (post "/update" [] (js "content=hello")) env (start []) = (OK resp, w')
         /\ resp_status resp = 500
         /\ resp_body resp = quoted "{'error':'Invalid JSON body'}"
         /\ existsb is_fetch (trace w') = false).
Proof.
  split.
  - destruct (update_invalid_input (post "/update" [] (json "{}")) env (start [])
                eq_refl eq_refl) as (_ & Hmiss & _).
    destruct (Hmiss (VObj []) eq_refl eq_refl eq_refl) as (resp & H & Hst & _).
    exists resp, (parsed (post "/update" [] (json "{}")) (start [])).
    repeat split; assumption.
  - destruct (update_invalid_input (post "/update" [] (js "content=hello")) env
                (start []) eq_refl eq_refl) as (Hbad & _ & _).
    destruct (Hbad (mk_error (js "SyntaxError") (js "Unexpected token")) eq_refl)
      as (resp & H & Hst & Hb).
    exists resp, (parsed (post "/update" [] (js "content=hello")) (start [])).
    repeat split; assumption.
Defined.

(** Test 4 of the specification: the read is answered without a [sha];
    then the read answered 404 by GitHub, and 502 by a gateway. *)
Lemma update_read_without_sha_witness :
  (exists w',
      handleUpdate update_hello env (start [answers 200 "{}"])
      = (Throw (new_Error (js "File not found or no permission")), w')
      /\ existsb is_write (trace w') = false)
  /\ (exists w',
         handleUpdate update_hello env (start [answers 404 "{'message':'Not Found'}"])
         = (Throw (new_Error
                     (api_error_message 404
                        ([123; 10; 32; 32] ++ quoted "'message': 'Not Found'"
                         ++ [10; 125]))), w'))
  /\ (exists w',
         handleUpdate update_hello env
           (start [OK (mk_http_response 502 (js "<html>Bad Gateway</html>"))])
         = (Throw (new_Error (non_json_message (js "<html>Bad Gateway</html>"))), w')).
Proof.
  split; [|split].
  - destruct (update_read_without_sha update_hello env (start [answers 200 "{}"])
                (VObj [(js "content", str "hello")]) (str "hello")
                (mk_http_response 200 (json "{}")) []
                eq_refl eq_refl eq_refl eq_refl eq_refl eq_refl)
      as (err & r & Hrun & _ & _ & Hw & Hmsg & _ & _).
    + intros data Hd. injection Hd as <-. reflexivity.
    + destruct (Hmsg (VObj []) eq_refl eq_refl eq_refl) as (-> & _).
      eexists. split; [exact Hrun|]. exact Hw.
  - destruct (update_read_without_sha update_hello env
                (start [answers 404 "{'message':'Not Found'}"])
                (VObj [(js "content", str "hello")]) (str "hello")
                (mk_http_response 404 (json "{'message':'Not Found'}")) []
                eq_refl eq_refl eq_refl eq_refl eq_refl eq_refl)
      as (err & r & Hrun & _ & _ & _ & _ & Hapi & _).
    + intros data Hd. injection Hd as <-. reflexivity.
    + destruct (Hapi (VObj [(js "message", str "Not Found")]) eq_refl eq_refl)
        as (-> & _).
      eexists. exact Hrun.
  - destruct (update_read_without_sha update_hello env
                (start [OK (mk_http_response 502 (js "<html>Bad Gateway</html>"))])
                (VObj [(js "content", str "hello")]) (str "hello")
                (mk_http_response 502 (js "<html>Bad Gateway</html>")) []
                eq_refl eq_refl eq_refl eq_refl eq_refl eq_refl)
      as (err & r & Hrun & _ & _ & _ & _ & _ & Hnon).
    + intros data Hd. discriminate Hd.
    + destruct (Hnon (mk_error (js "SyntaxError") (js "Unexpected token")) eq_refl)
        as (-> & _).
      eexists. exact Hrun.
Defined.

(** Test 5 of the specification; then the same run with the write
    answered 409. *)
Lemma update_success_witness :
  (exists w',
      handleUpdate update_hello env
        (start [answers 200 "{'sha':'abc'}"; answers 200 "{'commit':{'sha':'def'}}"])
      = (OK (mk_Response 200 [(js "content-type", js "application/json")]
               (quoted "{'message':'Update triggered','commit':'def'}")), w')
      /\ remote w' = []
      /\ map fr_body
           (flat_map (fun e => match e with EvFetch r => [r] | _ => [] end) (trace w'))
         = [None;
            Some (quoted "{'message':'auto update images.txt','content':'aGVsbG8=','sha':'abc','branch':'main'}")])
  /\ (exists resp w',
         fetch update_hello env
           (start [answers 200 "{'sha':'abc'}";
                   answers 409 "{'message':'sha does not match'}"])
         = (OK resp, w')
         /\ resp_status resp = 500
         /\ List.length (filter is_write (trace w')) = 1%nat).
Proof.
  split.
  - destruct (update_success update_hello env
                (start [answers 200 "{'sha':'abc'}"; answers 200 "{'commit':{'sha':'def'}}"])
                (VObj [(js "content", str "hello")])
                (VObj [(js "sha", str "abc")])
                (js "hello")
                (mk_http_response 200 (json "{'sha':'abc'}"))
                [answers 200 "{'commit':{'sha':'def'}}"])
      as (_ & _ & _ & _ & Hrun & _); try reflexivity.
    + discriminate.
    + repeat constructor; unfold is_code_unit; cbn; lia.
    + destruct (Hrun (mk_http_response 200 (json "{'commit':{'sha':'def'}}")) []
                  (VObj [(js "commit", VObj [(js "sha", str "def")])])
                  eq_refl eq_refl eq_refl eq_refl) as (H & _ & _).
      eexists. split; [exact H|]. split; reflexivity.
  - destruct (update_success update_hello env
                (start [answers 200 "{'sha':'abc'}";
                        answers 409 "{'message':'sha does not match'}"])
                (VObj [(js "content", str "hello")])
                (VObj [(js "sha", str "abc")])
                (js "hello")
                (mk_http_response 200 (json "{'sha':'abc'}"))
                [answers 409 "{'message':'sha does not match'}"])
      as (_ & _ & _ & _ & _ & Hfail); try reflexivity.
    + discriminate.
    + repeat constructor; unfold is_code_unit; cbn; lia.
    + destruct (Hfail (mk_http_response 409 (json "{'message':'sha does not match'}"))
                  [] eq_refl (or_introl eq_refl)) as (err & _ & _ & _ & Hfetch).
      destruct (Hfetch eq_refl) as (H & Hst).
      do 2 eexists. split; [exact H|]. split; [exact Hst|reflexivity].
Defined.

(** *** Where the code departs from the specification's wording *)

(** Against C3: the read returns the [sha] and the content is
    ["hello"], but the write is answered 409 (another writer came first).
    One PUT is issued; the flow throws, and the caller gets a 500, not
    [{message: "Update triggered"}]. *)
Lemma update_write_conflict_fails :
  let w := start [answers 200 "{'sha':'abc'}";
                  answers 409 "{'message':'sha does not match'}"] in
  JSON_parse (req_body update_hello) = OK (VObj [(js "content", str "hello")])
  /\ (exists err, fst (handleUpdate update_hello env w) = Throw err)
  /\ List.length (filter is_write (trace (snd (handleUpdate update_hello env w)))) = 1%nat
  /\ (exists resp,
         fst (fetch update_hello env w) = OK resp
         /\ resp_status resp = 500
         /\ resp_body resp <> quoted "{'message':'Update triggered'}").
Proof.
  cbv zeta. split; [reflexivity|]. split; [eexists; reflexivity|].
  split; [reflexivity|]. eexists. split; [reflexivity|].
  split; [reflexivity|]. vm_compute. discriminate.
Qed.

(** Against C4: the read is answered 404 with GitHub's JSON body, which
    has no [sha]; the failure is the API error of the client, and its
    message is not ["File not found or no permission"] in either
    spelling. *)
Lemma update_read_404_is_api_error :
  let w := start [answers 404 "{'message':'Not Found'}"] in
  (exists data,
      JSON_parse (json "{'message':'Not Found'}") = OK data
      /\ prop data (js "sha") = VUndefined)
  /\ exists err,
       fst (handleUpdate update_hello env w) = Throw err
       /\ err_message err
          = api_error_message 404
              ([123; 10; 32; 32] ++ quoted "'message': 'Not Found'" ++ [10; 125])
       /\ err_message err <> js "File not found or no permission"
       /\ err_message err <> js "file not found or no permission".
Proof.
  cbv zeta. split; [eexists; split; reflexivity|].
  eexists. split; [reflexivity|]. split; [reflexivity|].
  split; vm_compute; discriminate.
Qed.

(** Against C5: a POST to [/update] whose body is not JSON is answered
    500, not 400. *)
Lemma update_invalid_json_is_500 :
  let request := post "/update" [] (js "content=hello") in
  (exists e, JSON_parse (req_body request) = Throw e)
  /\ exists resp,
       fst (fetch request env (start [])) = OK resp
       /\ resp_status resp = 500
       /\ resp_status resp <> 400.
Proof.
  cbv zeta. split; [eexists; reflexivity|].
  eexists. split; [reflexivity|]. split; [reflexivity|]. discriminate.
Qed.

(** Against C7: a verified payload whose [action] is ["completed"] and
    whose [workflow_run] is [true], not an object, is answered with the
    (empty) summary and not with ["Ignored event"]; and the verified
    payload [null] is answered 500. *)
Lemma webhook_summary_without_run_object :
  let body := json "{'action':'completed','workflow_run':true}" in
  fst (verifySignature body (signature_header (signed body)) (WEBHOOK_SECRET env)
         (record EvRequestText (start []))) = OK true
  /\ JSON_parse body
     = OK (VObj [(js "action", str "completed"); (js "workflow_run", VBool true)])
  /\ (exists resp,
         fst (handleWebhook (signed body) env (start [])) = OK resp
         /\ resp_body resp = js "{}"
         /\ resp_body resp <> quoted "{'message':'Ignored event'}")
  /\ fst (verifySignature (json "null") (signature_header (signed (json "null")))
            (WEBHOOK_SECRET env) (record EvRequestText (start []))) = OK true
  /\ JSON_parse (json "null") = OK VNull
  /\ (exists err, fst (handleWebhook (signed (json "null")) env (start [])) = Throw err)
  /\ (exists resp,
         fst (fetch (signed (json "null")) env (start [])) = OK resp
         /\ resp_status resp = 500).
Proof.
  cbv zeta. split; [reflexivity|]. split; [reflexivity|].
  split; [eexists; split; [reflexivity|]; split; [reflexivity|]; vm_compute; discriminate|].
  split; [reflexivity|]. split; [reflexivity|].
  split; [eexists; reflexivity|]. eexists. split; reflexivity.
Qed.

End MockRuns.


(* ================================================================== *)
(** * Part IV: further properties of the worker *)
(* ================================================================== *)

(** ** Responses *)

Section ResponseFacts.

Context {P : Platform}.

Lemma jsonResponse_status (obj : list (jsstring * value)) (status : Z) :
  resp_status (jsonResponse obj status) = status.
Proof. reflexivity. Qed.

Lemma jsonResponse_headers (obj : list (jsstring * value)) (status : Z) :
  resp_headers (jsonResponse obj status) = [(js "content-type", js "application/json")].
Proof. reflexivity. Qed.

End ResponseFacts.

(** ** The handlers, case by case *)

Section HandlerCases.

Context {P : Platform}.

Lemma handleUpdate_not_POST (request : Request) (env : Env) (w : world) :
  req_method request <> js "POST" ->
  handleUpdate request env w
  = (OK (jsonResponse [(js "error", VStr (js "Method not allowed"))] 405), w).
Proof.
  intros H. unfold handleUpdate. apply str_eqb_neq in H. rewrite H. reflexivity.
Qed.

Lemma handleUpdate_content_throws (request : Request) (env : Env) (w : world)
    (body : value) (e : js_error) :
  req_method request = js "POST" ->
  JSON_parse (req_body request) = OK body ->
  Get body (js "content") = Throw e ->
  handleUpdate request env w = (Throw e, parsed request w).
Proof.
  intros Hm Hp Hg. unfold handleUpdate. rewrite Hm, str_eqb_refl. cbn [negb].
  unfold bind at 1. rewrite safeParseRequestJSON_run, Hp.
  unfold bind at 1, lift at 1. rewrite Hg. reflexivity.
Qed.

(** The error an outcome is turned into by the catch of [fetch]. *)
Lemma fetch_webhook (request : Request) (env : Env) (w : world) :
  req_pathname request = js "/webhook" ->
  fetch request env w =
  match handleWebhook request env w with
  | (OK resp, w') => (OK resp, w')
  | (Throw err, w') =>
      (OK (jsonResponse
             [(js "error",
               VStr (match err_message err with
                     | [] => js "Internal Error"
                     | m => m
                     end))] 500), w')
  end.
Proof.
  intros Hp. unfold fetch, try_catch. rewrite Hp.
  replace (str_eqb (js "/webhook") (js "/update")) with false by reflexivity.
  rewrite str_eqb_refl.
  destruct (handleWebhook request env w) as [[resp|err] w']; reflexivity.
Qed.

Lemma fetch_elsewhere (request : Request) (env : Env) (w : world) :
  req_pathname request <> js "/update" ->
  req_pathname request <> js "/webhook" ->
  fetch request env w = (OK (jsonResponse [(js "error", VStr (js "Not Found"))] 404), w).
Proof.
  intros H1 H2. unfold fetch, try_catch.
  apply str_eqb_neq in H1. apply str_eqb_neq in H2. rewrite H1, H2. reflexivity.
Qed.

(** Every response of [handleUpdate] is a [jsonResponse] with status 200,
    400 or 405. *)
Lemma handleUpdate_response_shape (request : Request) (env : Env) (w : world)
    (resp : Response) :
  fst (handleUpdate request env w) = OK resp ->
  exists obj status,
    resp = jsonResponse obj status /\ (status = 200 \/ status = 400 \/ status = 405).
Proof.
  intros H. destruct (jsstring_dec (req_method request) (js "POST")) as [Hm|Hm].
  - destruct (JSON_parse (req_body request)) as [body|e] eqn:Hp.
    + destruct (Get body (js "content")) as [content|e] eqn:Hg.
      * destruct (ToBoolean content) eqn:Ht.
        -- rewrite (handleUpdate_read _ _ _ _ _ Hm Hp Hg Ht) in H.
           break_in H; try discriminate.
           injection H as <-. eauto 6.
        -- rewrite (handleUpdate_missing_content _ _ _ _ _ Hm Hp Hg Ht) in H.
           injection H as <-. eauto 6.
      * rewrite (handleUpdate_content_throws _ _ _ _ _ Hm Hp Hg) in H. discriminate.
    + rewrite (handleUpdate_invalid_json _ _ _ _ Hm Hp) in H. discriminate.
  - rewrite (handleUpdate_not_POST _ _ _ Hm) in H. injection H as <-. eauto 6.
Qed.

(** Every response of [handleWebhook] is the acknowledgment of a request
    that is not a POST, or a [jsonResponse] with status 200 or 401. *)
Lemma handleWebhook_response_shape (request : Request) (env : Env) (w : world)
    (resp : Response) :
  fst (handleWebhook request env w) = OK resp ->
  (req_method request <> js "POST" /\ resp = new_Response (Some (js "OK")) 200 [])
  \/ exists obj status,
       resp = jsonResponse obj status /\ (status = 200 \/ status = 401).
Proof.
  intros H. destruct (jsstring_dec (req_method request) (js "POST")) as [Hm|Hm].
  - right. rewrite (handleWebhook_POST _ _ _ Hm) in H.
    break_in H; try discriminate;
      injection H as <-; unfold ignored_event; eauto 6.
  - left. rewrite (handleWebhook_not_POST _ _ _ Hm) in H. injection H as <-. auto.
Qed.

End HandlerCases.

(** ** The exported [fetch] *)

Section RouterFacts.

Context {P : Platform}.

Lemma paths_apart : js "/update" <> js "/webhook".
Proof. cbv. discriminate. Qed.

Lemma crypto_is_not_fetch (evs : list event) :
  forallb is_crypto evs = true -> existsb is_fetch evs = false.
Proof.
  induction evs as [|e evs IH]; [reflexivity|].
  cbn. intros H. apply andb_prop in H as [He Hr]. rewrite (IH Hr).
  destruct e; try discriminate; reflexivity.
Qed.

Lemma no_new_events (l evs : list event) : l = l ++ evs -> evs = [].
Proof.
  intros H. rewrite <- (app_nil_r l) in H at 1. apply app_inv_head in H. now symmetry.
Qed.

(** X1. The exported [fetch] always resolves to a response, whatever the
    request and whatever the runtime does: its status is 200, 400, 401,
    404, 405 or 500, and it is 500 exactly when the handler of the path
    threw. *)
Theorem fetch_always_responds (request : Request) (env : Env) (w : world) :
  exists resp,
    fst (fetch request env w) = OK resp
    /\ In (resp_status resp) [200; 400; 401; 404; 405; 500]
    /\ (resp_status resp = 500
        <-> (req_pathname request = js "/update"
             /\ exists e, fst (handleUpdate request env w) = Throw e)
            \/ (req_pathname request = js "/webhook"
                /\ exists e, fst (handleWebhook request env w) = Throw e)).
Proof.
  destruct (jsstring_dec (req_pathname request) (js "/update")) as [Hu|Hu];
    [|destruct (jsstring_dec (req_pathname request) (js "/webhook")) as [Hk|Hk]].
  - rewrite (fetch_update _ _ _ Hu).
    destruct (handleUpdate request env w) as [[resp|err] w'] eqn:Hh; cbn [fst].
    + destruct (handleUpdate_response_shape request env w resp) as (obj & st & -> & Hst);
        [rewrite Hh; reflexivity|].
      eexists. split; [reflexivity|]. rewrite jsonResponse_status. split.
      * cbn. intuition.
      * split.
        -- intros ->. destruct Hst as [H | [H | H]]; discriminate H.
        -- intros [[_ [e He]] | [Hk _]]; [discriminate He|].
           exfalso. apply paths_apart. congruence.
    + eexists. split; [reflexivity|]. rewrite jsonResponse_status. split.
      * cbn. intuition.
      * split; [|reflexivity]. intros _. left. eauto.
  - rewrite (fetch_webhook _ _ _ Hk).
    destruct (handleWebhook request env w) as [[resp|err] w'] eqn:Hh; cbn [fst].
    + eexists. split; [reflexivity|].
      destruct (handleWebhook_response_shape request env w resp)
        as [[_ ->] | (obj & st & -> & Hst)]; [rewrite Hh; reflexivity| |].
      * split; [cbn; intuition|]. split; [discriminate|].
        intros [[Hu' _] | [_ [e He]]]; [contradiction|discriminate He].
      * rewrite jsonResponse_status. split; [cbn; intuition|]. split.
        -- intros ->. destruct Hst as [H | H]; discriminate H.
        -- intros [[Hu' _] | [_ [e He]]]; [contradiction|discriminate He].
    + eexists. split; [reflexivity|]. rewrite jsonResponse_status. split.
      * cbn. intuition.
      * split; [|reflexivity]. intros _. right. eauto.
  - rewrite (fetch_elsewhere _ _ _ Hu Hk). eexists. split; [reflexivity|].
    rewrite jsonResponse_status. split; [cbn; intuition|].
    split; [discriminate|]. intros [[H _] | [H _]]; contradiction.
Qed.

(** X2. Every response of the worker is declared as JSON, with the one
    exception of the plain-text acknowledgment of a request to [/webhook]
    that is not a POST. *)
Theorem responses_are_json (request : Request) (env : Env) (w : world)
    (resp : Response) :
  fst (fetch request env w) = OK resp ->
  resp_headers resp = [(js "content-type", js "application/json")]
  \/ (req_pathname request = js "/webhook"
      /\ req_method request <> js "POST"
      /\ resp = mk_Response 200
                  [(js "content-type", js "text/plain;charset=UTF-8")] (js "OK")).
Proof.
  intros H.
  destruct (jsstring_dec (req_pathname request) (js "/update")) as [Hu|Hu];
    [|destruct (jsstring_dec (req_pathname request) (js "/webhook")) as [Hk|Hk]].
  - rewrite (fetch_update _ _ _ Hu) in H.
    destruct (handleUpdate request env w) as [[r|err] w'] eqn:Hh; cbn [fst] in H;
      injection H as <-; [|left; apply jsonResponse_headers].
    destruct (handleUpdate_response_shape request env w r) as (obj & st & -> & _);
      [rewrite Hh; reflexivity|].
    left. apply jsonResponse_headers.
  - rewrite (fetch_webhook _ _ _ Hk) in H.
    destruct (handleWebhook request env w) as [[r|err] w'] eqn:Hh; cbn [fst] in H;
      injection H as <-; [|left; apply jsonResponse_headers].
    destruct (handleWebhook_response_shape request env w r)
      as [[Hm ->] | (obj & st & -> & _)]; [rewrite Hh; reflexivity| |].
    + right. repeat split; assumption.
    + left. apply jsonResponse_headers.
  - rewrite (fetch_elsewhere _ _ _ Hu Hk) in H. injection H as <-.
    left. apply jsonResponse_headers.
Qed.

(** X3. A request to [/update] that is not a POST is answered 405
    without its body being read, and a request to any path other than
    [/update] and [/webhook] is answered 404, whatever its method; neither
    makes any call of the runtime. *)
Theorem fetch_refuses_without_effects (request : Request) (env : Env) (w : world) :
  (req_pathname request = js "/update" ->
   req_method request <> js "POST" ->
   fetch request env w
   = (OK (mk_Response 405 [(js "content-type", js "application/json")]
            (quoted "{'error':'Method not allowed'}")), w))
  /\ (req_pathname request <> js "/update" ->
      req_pathname request <> js "/webhook" ->
      fetch request env w
      = (OK (mk_Response 404 [(js "content-type", js "application/json")]
               (quoted "{'error':'Not Found'}")), w)).
Proof.
  split.
  - intros Hu Hm. rewrite (fetch_update _ _ _ Hu), (handleUpdate_not_POST _ _ _ Hm).
    reflexivity.
  - intros Hu Hk. rewrite (fetch_elsewhere _ _ _ Hu Hk). reflexivity.
Qed.

(** The world after [fetch] is the world after the handler of the path. *)
Lemma fetch_world (request : Request) (env : Env) (w : world) :
  snd (fetch request env w)
  = if str_eqb (req_pathname request) (js "/update")
    then snd (handleUpdate request env w)
    else if str_eqb (req_pathname request) (js "/webhook")
    then snd (handleWebhook request env w)
    else w.
Proof.
  unfold fetch, try_catch.
  destruct (str_eqb (req_pathname request) (js "/update")).
  - destruct (handleUpdate request env w) as [[r|e] w']; reflexivity.
  - destruct (str_eqb (req_pathname request) (js "/webhook")).
    + destruct (handleWebhook request env w) as [[r|e] w']; reflexivity.
    + reflexivity.
Qed.

(** X4. The worker calls the remote service only for a POST to
    [/update] whose body parses as JSON and has a truthy [content]: no
    other request makes any outbound call. *)
Theorem network_only_for_update (request : Request) (env : Env) (w : world)
    (evs : list event) :
  trace (snd (fetch request env w)) = trace w ++ evs ->
  existsb is_fetch evs = true ->
  req_pathname request = js "/update"
  /\ req_method request = js "POST"
  /\ exists body,
       JSON_parse (req_body request) = OK body
       /\ ToBoolean (prop body (js "content")) = true.
Proof.
  intros Htr Hex. rewrite fetch_world in Htr.
  destruct (str_eqb (req_pathname request) (js "/update")) eqn:Hu.
  - apply str_eqb_eq in Hu. split; [exact Hu|].
    destruct (jsstring_dec (req_method request) (js "POST")) as [Hm|Hm].
    + split; [exact Hm|].
      destruct (JSON_parse (req_body request)) as [body|e] eqn:Hp.
      * exists body. split; [reflexivity|].
        destruct (Get body (js "content")) as [content|e] eqn:Hg.
        -- destruct (Get_OK_inv _ _ _ Hg) as [_ ->].
           destruct (ToBoolean (prop body (js "content"))) eqn:Ht; [reflexivity|].
           rewrite (handleUpdate_missing_content _ _ _ _ _ Hm Hp Hg Ht) in Htr.
           cbn [snd parsed trace] in Htr. apply app_inv_head in Htr. subst evs.
           discriminate Hex.
        -- rewrite (handleUpdate_content_throws _ _ _ _ _ Hm Hp Hg) in Htr.
           cbn [snd parsed trace] in Htr. apply app_inv_head in Htr. subst evs.
           discriminate Hex.
      * rewrite (handleUpdate_invalid_json _ _ _ _ Hm Hp) in Htr.
        cbn [snd parsed trace] in Htr. apply app_inv_head in Htr. subst evs.
        discriminate Hex.
    + rewrite (handleUpdate_not_POST _ _ _ Hm) in Htr. cbn [snd] in Htr.
      apply no_new_events in Htr. subst evs. discriminate Hex.
  - exfalso. destruct (str_eqb (req_pathname request) (js "/webhook")).
    + destruct (handleWebhook_trace request env w)
        as (crypto & parses & Htr' & Hcr & Hp & _).
      rewrite Htr in Htr'. apply app_inv_head in Htr'. subst evs.
      rewrite !existsb_app, (crypto_is_not_fetch _ Hcr) in Hex.
      destruct (str_eqb (req_method request) (js "POST"));
        destruct Hp as [-> | [-> _]]; discriminate Hex.
    + apply no_new_events in Htr. subst evs. discriminate Hex.
Qed.

End RouterFacts.

(** ** The Remote Content Client, further *)

Section ClientMore.

Context {P : Platform}.

(** One call of the client makes one call of [fetch]. *)
Lemma safeGitHubRequest_fetches (url : jsstring) (env : Env) (options : Options)
    (w : world) :
  exists tail,
    trace (snd (safeGitHubRequest url env options w))
    = trace w ++ EvFetch (github_request url env options) :: tail
    /\ fetches tail = [].
Proof.
  rewrite safeGitHubRequest_run. cbv zeta.
  destruct (platform_fetch (remote w) (github_request url env options))
    as [[resp|e] st].
  - exists [EvJsonParse (hr_text resp)].
    destruct (JSON_parse (hr_text resp)); [destruct (hr_ok resp)|]; split; reflexivity.
  - exists []. split; reflexivity.
Qed.

(** X5. A call of the Remote Content Client returns a value exactly
    when [fetch] resolved with a success status and a body that parses as
    JSON, and the value is that of the body; whatever happens, the call
    makes exactly one call of [fetch]: nothing is retried. *)
Theorem client_returns_iff (url : jsstring) (env : Env) (options : Options)
    (w : world) (data : value) :
  (fst (safeGitHubRequest url env options w) = OK data
   <-> exists resp st,
         platform_fetch (remote w) (github_request url env options) = (OK resp, st)
         /\ hr_ok resp = true
         /\ JSON_parse (hr_text resp) = OK data)
  /\ exists tail,
       trace (snd (safeGitHubRequest url env options w))
       = trace w ++ EvFetch (github_request url env options) :: tail
       /\ fetches tail = [].
Proof.
  split; [|apply safeGitHubRequest_fetches].
  rewrite safeGitHubRequest_run. cbv zeta.
  destruct (platform_fetch (remote w) (github_request url env options))
    as [[resp|e] st].
  - destruct (JSON_parse (hr_text resp)) as [data'|e] eqn:Hd.
    + destruct (hr_ok resp) eqn:Hok; cbn [fst]; split.
      * intros H. injection H as <-. exists resp, st. auto.
      * intros (resp' & st' & H & _ & Hd'). injection H as <- <-. congruence.
      * discriminate.
      * intros (resp' & st' & H & Hok' & _). injection H as <- <-. congruence.
    + cbn [fst]. split; [discriminate|].
      intros (resp' & st' & H & _ & Hd'). injection H as <- <-. congruence.
  - cbn [fst]. split; [discriminate|]. intros (resp' & st' & H & _). discriminate H.
Qed.

Lemma own_property_set_prop (k k' v : jsstring) (o : list (jsstring * jsstring)) :
  own_property k (set_prop k' v o)
  = if str_eqb k k' then Some v else own_property k o.
Proof.
  induction o as [|[k'' v''] rest IH].
  - reflexivity.
  - cbn [set_prop own_property].
    destruct (str_eqb k' k'') eqn:H1; cbn [own_property]; [|rewrite IH];
      destruct (str_eqb k k') eqn:H2; destruct (str_eqb k k'') eqn:H3;
      try reflexivity;
      rewrite ?str_eqb_eq, ?str_eqb_neq in *; congruence.
Qed.

Lemma own_property_app (k : jsstring) (a b : list (jsstring * jsstring)) :
  own_property k (a ++ b)
  = match own_property k a with
    | Some v => Some v
    | None => own_property k b
    end.
Proof.
  induction a as [|[k' v'] a IH]; [reflexivity|].
  cbn [app own_property]. destruct (str_eqb k k'); [reflexivity|apply IH].
Qed.

Lemma own_property_spread (k : jsstring) (a b : list (jsstring * jsstring)) :
  own_property k (spread a b)
  = match own_property k (rev b) with
    | Some v => Some v
    | None => own_property k a
    end.
Proof.
  unfold spread. revert a. induction b as [|[k' v'] b IH]; intros a.
  - reflexivity.
  - cbn [fold_left fst snd rev]. rewrite IH, own_property_app, own_property_set_prop.
    cbn [own_property].
    destruct (own_property k (rev b)); [reflexivity|].
    destruct (str_eqb k k'); reflexivity.
Qed.

(** X6. The headers of a call of the client are the four defaults
    (the bearer token, the GitHub media type, the JSON content type and
    the user agent) overridden by the headers the caller gives: a name the
    caller gives has the caller's (last) value, any other name its default.
    The two calls the worker makes give no headers, so both carry the
    bearer token of the deployment. *)
Theorem client_headers (env : Env) (options : Options) (name url : jsstring)
    (encoded : jsstring) (sha : value) :
  own_property name (github_headers env options)
  = match own_property name
            (rev (match opt_headers options with Some h => h | None => [] end)) with
    | Some v => Some v
    | None =>
        own_property name
          [(js "Authorization", js "Bearer " ++ GH_TOKEN env);
           (js "Accept", js "application/vnd.github+json");
           (js "Content-Type", js "application/json");
           (js "User-Agent", js "cloudflare-worker")]
    end
  /\ own_property (js "Authorization")
       (fr_headers (github_request url env no_options))
     = Some (js "Bearer " ++ GH_TOKEN env)
  /\ own_property (js "Authorization")
       (fr_headers (github_request url env (write_options env encoded sha)))
     = Some (js "Bearer " ++ GH_TOKEN env).
Proof.
  split; [|split; reflexivity].
  unfold github_headers. apply own_property_spread.
Qed.

End ClientMore.

(** ** The Update Flow, further *)

Section UpdateMore.

Context {P : Platform}.

(** The run up to the write, once the read has returned a truthy [sha]. *)
Lemma handleUpdate_write (request : Request) (env : Env) (w : world)
    (body content data : value) (r1 : http_response) (st1 : remote_state) :
  req_method request = js "POST" ->
  JSON_parse (req_body request) = OK body ->
  Get body (js "content") = OK content ->
  ToBoolean content = true ->
  platform_fetch (remote w) (github_request (read_url env) env no_options)
  = (OK r1, st1) ->
  hr_ok r1 = true ->
  JSON_parse (hr_text r1) = OK data ->
  ToBoolean (prop data (js "sha")) = true ->
  let w2 :=
    mk_world st1
      (trace w ++ [EvRequestText; EvJsonParse (req_body request);
                   EvFetch (github_request (read_url env) env no_options);
                   EvJsonParse (hr_text r1)]) in
  handleUpdate request env w =
  match base64Encode content with
  | Throw e => (Throw e, w2)
  | OK encoded =>
      match safeGitHubRequest (contents_url env) env
              (write_options env encoded (prop data (js "sha"))) w2 with
      | (Throw e, w3) => (Throw e, w3)
      | (OK updateResult, w3) =>
          (result_bind (Get updateResult (js "commit")) (fun commit =>
           result_bind (GetOptional commit (js "sha")) (fun commit_sha =>
           OK (jsonResponse
                 [(js "message", VStr (js "Update triggered"));
                  (js "commit", commit_sha)] 200))), w3)
      end
  end.
Proof.
  intros Hm Hp Hg Ht Hf Hok Hd Hs w2.
  assert (Hnd : nullish data = false).
  { destruct data; try reflexivity; discriminate Hs. }
  rewrite (handleUpdate_read _ _ _ _ _ Hm Hp Hg Ht).
  rewrite safeGitHubRequest_run. cbv zeta.
  change (remote (parsed request w)) with (remote w).
  rewrite Hf, Hd, Hok, (Get_prop _ _ Hnd), Hs.
  unfold parsed. cbn [trace]. rewrite <- !app_assoc. reflexivity.
Qed.

(** X7. In every run of the Update Flow the calls of the remote service
    are none, or the read alone, or the read followed by one write; and a
    write is there only when the read was answered with a success whose
    JSON body has a truthy [sha]: the write then carries that [sha] and the
    encoding of the request's [content]. *)
Theorem update_network_discipline (request : Request) (env : Env) (w : world) :
  let read := github_request (read_url env) env no_options in
  exists evs,
    trace (snd (handleUpdate request env w)) = trace w ++ evs
    /\ (fetches evs = []
        \/ fetches evs = [EvFetch read]
        \/ exists body data r1 st1 encoded,
             JSON_parse (req_body request) = OK body
             /\ platform_fetch (remote w) read = (OK r1, st1)
             /\ hr_ok r1 = true
             /\ JSON_parse (hr_text r1) = OK data
             /\ ToBoolean (prop data (js "sha")) = true
             /\ base64Encode (prop body (js "content")) = OK encoded
             /\ fetches evs
                = [EvFetch read;
                   EvFetch (github_request (contents_url env) env
                              (write_options env encoded (prop data (js "sha"))))]).
Proof.
  intros read.
  destruct (jsstring_dec (req_method request) (js "POST")) as [Hm|Hm];
    [|rewrite (handleUpdate_not_POST _ _ _ Hm); exists [];
      split; [cbn; now rewrite app_nil_r|left; reflexivity]].
  destruct (JSON_parse (req_body request)) as [body|e] eqn:Hp;
    [|rewrite (handleUpdate_invalid_json _ _ _ _ Hm Hp); eexists;
      split; [reflexivity|left; reflexivity]].
  destruct (Get body (js "content")) as [content|e] eqn:Hg;
    [|rewrite (handleUpdate_content_throws _ _ _ _ _ Hm Hp Hg); eexists;
      split; [reflexivity|left; reflexivity]].
  destruct (ToBoolean content) eqn:Ht;
    [|rewrite (handleUpdate_missing_content _ _ _ _ _ Hm Hp Hg Ht); eexists;
      split; [reflexivity|left; reflexivity]].
  destruct (platform_fetch (remote w) read) as [[r1|e] st1] eqn:Hf.
  - destruct (JSON_parse (hr_text r1)) as [data|e] eqn:Hd.
    + destruct (hr_ok r1) eqn:Hok.
      * destruct (ToBoolean (prop data (js "sha"))) eqn:Hs.
        -- rewrite (handleUpdate_write _ _ _ _ _ _ _ _ Hm Hp Hg Ht Hf Hok Hd Hs).
           cbv zeta. destruct (base64Encode content) as [encoded|e] eqn:He.
           ++ match goal with
              | |- context [safeGitHubRequest ?u ?en ?o ?w2] =>
                  destruct (safeGitHubRequest_fetches u en o w2) as (tail & Htr & Htail);
                  destruct (safeGitHubRequest u en o w2) as [[upd|e] w3]
              end; cbn [snd trace] in *; rewrite Htr, <- app_assoc;
                (eexists; split; [reflexivity|]); right; right;
                exists body, data, r1, st1, encoded;
                destruct (Get_OK_inv _ _ _ Hg) as [_ <-];
                repeat (split; [assumption || reflexivity|]);
                unfold fetches in *; rewrite filter_app; cbn [filter is_fetch app];
                rewrite Htail; reflexivity.
           ++ eexists. split; [reflexivity|]. right. left. reflexivity.
        -- rewrite (handleUpdate_read _ _ _ _ _ Hm Hp Hg Ht), safeGitHubRequest_run.
           cbv zeta. change (remote (parsed request w)) with (remote w). fold read.
           rewrite Hf, Hd, Hok.
           destruct (nullish data) eqn:Hn.
           ++ destruct (Get_nullish data (js "sha") Hn) as [e He]. rewrite He.
              eexists. split; [unfold parsed; cbn [snd trace]; rewrite <- app_assoc;
                               reflexivity|].
              right. left. reflexivity.
           ++ rewrite (Get_prop _ _ Hn), Hs.
              eexists. split; [unfold parsed; cbn [snd trace]; rewrite <- app_assoc;
                               reflexivity|].
              right. left. reflexivity.
      * rewrite (handleUpdate_read _ _ _ _ _ Hm Hp Hg Ht), safeGitHubRequest_run.
        cbv zeta. change (remote (parsed request w)) with (remote w). fold read.
        rewrite Hf, Hd, Hok.
        eexists. split; [unfold parsed; cbn [snd trace]; rewrite <- app_assoc;
                         reflexivity|].
        right. left. reflexivity.
    + rewrite (handleUpdate_read _ _ _ _ _ Hm Hp Hg Ht), safeGitHubRequest_run.
      cbv zeta. change (remote (parsed request w)) with (remote w). fold read.
      rewrite Hf, Hd.
      eexists. split; [unfold parsed; cbn [snd trace]; rewrite <- app_assoc;
                       reflexivity|].
      right. left. reflexivity.
  - rewrite (handleUpdate_read _ _ _ _ _ Hm Hp Hg Ht), safeGitHubRequest_run.
    cbv zeta. change (remote (parsed request w)) with (remote w). fold read.
    rewrite Hf.
    eexists. split; [unfold parsed; cbn [snd trace]; rewrite <- app_assoc;
                     reflexivity|].
    right. left. reflexivity.
Qed.

End UpdateMore.

Section UpdateEdges.

Context {P : Platform}.

(** [encodeURIComponent] throws its URIError on every string that is not
    well formed. *)
Lemma Encode_ill_formed (s : jsstring) :
  Unicode.isWellFormed s = false -> URI.Encode s = Throw URI.URI_malformed.
Proof.
  remember (List.length s) as n eqn:Hn. revert s Hn.
  induction n as [n IH] using lt_wf_ind. intros s Hn Hw.
  destruct s as [|c t]; [discriminate|].
  cbn [URI.Encode Unicode.isWellFormed] in *.
  destruct (URI.uriUnreserved c) eqn:Hun.
  - apply unreserved_is_ascii in Hun as [Hun _].
    replace (Unicode.is_lead c) with false in Hw by (unfold Unicode.is_lead; lia).
    replace (Unicode.is_trail c) with false in Hw by (unfold Unicode.is_trail; lia).
    rewrite (IH (List.length t)); [reflexivity|subst; cbn; lia|reflexivity|exact Hw].
  - destruct (Unicode.is_lead c).
    + destruct t as [|d t']; [reflexivity|].
      destruct (Unicode.is_trail d); [|reflexivity]. cbn [andb] in Hw.
      rewrite (IH (List.length t')); [reflexivity|subst; cbn; lia|reflexivity|exact Hw].
    + destruct (Unicode.is_trail c); [reflexivity|].
      rewrite (IH (List.length t)); [reflexivity|subst; cbn; lia|reflexivity|exact Hw].
Qed.

(** X8. When the [fetch] of the read rejects (the network fails), the
    Update Flow stops there: the error is passed on unchanged and surfaced
    as status 500 with its message, or with ["Internal Error"] if it has
    none, and no write is attempted. *)
Theorem update_read_rejected (request : Request) (env : Env) (w : world)
    (body content : value) (e : js_error) (st : remote_state) :
  req_method request = js "POST" ->
  req_pathname request = js "/update" ->
  JSON_parse (req_body request) = OK body ->
  Get body (js "content") = OK content ->
  ToBoolean content = true ->
  platform_fetch (remote w) (github_request (read_url env) env no_options)
  = (Throw e, st) ->
  let w' :=
    mk_world st
      (trace w ++ [EvRequestText; EvJsonParse (req_body request);
                   EvFetch (github_request (read_url env) env no_options)]) in
  handleUpdate request env w = (Throw e, w')
  /\ fetch request env w
     = (OK (jsonResponse
              [(js "error",
                VStr (match err_message e with
                      | [] => js "Internal Error"
                      | m => m
                      end))] 500), w')
  /\ (err_message e = [] ->
      resp_body (jsonResponse
                   [(js "error",
                     VStr (match err_message e with
                           | [] => js "Internal Error"
                           | m => m
                           end))] 500)
      = quoted "{'error':'Internal Error'}").
Proof.
  intros Hm Hu Hp Hg Ht Hf w'.
  assert (Hrun : handleUpdate request env w = (Throw e, w')).
  { rewrite (handleUpdate_read _ _ _ _ _ Hm Hp Hg Ht), safeGitHubRequest_run.
    cbv zeta. change (remote (parsed request w)) with (remote w). rewrite Hf.
    unfold parsed, w'. cbn [trace]. rewrite <- app_assoc. reflexivity. }
  split; [exact Hrun|]. split.
  - rewrite (fetch_update _ _ _ Hu), Hrun. reflexivity.
  - intros ->. reflexivity.
Qed.

(** X9. A [content] text with an unpaired surrogate passes the check
    for missing content and the read is made, but the encoding then throws
    a URIError: the flow fails after the read, no write is made, and the
    answer is status 500 with the message ["URI malformed"]. *)
Theorem update_unpaired_surrogate (request : Request) (env : Env) (w : world)
    (body data : value) (c : jsstring) (r1 : http_response) (st1 : remote_state) :
  req_method request = js "POST" ->
  req_pathname request = js "/update" ->
  JSON_parse (req_body request) = OK body ->
  Get body (js "content") = OK (VStr c) ->
  Unicode.isWellFormed c = false ->
  platform_fetch (remote w) (github_request (read_url env) env no_options)
  = (OK r1, st1) ->
  hr_ok r1 = true ->
  JSON_parse (hr_text r1) = OK data ->
  ToBoolean (prop data (js "sha")) = true ->
  let events :=
    [EvRequestText; EvJsonParse (req_body request);
     EvFetch (github_request (read_url env) env no_options);
     EvJsonParse (hr_text r1)] in
  handleUpdate request env w
  = (Throw URI.URI_malformed, mk_world st1 (trace w ++ events))
  /\ filter is_write events = []
  /\ exists resp,
       fst (fetch request env w) = OK resp
       /\ resp_status resp = 500
       /\ resp_body resp = quoted "{'error':'URI malformed'}".
Proof.
  intros Hm Hu Hp Hg Hw Hf Hok Hd Hs events.
  assert (Ht : ToBoolean (VStr c) = true) by (destruct c; [discriminate|reflexivity]).
  assert (Hrun : handleUpdate request env w
                 = (Throw URI.URI_malformed, mk_world st1 (trace w ++ events))).
  { rewrite (handleUpdate_write _ _ _ _ _ _ _ _ Hm Hp Hg Ht Hf Hok Hd Hs). cbv zeta.
    unfold base64Encode, encodeURIComponent. cbn [ToString result_bind].
    rewrite (Encode_ill_formed c Hw). reflexivity. }
  split; [exact Hrun|]. split; [reflexivity|].
  eexists. rewrite (fetch_update _ _ _ Hu), Hrun. repeat split.
Qed.

(** X10. When the write is answered with a success whose body is the
    JSON value [null], the flow throws a TypeError on reading [commit]:
    the caller gets status 500 although the write was made and the remote
    service is in the state after it. *)
Theorem update_write_answered_null (request : Request) (env : Env) (w : world)
    (body content data : value) (encoded : jsstring) (r1 r2 : http_response)
    (st1 st2 : remote_state) :
  req_method request = js "POST" ->
  req_pathname request = js "/update" ->
  JSON_parse (req_body request) = OK body ->
  Get body (js "content") = OK content ->
  ToBoolean content = true ->
  base64Encode content = OK encoded ->
  let read := github_request (read_url env) env no_options in
  platform_fetch (remote w) read = (OK r1, st1) ->
  hr_ok r1 = true ->
  JSON_parse (hr_text r1) = OK data ->
  ToBoolean (prop data (js "sha")) = true ->
  let write :=
    github_request (contents_url env) env
      (write_options env encoded (prop data (js "sha"))) in
  platform_fetch st1 write = (OK r2, st2) ->
  hr_ok r2 = true ->
  JSON_parse (hr_text r2) = OK VNull ->
  let w' :=
    mk_world st2
      (trace w ++ [EvRequestText; EvJsonParse (req_body request);
                   EvFetch read; EvJsonParse (hr_text r1);
                   EvFetch write; EvJsonParse (hr_text r2)]) in
  handleUpdate request env w = (Throw (cannot_read (js "null") (js "commit")), w')
  /\ remote w' = st2
  /\ exists resp,
       fetch request env w = (OK resp, w')
       /\ resp_status resp = 500.
Proof.
  intros Hm Hu Hp Hg Ht He read Hf1 Hok1 Hd1 Hs write Hf2 Hok2 Hd2 w'.
  assert (Hrun : handleUpdate request env w
                 = (Throw (cannot_read (js "null") (js "commit")), w')).
  { rewrite (handleUpdate_write _ _ _ _ _ _ _ _ Hm Hp Hg Ht Hf1 Hok1 Hd1 Hs). cbv zeta.
    rewrite He, safeGitHubRequest_run. cbv zeta. cbn [remote trace]. fold write.
    rewrite Hf2, Hd2, Hok2. cbn [Get result_bind]. unfold w'.
    rewrite <- !app_assoc. reflexivity. }
  split; [exact Hrun|]. split; [reflexivity|].
  eexists. rewrite (fetch_update _ _ _ Hu), Hrun. split; reflexivity.
Qed.

(** What [base64Encode] makes of an object. *)
Lemma base64Encode_object (fields : list (jsstring * value)) :
  base64Encode (VObj fields)
  = if has_key (js "toString") fields then Throw cannot_convert
    else OK (js "W29iamVjdCBPYmplY3Rd").
Proof.
  unfold base64Encode, encodeURIComponent. cbn [ToString].
  destruct (has_key (js "toString") fields); reflexivity.
Qed.

(** X11. A [content] that is a JSON object is not refused as missing
    (an object is truthy) and the read is made.  When the object has no
    property named [toString], what is written is the Base64 text of
    ["[object Object]"], whatever its fields are; when it has one, the
    conversion to a string throws a TypeError after the read and no write
    is made. *)
Theorem update_object_content (request : Request) (env : Env) (w : world)
    (body data : value) (fields : list (jsstring * value)) (r1 : http_response)
    (st1 : remote_state) :
  req_method request = js "POST" ->
  JSON_parse (req_body request) = OK body ->
  Get body (js "content") = OK (VObj fields) ->
  platform_fetch (remote w) (github_request (read_url env) env no_options)
  = (OK r1, st1) ->
  hr_ok r1 = true ->
  JSON_parse (hr_text r1) = OK data ->
  ToBoolean (prop data (js "sha")) = true ->
  let events :=
    [EvRequestText; EvJsonParse (req_body request);
     EvFetch (github_request (read_url env) env no_options);
     EvJsonParse (hr_text r1)] in
  (has_key (js "toString") fields = false ->
   exists evs,
     trace (snd (handleUpdate request env w)) = trace w ++ evs
     /\ filter is_write evs
        = [EvFetch (github_request (contents_url env) env
                      (write_options env (js "W29iamVjdCBPYmplY3Rd")
                         (prop data (js "sha"))))])
  /\ (has_key (js "toString") fields = true ->
      handleUpdate request env w
      = (Throw cannot_convert, mk_world st1 (trace w ++ events))
      /\ filter is_write events = [])
  /\ decode_base64_utf8 (js "W29iamVjdCBPYmplY3Rd") = Some (js "[object Object]").
Proof.
  intros Hm Hp Hg Hf Hok Hd Hs events.
  pose proof (handleUpdate_write _ _ _ _ _ _ _ _ Hm Hp Hg eq_refl Hf Hok Hd Hs) as Hrun.
  cbv zeta in Hrun. rewrite base64Encode_object in Hrun.
  split; [|split; [|reflexivity]].
  - intros Hk. rewrite Hk in Hrun. rewrite Hrun.
    match goal with
    | |- context [safeGitHubRequest ?u ?en ?o ?w2] =>
        destruct (safeGitHubRequest_trace u en o w2) as (tail & Htr & Htail);
        destruct (safeGitHubRequest u en o w2) as [[upd|e] w3]
    end; cbn [snd trace] in *; rewrite Htr, <- app_assoc;
      (eexists; split; [reflexivity|]);
      rewrite filter_app; cbn [filter app];
      change (is_write (EvFetch (github_request (read_url env) env no_options)))
        with false;
      cbn [is_write fr_method github_request write_options opt_method];
      rewrite str_eqb_refl, Htail; reflexivity.
  - intros Hk. rewrite Hk in Hrun. split; [exact Hrun|reflexivity].
Qed.

(** X12. A POST to [/update] whose body is the JSON text [null] is
    answered 500 with the TypeError of the property read, before any
    network call. *)
Theorem update_null_body (request : Request) (env : Env) (w : world) :
  req_method request = js "POST" ->
  req_pathname request = js "/update" ->
  JSON_parse (req_body request) = OK VNull ->
  fetch request env w
  = (OK (jsonResponse
           [(js "error",
             VStr (js "Cannot read properties of null (reading 'content')"))] 500),
     parsed request w)
  /\ fetches [EvRequestText; EvJsonParse (req_body request)] = [].
Proof.
  intros Hm Hu Hp. split; [|reflexivity].
  rewrite (fetch_update _ _ _ Hu).
  rewrite (handleUpdate_content_throws request env w VNull
             (cannot_read (js "null") (js "content")) Hm Hp eq_refl).
  reflexivity.
Qed.

End UpdateEdges.

(** ** The Webhook Flow, further *)

Section WebhookMore.

Context {P : Platform}.

(** X13. A POST to [/webhook] without the signature header, or with an
    empty one, is answered 401 after the body has been read and nothing
    else: [crypto.subtle] is not called and the body is not parsed. *)
Theorem webhook_unsigned_delivery (request : Request) (env : Env) (w : world) :
  req_method request = js "POST" ->
  signature_header request = None \/ signature_header request = Some [] ->
  handleWebhook request env w
  = (OK (mk_Response 401 [(js "content-type", js "application/json")]
           (quoted "{'error':'Invalid signature'}")),
     mk_world (remote w) (trace w ++ [EvRequestText])).
Proof.
  intros Hm Hs. rewrite (handleWebhook_POST _ _ _ Hm).
  rewrite (verifySignature_falsy _ _ _ _ Hs). reflexivity.
Qed.

(** X14. When a call of [crypto.subtle] rejects (the key cannot be
    imported, or the signing fails), the Webhook Flow throws that error:
    the delivery is answered 500, not 401, and its body is not parsed. *)
Theorem webhook_crypto_failure (request : Request) (env : Env) (w : world)
    (sig : jsstring) (e : js_error) :
  req_method request = js "POST" ->
  req_pathname request = js "/webhook" ->
  signature_header request = Some sig ->
  sig <> [] ->
  subtle_importKey (Unicode.TextEncoder_encode (WEBHOOK_SECRET env)) = Throw e
  \/ (exists key,
         subtle_importKey (Unicode.TextEncoder_encode (WEBHOOK_SECRET env)) = OK key
         /\ subtle_sign key (Unicode.TextEncoder_encode (req_body request)) = Throw e) ->
  exists w',
    handleWebhook request env w = (Throw e, w')
    /\ existsb is_json_parse (skipn (List.length (trace w)) (trace w')) = false
    /\ fetch request env w
       = (OK (jsonResponse
                [(js "error",
                  VStr (match err_message e with
                        | [] => js "Internal Error"
                        | m => m
                        end))] 500), w').
Proof.
  intros Hm Hk Hs Hne Hc.
  assert (Hrun : exists w',
             handleWebhook request env w = (Throw e, w')
             /\ existsb is_json_parse (skipn (List.length (trace w)) (trace w')) = false).
  { rewrite (handleWebhook_POST _ _ _ Hm), Hs.
    destruct sig as [|c sig]; [congruence|].
    unfold verifySignature, bind, call_importKey, call_sign, ret.
    destruct Hc as [Hi | (key & Hi & Hg)]; rewrite Hi.
    - eexists. split; [reflexivity|]. cbn [trace record remote].
      rewrite <- app_assoc, skipn_app, skipn_all, Nat.sub_diag. reflexivity.
    - cbn [remote trace record]. rewrite Hg.
      eexists. split; [reflexivity|]. cbn [trace record remote].
      rewrite <- !app_assoc, skipn_app, skipn_all, Nat.sub_diag. reflexivity. }
  destruct Hrun as (w' & Hrun & Hnp). exists w'.
  split; [exact Hrun|]. split; [exact Hnp|].
  rewrite (fetch_webhook _ _ _ Hk), Hrun. reflexivity.
Qed.

(** X15. A verified delivery whose body does not parse as JSON makes the
    Webhook Flow throw the parser's own error, which is surfaced as status
    500 with the parser's message (the Update Flow replaces it by
    ["Invalid JSON body"]; this flow does not). *)
Theorem webhook_malformed_payload (request : Request) (env : Env) (w w1 : world)
    (e : js_error) :
  req_method request = js "POST" ->
  req_pathname request = js "/webhook" ->
  verifySignature (req_body request) (signature_header request)
    (WEBHOOK_SECRET env) (record EvRequestText w) = (OK true, w1) ->
  JSON_parse (req_body request) = Throw e ->
  handleWebhook request env w = (Throw e, record (EvJsonParse (req_body request)) w1)
  /\ fetch request env w
     = (OK (jsonResponse
              [(js "error",
                VStr (match err_message e with
                      | [] => js "Internal Error"
                      | m => m
                      end))] 500),
        record (EvJsonParse (req_body request)) w1).
Proof.
  intros Hm Hk Hv Hp.
  assert (Hrun : handleWebhook request env w
                 = (Throw e, record (EvJsonParse (req_body request)) w1)).
  { rewrite (handleWebhook_POST _ _ _ Hm), Hv, Hp. reflexivity. }
  split; [exact Hrun|]. rewrite (fetch_webhook _ _ _ Hk), Hrun. reflexivity.
Qed.

(** X16. A verified delivery whose body is the JSON text [null] makes
    the Webhook Flow throw a TypeError on reading [action]: it is answered
    500, not ["Ignored event"]. *)
Theorem webhook_null_payload (request : Request) (env : Env) (w w1 : world) :
  req_method request = js "POST" ->
  req_pathname request = js "/webhook" ->
  verifySignature (req_body request) (signature_header request)
    (WEBHOOK_SECRET env) (record EvRequestText w) = (OK true, w1) ->
  JSON_parse (req_body request) = OK VNull ->
  handleWebhook request env w
  = (Throw (cannot_read (js "null") (js "action")),
     record (EvJsonParse (req_body request)) w1)
  /\ fetch request env w
     = (OK (jsonResponse
              [(js "error",
                VStr (js "Cannot read properties of null (reading 'action')"))] 500),
        record (EvJsonParse (req_body request)) w1).
Proof.
  intros Hm Hk Hv Hp.
  assert (Hrun : handleWebhook request env w
                 = (Throw (cannot_read (js "null") (js "action")),
                    record (EvJsonParse (req_body request)) w1)).
  { rewrite (handleWebhook_POST _ _ _ Hm), Hv, Hp. reflexivity. }
  split; [exact Hrun|]. rewrite (fetch_webhook _ _ _ Hk), Hrun. reflexivity.
Qed.

Lemma hex_lower_length (digest : list byte) :
  List.length (Hex.hex_lower digest) = (2 * List.length digest)%nat.
Proof.
  unfold Hex.hex_lower. induction digest as [|b rest IH]; [reflexivity|].
  cbn [flat_map]. rewrite length_app, IH. cbn. lia.
Qed.

Lemma hex_lower_digits (digest : list byte) :
  forallb is_lower_hex_digit (Hex.hex_lower digest) = true.
Proof.
  unfold Hex.hex_lower. induction digest as [|b rest IH]; [reflexivity|].
  cbn [flat_map]. rewrite forallb_app, IH, andb_true_r.
  destruct b; reflexivity.
Qed.

(** What the runtime signed, when [verifySignature] gave [true]. *)
Lemma verifySignature_true_digest (b k sig : jsstring) (w : world) :
  fst (verifySignature b (Some sig) k w) = OK true ->
  exists key digest,
    subtle_importKey (Unicode.TextEncoder_encode k) = OK key
    /\ subtle_sign key (Unicode.TextEncoder_encode b) = OK digest
    /\ sig = js "sha256=" ++ Hex.hex_lower digest.
Proof.
  destruct sig as [|c sig]; [discriminate|].
  unfold verifySignature, bind, call_importKey, call_sign, ret.
  destruct (subtle_importKey (Unicode.TextEncoder_encode k)) as [key|e] eqn:Hkey;
    [|discriminate].
  cbn [fst snd remote trace record].
  destruct (subtle_sign key (Unicode.TextEncoder_encode b)) as [digest|e] eqn:Hsign;
    [|discriminate].
  cbn [fst]. rewrite hash_is_hex_lower. intros H.
  assert (Heq : str_eqb (js "sha256=" ++ Hex.hex_lower digest) (c :: sig) = true)
    by congruence.
  apply str_eqb_eq in Heq. exists key, digest.
  split; [auto|]. split; [auto|]. now symmetry.
Qed.

(** X17. A token that verifies has exactly the shape the code builds:
    the seven characters [sha256=] followed by two characters per byte of
    the digest that the runtime signs for the body, each of them a digit
    or a letter from [a] to [f] in lower case; and a token with another
    prefix, another length than seven plus twice the length of that
    digest, or an upper-case digit is refused. *)
Theorem verified_token_shape (b k sig : jsstring) (w : world) :
  (fst (verifySignature b (Some sig) k w) = OK true ->
   exists key digest,
     subtle_importKey (Unicode.TextEncoder_encode k) = OK key
     /\ subtle_sign key (Unicode.TextEncoder_encode b) = OK digest
     /\ firstn 7 sig = js "sha256="
     /\ List.length sig = (7 + 2 * List.length digest)%nat
     /\ forallb is_lower_hex_digit (skipn 7 sig) = true)
  /\ (forall key digest,
         subtle_importKey (Unicode.TextEncoder_encode k) = OK key ->
         subtle_sign key (Unicode.TextEncoder_encode b) = OK digest ->
         firstn 7 sig <> js "sha256="
         \/ List.length sig <> (7 + 2 * List.length digest)%nat
         \/ forallb is_lower_hex_digit (skipn 7 sig) = false ->
         fst (verifySignature b (Some sig) k w) = OK false).
Proof.
  assert (Hshape : forall digest,
             firstn 7 (js "sha256=" ++ Hex.hex_lower digest) = js "sha256="
             /\ List.length (js "sha256=" ++ Hex.hex_lower digest)
                = (7 + 2 * List.length digest)%nat
             /\ forallb is_lower_hex_digit
                  (skipn 7 (js "sha256=" ++ Hex.hex_lower digest)) = true).
  { intros digest. split; [reflexivity|]. split.
    - rewrite length_app, hex_lower_length. reflexivity.
    - change (skipn 7 (js "sha256=" ++ Hex.hex_lower digest))
        with (Hex.hex_lower digest).
      apply hex_lower_digits. }
  split.
  - intros H. destruct (verifySignature_true_digest b k sig w H)
      as (key & digest & Hk & Hs & ->).
    exists key, digest. split; [exact Hk|]. split; [exact Hs|]. apply Hshape.
  - intros key digest Hk Hs Hbad.
    destruct sig as [|c sig]; [reflexivity|].
    rewrite (verifySignature_digest b k (c :: sig) key digest w); try assumption;
      [|discriminate].
    cbn [fst]. f_equal.
    destruct (str_eqb (js "sha256=" ++ Hex.hex_lower digest) (c :: sig)) eqn:He;
      [|reflexivity].
    apply str_eqb_eq in He. rewrite <- He in Hbad.
    destruct (Hshape digest) as (H1 & H2 & H3).
    destruct Hbad as [H | [H | H]]; congruence.
Qed.

End WebhookMore.

(** ** The encoder and the responses, further *)

Section EncoderMore.

Context {P : Platform}.

(** What [base64Encode] returns, when it returns. *)
Lemma base64Encode_OK_inv (s encoded : jsstring) :
  Forall is_code_unit s ->
  base64Encode (VStr s) = OK encoded ->
  Unicode.isWellFormed s = true
  /\ encoded = Base64.encode (Unicode.utf8_encode s).
Proof.
  intros Hr He.
  assert (Hw : Unicode.isWellFormed s = true).
  { unfold base64Encode, encodeURIComponent in He. cbn [ToString result_bind] in He.
    destruct (URI.Encode s) as [escaped|] eqn:Hesc; [|discriminate].
    exact (Encode_OK_well_formed s escaped Hesc). }
  split; [exact Hw|]. rewrite (base64Encode_utf8 s Hr Hw) in He. congruence.
Qed.

(** X18. [base64Encode] never gives two different texts the same
    encoding. *)
Theorem base64Encode_injective (s1 s2 encoded : jsstring) :
  Forall is_code_unit s1 ->
  Forall is_code_unit s2 ->
  base64Encode (VStr s1) = OK encoded ->
  base64Encode (VStr s2) = OK encoded ->
  s1 = s2.
Proof.
  intros H1 H2 E1 E2.
  destruct (base64Encode_OK_inv s1 encoded H1 E1) as [W1 D1].
  destruct (base64Encode_OK_inv s2 encoded H2 E2) as [W2 D2].
  pose proof (base64_utf8_round_trip s1 H1 W1) as R1.
  pose proof (base64_utf8_round_trip s2 H2 W2) as R2.
  rewrite <- D1 in R1. rewrite <- D2 in R2. congruence.
Qed.

Lemma encode_groups (l : list Z) :
  exists groups : nat,
    List.length (Base64.encode l) = (4 * groups)%nat
    /\ (List.length l <= 3 * groups < List.length l + 3)%nat.
Proof.
  remember (List.length l) as n eqn:Hn. revert l Hn.
  induction n as [n IH] using lt_wf_ind. intros l Hn.
  destruct l as [|a [|b [|c r]]].
  - exists 0%nat. subst. cbn. lia.
  - exists 1%nat. subst. cbn. lia.
  - exists 1%nat. subst. cbn. lia.
  - destruct (IH (List.length r)) with (l := r) as (g & Hg & Hb);
      [subst; cbn; lia|reflexivity|].
    exists (S g). subst n. cbn [Base64.encode]. rewrite length_app, Hg. cbn. lia.
Qed.

Lemma char_is_base64 (i : Z) : 0 <= i < 64 -> is_base64_char (Base64.char i) = true.
Proof.
  intros H. unfold Base64.char, is_base64_char.
  destruct (Z.ltb_spec i 26); [lia|]. destruct (Z.ltb_spec i 52); [lia|].
  destruct (Z.ltb_spec i 62); [lia|]. destruct (Z.eqb_spec i 62); reflexivity.
Qed.

Lemma encode_alphabet (l : list Z) :
  Forall is_octet l -> forallb is_base64_char (Base64.encode l) = true.
Proof.
  remember (List.length l) as n eqn:Hn. revert l Hn.
  induction n as [n IH] using lt_wf_ind. intros l Hn Hl.
  destruct l as [|a [|b [|c r]]].
  - reflexivity.
  - inversion Hl as [|? ? Ha _]; subst. unfold is_octet in Ha.
    cbn [Base64.encode forallb]. rewrite !char_is_base64 by zsolve. reflexivity.
  - inversion Hl as [|? ? Ha Hl']; subst. inversion Hl' as [|? ? Hb _]; subst.
    unfold is_octet in Ha, Hb.
    cbn [Base64.encode forallb]. rewrite !char_is_base64 by zsolve. reflexivity.
  - inversion Hl as [|? ? Ha Hl']; subst. inversion Hl' as [|? ? Hb Hl'']; subst.
    inversion Hl'' as [|? ? Hc Hr]; subst.
    unfold is_octet in Ha, Hb, Hc.
    cbn [Base64.encode]. rewrite forallb_app. cbn [forallb].
    rewrite !char_is_base64 by zsolve.
    rewrite (IH (List.length r)); [reflexivity|cbn; lia|reflexivity|exact Hr].
Qed.

(** A Base64 text needs no escape inside a JSON string. *)
Lemma quote_units_base64 (e : jsstring) :
  forallb is_base64_char e = true -> quote_units e = e.
Proof.
  induction e as [|c t IH]; [reflexivity|].
  cbn [forallb]. intros H. apply andb_prop in H as [Hc Ht].
  cbn [quote_units]. unfold is_base64_char in Hc.
  replace (Unicode.is_lead c) with false by (unfold Unicode.is_lead; lia).
  unfold quote_unit.
  replace (c =? 8) with false by lia. replace (c =? 9) with false by lia.
  replace (c =? 10) with false by lia. replace (c =? 12) with false by lia.
  replace (c =? 13) with false by lia. replace (c =? 34) with false by lia.
  replace (c =? 92) with false by lia.
  replace ((c <? 32) || Unicode.is_lead c || Unicode.is_trail c) with false
    by (unfold Unicode.is_lead, Unicode.is_trail; lia).
  cbn [app]. now rewrite (IH Ht).
Qed.

(** X19. What [base64Encode] returns is a well-formed Base64 text: four
    characters for every three octets of the UTF-8 encoding (the last
    group padded), all of them from the Base64 alphabet or [=]; so it goes
    into the JSON body of the write as it is, between two quotes, without
    any escape. *)
Theorem base64Encode_output_shape (s encoded : jsstring) :
  Forall is_code_unit s ->
  base64Encode (VStr s) = OK encoded ->
  (exists groups : nat,
      List.length encoded = (4 * groups)%nat
      /\ (List.length (Unicode.utf8_encode s) <= 3 * groups
          < List.length (Unicode.utf8_encode s) + 3)%nat)
  /\ forallb is_base64_char encoded = true
  /\ JSON_stringify (VStr encoded) = Some ([34] ++ encoded ++ [34]).
Proof.
  intros Hr He. destruct (base64Encode_OK_inv s encoded Hr He) as [Hw ->].
  assert (Ha : forallb is_base64_char (Base64.encode (Unicode.utf8_encode s)) = true)
    by (apply encode_alphabet, utf8_encode_octets; assumption).
  split; [apply encode_groups|]. split; [exact Ha|].
  unfold JSON_stringify. cbn [SerializeJSONProperty]. unfold QuoteJSONString.
  now rewrite (quote_units_base64 _ Ha).
Qed.

Lemma ascii_text (s : jsstring) :
  forallb is_ascii s = true ->
  Forall is_code_unit s
  /\ Unicode.isWellFormed s = true
  /\ Unicode.utf8_encode s = s.
Proof.
  induction s as [|c t IH]; [repeat split; constructor|].
  cbn [forallb]. intros H. apply andb_prop in H as [Hc Ht].
  destruct (IH Ht) as (Hr & Hw & Hu). unfold is_ascii in Hc.
  assert (Hl : Unicode.is_lead c = false) by (unfold Unicode.is_lead; lia).
  assert (Htr : Unicode.is_trail c = false) by (unfold Unicode.is_trail; lia).
  split; [|split].
  - constructor; [unfold is_code_unit; lia|exact Hr].
  - cbn [Unicode.isWellFormed]. now rewrite Hl, Htr.
  - unfold Unicode.utf8_encode in *. cbn [Unicode.code_points]. rewrite Hl.
    cbn [flat_map]. rewrite Hu. unfold Unicode.utf8_octets.
    replace (c <? 128) with true by lia. reflexivity.
Qed.

(** X20. On a text of ASCII characters the UTF-8 step changes nothing:
    [base64Encode(s)] is [btoa(s)]. *)
Theorem base64Encode_ascii (s : jsstring) :
  forallb is_ascii s = true ->
  base64Encode (VStr s) = Base64.btoa s
  /\ Base64.btoa s = OK (Base64.encode s).
Proof.
  intros H. destruct (ascii_text s H) as (Hr & Hw & Hu).
  assert (Hb : Base64.btoa s = OK (Base64.encode s)).
  { apply btoa_octets. rewrite <- Hu. apply utf8_encode_octets; assumption. }
  split; [|exact Hb].
  rewrite (base64Encode_utf8 s Hr Hw), Hu. now symmetry.
Qed.

(** X21. A field whose value is [undefined] is left out of the body of a
    [jsonResponse]: the response is the one of the object without the
    field. *)
Theorem jsonResponse_drops_undefined (before after : list (jsstring * value))
    (k : jsstring) (status : Z) :
  jsonResponse (before ++ (k, VUndefined) :: after) status
  = jsonResponse (before ++ after) status.
Proof.
  unfold jsonResponse, JSON_stringify. cbn [SerializeJSONProperty].
  do 3 f_equal. cbn [app].
  induction before as [|[k' v'] before IH]; [reflexivity|].
  cbn [app]. cbv beta match fix. rewrite IH. reflexivity.
Qed.

End EncoderMore.

(** ** The further properties at work on the mock runtimes *)

Section MoreRuns.

Import Mock.

Example ToString_of_arrays :
  ToString (VArr [str "a"; VNull; VArr [str "b"; VUndefined]; VObj [(js "x", VNull)]])
  = OK (js "a,,b,,[object Object]")
  /\ ToString (VArr [str "a"; VObj [(js "toString", str "x")]]) = Throw cannot_convert.
Proof. split; reflexivity. Qed.

Example Headers_get_joins_repeated_headers :
  Headers_get [(js "x-hub-signature-256", js "sha256=00"); (js "accept", js "*/*");
               (js "X-Hub-Signature-256", js "sha256=11")]
    (js "x-hub-signature-256")
  = Some (js "sha256=00, sha256=11")
  /\ Headers_get [(js "accept", js "*/*")] (js "x-hub-signature-256") = None.
Proof. split; reflexivity. Qed.

Lemma responses_are_json_witness :
  resp_headers (mk_Response 404 [(js "content-type", js "application/json")]
                  (quoted "{'error':'Not Found'}"))
  = [(js "content-type", js "application/json")]
  \/ (js "/favicon.ico" = js "/webhook"
      /\ js "GET" <> js "POST"
      /\ mk_Response 404 [(js "content-type", js "application/json")]
           (quoted "{'error':'Not Found'}")
         = mk_Response 200 [(js "content-type", js "text/plain;charset=UTF-8")]
             (js "OK")).
Proof.
  exact (responses_are_json (mk_Request (js "GET") (js "/favicon.ico") [] []) env
           (start []) _ eq_refl).
Defined.

Lemma fetch_refuses_without_effects_witness :
  (exists resp,
      fetch (mk_Request (js "GET") (js "/update") [] (json "{'content':'hello'}"))
        env (start []) = (OK resp, start [])
      /\ resp_status resp = 405)
  /\ (exists resp,
         fetch (post "/Update" [] (json "{'content':'hello'}")) env (start [])
         = (OK resp, start [])
         /\ resp_status resp = 404).
Proof.
  split.
  - destruct (fetch_refuses_without_effects
                (mk_Request (js "GET") (js "/update") [] (json "{'content':'hello'}"))
                env (start [])) as (H & _).
    eexists. split; [apply H; [reflexivity|discriminate]|reflexivity].
  - destruct (fetch_refuses_without_effects
                (post "/Update" [] (json "{'content':'hello'}")) env (start []))
      as (_ & H).
    eexists. split; [apply H; discriminate|reflexivity].
Defined.

Lemma network_only_for_update_witness :
  req_pathname update_hello = js "/update"
  /\ req_method update_hello = js "POST"
  /\ exists body,
       JSON_parse (req_body update_hello) = OK body
       /\ ToBoolean (prop body (js "content")) = true.
Proof.
  apply (network_only_for_update update_hello env
           (start [answers 200 "{'sha':'abc'}"; answers 200 "{'commit':{'sha':'def'}}"])
           (trace (snd (fetch update_hello env
                          (start [answers 200 "{'sha':'abc'}";
                                  answers 200 "{'commit':{'sha':'def'}}"]))))).
  - reflexivity.
  - reflexivity.
Defined.

(** The script is empty: the mock network is down. *)
Lemma update_read_rejected_witness :
  exists w',
    fetch update_hello env (start [])
    = (OK (mk_Response 500 [(js "content-type", js "application/json")]
             (quoted "{'error':'Network connection lost.'}")), w')
    /\ existsb is_write (trace w') = false.
Proof.
  destruct (update_read_rejected update_hello env (start [])
              (VObj [(js "content", str "hello")]) (str "hello")
              (new_TypeError (js "Network connection lost.")) []
              eq_refl eq_refl eq_refl eq_refl eq_refl eq_refl)
    as (_ & H & _).
  eexists. split; [exact H|reflexivity].
Defined.

Lemma update_unpaired_surrogate_witness :
  exists w',
    @handleUpdate Mock2.platform (post "/update" [] (quoted "{'content':'\ud800'}")) env
      (Mock2.start [answers 200 "{'sha':'abc'}"])
    = (Throw URI.URI_malformed, w')
    /\ existsb is_write (trace w') = false.
Proof.
  destruct (@update_unpaired_surrogate Mock2.platform
              (post "/update" [] (quoted "{'content':'\ud800'}")) env
              (Mock2.start [answers 200 "{'sha':'abc'}"])
              (VObj [(js "content", VStr [0xD800])]) (VObj [(js "sha", str "abc")])
              [0xD800] (mk_http_response 200 (json "{'sha':'abc'}")) []
              eq_refl eq_refl eq_refl eq_refl eq_refl eq_refl eq_refl eq_refl eq_refl)
    as (H & _ & _).
  eexists. split; [exact H|reflexivity].
Defined.

Lemma update_write_answered_null_witness :
  exists w',
    handleUpdate update_hello env
      (start [answers 200 "{'sha':'abc'}"; answers 200 "null"])
    = (Throw (new_TypeError (js "Cannot read properties of null (reading 'commit')")),
       w')
    /\ List.length (filter is_write (trace w')) = 1%nat.
Proof.
  destruct (update_write_answered_null update_hello env
              (start [answers 200 "{'sha':'abc'}"; answers 200 "null"])
              (VObj [(js "content", str "hello")]) (str "hello")
              (VObj [(js "sha", str "abc")]) (js "aGVsbG8=")
              (mk_http_response 200 (json "{'sha':'abc'}"))
              (mk_http_response 200 (json "null"))
              [answers 200 "null"] []
              eq_refl eq_refl eq_refl eq_refl eq_refl eq_refl eq_refl eq_refl eq_refl
              eq_refl eq_refl eq_refl eq_refl)
    as (H & _ & _).
  eexists. split; [exact H|reflexivity].
Defined.

Lemma update_object_content_witness :
  (exists evs,
      trace (snd (handleUpdate (post "/update" [] (json "{'content':{}}")) env
                    (start [answers 200 "{'sha':'abc'}";
                            answers 200 "{'commit':{'sha':'def'}}"])))
      = [] ++ evs
      /\ map (fun e => match e with EvFetch r => fr_body r | _ => None end)
           (filter is_write evs)
         = [Some (quoted "{'message':'auto update images.txt','content':'W29iamVjdCBPYmplY3Rd','sha':'abc','branch':'main'}")])
  /\ (exists w',
         @handleUpdate Mock2.platform
           (post "/update" [] (quoted "{'content':{'toString':null}}")) env
           (Mock2.start [answers 200 "{'sha':'abc'}";
                         answers 200 "{'commit':{'sha':'def'}}"])
         = (Throw (new_TypeError (js "Cannot convert object to primitive value")), w')
         /\ existsb is_write (trace w') = false).
Proof.
  split.
  - destruct (update_object_content (post "/update" [] (json "{'content':{}}")) env
                (start [answers 200 "{'sha':'abc'}"; answers 200 "{'commit':{'sha':'def'}}"])
                (VObj [(js "content", VObj [])]) (VObj [(js "sha", str "abc")]) []
                (mk_http_response 200 (json "{'sha':'abc'}"))
                [answers 200 "{'commit':{'sha':'def'}}"]
                eq_refl eq_refl eq_refl eq_refl eq_refl eq_refl eq_refl)
      as (Hplain & _ & _).
    destruct (Hplain eq_refl) as (evs & Htr & Hw).
    exists evs. split; [exact Htr|]. rewrite Hw. reflexivity.
  - destruct (@update_object_content Mock2.platform
                (post "/update" [] (quoted "{'content':{'toString':null}}")) env
                (Mock2.start [answers 200 "{'sha':'abc'}";
                              answers 200 "{'commit':{'sha':'def'}}"])
                (VObj [(js "content", VObj [(js "toString", VNull)])])
                (VObj [(js "sha", str "abc")]) [(js "toString", VNull)]
                (mk_http_response 200 (json "{'sha':'abc'}"))
                [answers 200 "{'commit':{'sha':'def'}}"]
                eq_refl eq_refl eq_refl eq_refl eq_refl eq_refl eq_refl)
      as (_ & Hthrow & _).
    destruct (Hthrow eq_refl) as (H & _).
    eexists. split; [exact H|reflexivity].
Defined.

Lemma update_null_body_witness :
  exists w',
    fetch (post "/update" [] (json "null")) env (start [])
    = (OK (jsonResponse
             [(js "error",
               VStr (js "Cannot read properties of null (reading 'content')"))] 500),
       w')
    /\ trace w' = [EvRequestText; EvJsonParse (json "null")].
Proof.
  destruct (update_null_body (post "/update" [] (json "null")) env (start [])
              eq_refl eq_refl eq_refl) as (H & _).
  eexists. split; [exact H|reflexivity].
Defined.

Lemma webhook_unsigned_delivery_witness :
  handleWebhook (post "/webhook" [] completed_run) env (start [])
  = (OK (mk_Response 401 [(js "content-type", js "application/json")]
           (quoted "{'error':'Invalid signature'}")),
     mk_world [] [EvRequestText]).
Proof.
  apply (webhook_unsigned_delivery (post "/webhook" [] completed_run) env (start [])).
  - reflexivity.
  - left. reflexivity.
Defined.

(** The secret of the deployment is empty: the key cannot be imported. *)
Lemma webhook_crypto_failure_witness :
  exists w',
    @fetch Mock2.platform (forged completed_run) Mock2.env_without_secret
      (Mock2.start [])
    = (OK (mk_Response 500 [(js "content-type", js "application/json")]
             (quoted "{'error':'Zero-length key is not supported'}")), w')
    /\ existsb is_json_parse (trace w') = false.
Proof.
  destruct (@webhook_crypto_failure Mock2.platform (forged completed_run)
              Mock2.env_without_secret (Mock2.start []) (js "sha256=0000")
              (mk_error (js "DataError") (js "Zero-length key is not supported"))
              eq_refl eq_refl eq_refl)
    as (w' & _ & Hnp & H).
  - discriminate.
  - left. reflexivity.
  - exists w'. split; [exact H|exact Hnp].
Defined.

Lemma webhook_malformed_payload_witness :
  exists w',
    fetch (signed (js "payload=1")) env (start [])
    = (OK (mk_Response 500 [(js "content-type", js "application/json")]
             (quoted "{'error':'Unexpected token'}")), w').
Proof.
  destruct (webhook_malformed_payload (signed (js "payload=1")) env (start [])
              (snd (verifySignature (js "payload=1")
                      (signature_header (signed (js "payload=1")))
                      (WEBHOOK_SECRET env) (record EvRequestText (start []))))
              (mk_error (js "SyntaxError") (js "Unexpected token"))
              eq_refl eq_refl eq_refl eq_refl)
    as (_ & H).
  eexists. exact H.
Defined.

Lemma webhook_null_payload_witness :
  exists w',
    fetch (signed (json "null")) env (start [])
    = (OK (jsonResponse
             [(js "error",
               VStr (js "Cannot read properties of null (reading 'action')"))] 500),
       w').
Proof.
  destruct (webhook_null_payload (signed (json "null")) env (start [])
              (snd (verifySignature (json "null")
                      (signature_header (signed (json "null")))
                      (WEBHOOK_SECRET env) (record EvRequestText (start []))))
              eq_refl eq_refl eq_refl eq_refl)
    as (_ & H).
  eexists. exact H.
Defined.

Lemma verified_token_shape_witness :
  (exists (key : list byte) (digest : list byte),
      subtle_importKey (Unicode.TextEncoder_encode (WEBHOOK_SECRET env)) = OK key
      /\ subtle_sign key (Unicode.TextEncoder_encode (json "null")) = OK digest
      /\ firstn 7 (token (json "null")) = js "sha256="
      /\ List.length (token (json "null")) = (7 + 2 * List.length digest)%nat
      /\ forallb is_lower_hex_digit (skipn 7 (token (json "null"))) = true)
  /\ token (json "null") = js "sha256=54bb"
  /\ fst (verifySignature (json "null") (Some (js "sha256=54BB"))
            (WEBHOOK_SECRET env) (start [])) = OK false.
Proof.
  split; [|split; [reflexivity|]].
  - destruct (verified_token_shape (json "null") (WEBHOOK_SECRET env)
                (token (json "null")) (start [])) as (H & _).
    apply H. reflexivity.
  - destruct (verified_token_shape (json "null") (WEBHOOK_SECRET env)
                (js "sha256=54BB") (start [])) as (_ & H).
    apply (H (Unicode.TextEncoder_encode (WEBHOOK_SECRET env))
             [Unicode.octet_to_byte
                (checksum (Unicode.TextEncoder_encode (WEBHOOK_SECRET env)));
              Unicode.octet_to_byte (checksum (Unicode.TextEncoder_encode (json "null")))]
             eq_refl eq_refl).
    right. right. reflexivity.
Defined.

(** The text decoded from ["aOKCrA=="] and the text [h] followed by the
    euro sign have the same encoding, so they are the same text. *)
Lemma base64Encode_injective_witness :
  match decode_base64_utf8 (js "aOKCrA==") with
  | Some s => [104; 0x20AC] = s
  | None => False
  end.
Proof.
  apply (base64Encode_injective [104; 0x20AC] [104; 0x20AC] (js "aOKCrA==")).
  - repeat constructor; unfold is_code_unit; lia.
  - repeat constructor; unfold is_code_unit; lia.
  - reflexivity.
  - reflexivity.
Defined.

Lemma base64Encode_output_shape_witness :
  (exists groups : nat,
      List.length (js "aOKCrA==") = (4 * groups)%nat
      /\ (List.length (Unicode.utf8_encode [104; 0x20AC]%Z) <= 3 * groups
          < List.length (Unicode.utf8_encode [104; 0x20AC]%Z) + 3)%nat)
  /\ forallb is_base64_char (js "aOKCrA==") = true
  /\ JSON_stringify (VStr (js "aOKCrA==")) = Some ([34] ++ js "aOKCrA==" ++ [34]).
Proof.
  apply (base64Encode_output_shape [104; 0x20AC] (js "aOKCrA==")).
  - repeat constructor; unfold is_code_unit; lia.
  - reflexivity.
Defined.

Lemma base64Encode_ascii_witness :
  base64Encode (str "images: nginx") = Base64.btoa (js "images: nginx")
  /\ Base64.btoa (js "images: nginx") = OK (js "aW1hZ2VzOiBuZ2lueA==").
Proof.
  apply (base64Encode_ascii (js "images: nginx")). reflexivity.
Defined.

End MoreRuns.
